(** * cpp_redis::subscriber: reply dispatch and reconnection

    A shallow embedding of [sources/core/subscriber.cpp] (with the member
    declarations of [includes/cpp_redis/core/subscriber.hpp]) and the
    properties of the publish/subscribe core that follow from it.

    The subscriber object is a record of its data members.  Every member
    function is a computation in a small monad [M] that threads the object,
    accumulates the observable effects (calls into the transport, into the
    sentinel, and invocations of user callbacks) as a trace of [event]s, and
    may end in a C++ exception.

    The three mutexes are not modelled: a member function runs from its
    first statement to its last as one step.  The one place where another
    thread matters to the properties below, a call of [cancel_reconnect]
    while the reconnect loop runs, is an explicit step of the loop's
    environment.  The body of the detached thread that
    [clear_ping_callbacks] starts is recorded in the trace as one event. *)

From Stdlib Require Import ZArith NArith String List Bool Lia.
From stdpp Require Import gmap strings list sorting.
Import ListNotations.

Set Warnings "-register-all".

Local Open Scope string_scope.
Local Open Scope list_scope.

(** ** Replies *)

(** [reply::string_type], as used by the constructor call
    [reply r = {"network failure", reply::string_type::error}]. *)
Inductive string_type := error | bulk_string | simple_string.

(** Modelled from the spec: the class [cpp_redis::reply] is declared in
    [cpp_redis/core/reply.hpp], which is not part of the sources at hand.
    Section 6 describes it as a tagged variant (array, string, integer,
    error, nil); the two-argument constructor used by
    [clear_ping_callbacks] shows that an error is a string reply tagged
    with [string_type::error]. *)
Inductive reply :=
| reply_null
| reply_string (value : string) (reply_type : string_type)
| reply_integer (value : Z)
| reply_array (rows : list reply).

Definition is_array (r : reply) : bool :=
  match r with reply_array _ => true | _ => false end.

Definition is_string (r : reply) : bool :=
  match r with reply_string _ _ => true | _ => false end.

Definition is_integer (r : reply) : bool :=
  match r with reply_integer _ => true | _ => false end.

Definition is_error (r : reply) : bool :=
  match r with reply_string _ error => true | _ => false end.

(** The accessors are only reached behind the matching [is_*] test; the
    default covers the branch in which the C++ accessor would throw. *)
Definition as_string (r : reply) : string :=
  match r with reply_string v _ => v | _ => "" end.

Definition as_integer (r : reply) : Z :=
  match r with reply_integer v => v | _ => 0%Z end.

Definition as_array (r : reply) : list reply :=
  match r with reply_array rows => rows | _ => [] end.

(** [array[i]] on a [std::vector<reply>]; every use is guarded by a test on
    [size()]. *)
Definition at_index (array : list reply) (i : nat) : reply :=
  nth i array reply_null.

(** ** Callbacks

    A [std::function] is either empty ([nullptr], [None]) or holds a
    callable.  Callables supplied by the user are opaque and identified by
    a number; the two lambdas built by [re_auth] and [re_client_setname]
    are callables of the library itself. *)

Inductive reply_callable :=
| user_reply_callable (id : nat)
| re_auth_lambda
| re_client_setname_lambda.

Definition reply_callback_t := option reply_callable.
Definition subscribe_callback_t := option nat.
Definition acknowledgement_callback_t := option nat.
Definition connect_callback_t := option nat.

Record callback_holder := {
  subscribe_callback : subscribe_callback_t;
  acknowledgement_callback : acknowledgement_callback_t
}.

(** Modelled from the spec: the enumeration [connect_state] is declared in
    [cpp_redis/core/types.hpp], which is not part of the sources at hand;
    the tags are those of section 4.4 and those the code uses. *)
Inductive connect_state :=
| dropped | start | sleeping | ok | failed | lookup_failed | stopped.

(** ** Observable effects *)

Inductive event :=
| ev_connect_callback (cb : nat) (host : string) (port : N) (status : connect_state)
| ev_client_connect (host : string) (port : N) (timeout_ms : N) (use_encryption : bool)
| ev_client_send (redis_cmd : list string)
| ev_client_commit
| ev_client_disconnect (wait_for_removal : bool)
| ev_sentinel_get_master_addr_by_name (name : string)
| ev_sleep_for (ms : N)
| ev_cancel_reconnect
| ev_reply_callback (cb : reply_callable) (r : reply)
| ev_acknowledgement_callback (cb : nat) (nb_chans : Z)
| ev_subscribe_callback (cb : subscribe_callback_t) (channel message : string)
| ev_thread_detached (body : list event).

(** ** The subscriber object *)

Record subscriber := {
  m_redis_server : string;
  m_redis_port : N;
  m_master_name : string;
  m_password : string;
  m_client_name : string;
  m_client_is_connected : bool;
  m_connect_timeout_ms : N;
  m_max_reconnects : Z;
  m_current_reconnect_attempts : Z;
  m_reconnect_interval_ms : N;
  m_use_encryption : bool;
  m_reconnecting : bool;
  m_cancel : bool;
  m_subscribed_channels : gmap string callback_holder;
  m_psubscribed_channels : gmap string callback_holder;
  m_connect_callback : connect_callback_t;
  m_ping_callbacks : list reply_callback_t;
  m_auth_reply_callback : reply_callback_t;
  m_client_setname_reply_callback : reply_callback_t
}.

(** The object right after construction: the in-class initialisers of the
    header and the constructor's initialiser list. *)
Definition subscriber_ctor : subscriber := {|
  m_redis_server := "";
  m_redis_port := 0%N;
  m_master_name := "";
  m_password := "";
  m_client_name := "";
  m_client_is_connected := false;
  m_connect_timeout_ms := 0%N;
  m_max_reconnects := 0%Z;
  m_current_reconnect_attempts := 0%Z;
  m_reconnect_interval_ms := 0%N;
  m_use_encryption := false;
  m_reconnecting := false;
  m_cancel := false;
  m_subscribed_channels := ∅;
  m_psubscribed_channels := ∅;
  m_connect_callback := None;
  m_ping_callbacks := [];
  m_auth_reply_callback := None;
  m_client_setname_reply_callback := None
|}.

(** Assignments to single members. *)
Definition set_redis_server (v : string) (s : subscriber) : subscriber :=
  let '(Build_subscriber _ a2 a3 a4 a5 a6 a7 a8 a9 a10 a11 a12 a13 a14 a15 a16 a17 a18 a19) := s in
  Build_subscriber v a2 a3 a4 a5 a6 a7 a8 a9 a10 a11 a12 a13 a14 a15 a16 a17 a18 a19.
Definition set_redis_port (v : N) (s : subscriber) : subscriber :=
  let '(Build_subscriber a1 _ a3 a4 a5 a6 a7 a8 a9 a10 a11 a12 a13 a14 a15 a16 a17 a18 a19) := s in
  Build_subscriber a1 v a3 a4 a5 a6 a7 a8 a9 a10 a11 a12 a13 a14 a15 a16 a17 a18 a19.
Definition set_master_name (v : string) (s : subscriber) : subscriber :=
  let '(Build_subscriber a1 a2 _ a4 a5 a6 a7 a8 a9 a10 a11 a12 a13 a14 a15 a16 a17 a18 a19) := s in
  Build_subscriber a1 a2 v a4 a5 a6 a7 a8 a9 a10 a11 a12 a13 a14 a15 a16 a17 a18 a19.
Definition set_password (v : string) (s : subscriber) : subscriber :=
  let '(Build_subscriber a1 a2 a3 _ a5 a6 a7 a8 a9 a10 a11 a12 a13 a14 a15 a16 a17 a18 a19) := s in
  Build_subscriber a1 a2 a3 v a5 a6 a7 a8 a9 a10 a11 a12 a13 a14 a15 a16 a17 a18 a19.
Definition set_client_name (v : string) (s : subscriber) : subscriber :=
  let '(Build_subscriber a1 a2 a3 a4 _ a6 a7 a8 a9 a10 a11 a12 a13 a14 a15 a16 a17 a18 a19) := s in
  Build_subscriber a1 a2 a3 a4 v a6 a7 a8 a9 a10 a11 a12 a13 a14 a15 a16 a17 a18 a19.
Definition set_client_is_connected (v : bool) (s : subscriber) : subscriber :=
  let '(Build_subscriber a1 a2 a3 a4 a5 _ a7 a8 a9 a10 a11 a12 a13 a14 a15 a16 a17 a18 a19) := s in
  Build_subscriber a1 a2 a3 a4 a5 v a7 a8 a9 a10 a11 a12 a13 a14 a15 a16 a17 a18 a19.
Definition set_max_reconnects (v : Z) (s : subscriber) : subscriber :=
  let '(Build_subscriber a1 a2 a3 a4 a5 a6 a7 _ a9 a10 a11 a12 a13 a14 a15 a16 a17 a18 a19) := s in
  Build_subscriber a1 a2 a3 a4 a5 a6 a7 v a9 a10 a11 a12 a13 a14 a15 a16 a17 a18 a19.
Definition set_current_reconnect_attempts (v : Z) (s : subscriber) : subscriber :=
  let '(Build_subscriber a1 a2 a3 a4 a5 a6 a7 a8 _ a10 a11 a12 a13 a14 a15 a16 a17 a18 a19) := s in
  Build_subscriber a1 a2 a3 a4 a5 a6 a7 a8 v a10 a11 a12 a13 a14 a15 a16 a17 a18 a19.
Definition set_reconnect_interval_ms (v : N) (s : subscriber) : subscriber :=
  let '(Build_subscriber a1 a2 a3 a4 a5 a6 a7 a8 a9 _ a11 a12 a13 a14 a15 a16 a17 a18 a19) := s in
  Build_subscriber a1 a2 a3 a4 a5 a6 a7 a8 a9 v a11 a12 a13 a14 a15 a16 a17 a18 a19.
Definition set_use_encryption (v : bool) (s : subscriber) : subscriber :=
  let '(Build_subscriber a1 a2 a3 a4 a5 a6 a7 a8 a9 a10 _ a12 a13 a14 a15 a16 a17 a18 a19) := s in
  Build_subscriber a1 a2 a3 a4 a5 a6 a7 a8 a9 a10 v a12 a13 a14 a15 a16 a17 a18 a19.
Definition set_reconnecting (v : bool) (s : subscriber) : subscriber :=
  let '(Build_subscriber a1 a2 a3 a4 a5 a6 a7 a8 a9 a10 a11 _ a13 a14 a15 a16 a17 a18 a19) := s in
  Build_subscriber a1 a2 a3 a4 a5 a6 a7 a8 a9 a10 a11 v a13 a14 a15 a16 a17 a18 a19.
Definition set_cancel (v : bool) (s : subscriber) : subscriber :=
  let '(Build_subscriber a1 a2 a3 a4 a5 a6 a7 a8 a9 a10 a11 a12 _ a14 a15 a16 a17 a18 a19) := s in
  Build_subscriber a1 a2 a3 a4 a5 a6 a7 a8 a9 a10 a11 a12 v a14 a15 a16 a17 a18 a19.
Definition set_subscribed_channels (v : gmap string callback_holder) (s : subscriber) : subscriber :=
  let '(Build_subscriber a1 a2 a3 a4 a5 a6 a7 a8 a9 a10 a11 a12 a13 _ a15 a16 a17 a18 a19) := s in
  Build_subscriber a1 a2 a3 a4 a5 a6 a7 a8 a9 a10 a11 a12 a13 v a15 a16 a17 a18 a19.
Definition set_psubscribed_channels (v : gmap string callback_holder) (s : subscriber) : subscriber :=
  let '(Build_subscriber a1 a2 a3 a4 a5 a6 a7 a8 a9 a10 a11 a12 a13 a14 _ a16 a17 a18 a19) := s in
  Build_subscriber a1 a2 a3 a4 a5 a6 a7 a8 a9 a10 a11 a12 a13 a14 v a16 a17 a18 a19.
Definition set_connect_callback (v : connect_callback_t) (s : subscriber) : subscriber :=
  let '(Build_subscriber a1 a2 a3 a4 a5 a6 a7 a8 a9 a10 a11 a12 a13 a14 a15 _ a17 a18 a19) := s in
  Build_subscriber a1 a2 a3 a4 a5 a6 a7 a8 a9 a10 a11 a12 a13 a14 a15 v a17 a18 a19.
Definition set_ping_callbacks (v : list reply_callback_t) (s : subscriber) : subscriber :=
  let '(Build_subscriber a1 a2 a3 a4 a5 a6 a7 a8 a9 a10 a11 a12 a13 a14 a15 a16 _ a18 a19) := s in
  Build_subscriber a1 a2 a3 a4 a5 a6 a7 a8 a9 a10 a11 a12 a13 a14 a15 a16 v a18 a19.
Definition set_auth_reply_callback (v : reply_callback_t) (s : subscriber) : subscriber :=
  let '(Build_subscriber a1 a2 a3 a4 a5 a6 a7 a8 a9 a10 a11 a12 a13 a14 a15 a16 a17 _ a19) := s in
  Build_subscriber a1 a2 a3 a4 a5 a6 a7 a8 a9 a10 a11 a12 a13 a14 a15 a16 a17 v a19.
Definition set_client_setname_reply_callback (v : reply_callback_t) (s : subscriber) : subscriber :=
  let '(Build_subscriber a1 a2 a3 a4 a5 a6 a7 a8 a9 a10 a11 a12 a13 a14 a15 a16 a17 a18 _) := s in
  Build_subscriber a1 a2 a3 a4 a5 a6 a7 a8 a9 a10 a11 a12 a13 a14 a15 a16 a17 a18 v.

(** ** The monad of member functions *)

(** [bad_function_call] is [std::bad_function_call], which the call of an
    empty [std::function] throws. *)
Inductive exception :=
| redis_error (what : string)
| transport_failure
| bad_function_call.

Inductive outcome (A : Type) :=
| Return (a : A)
| Throw (e : exception).
Arguments Return {A} a.
Arguments Throw {A} e.

Record run_result (A : Type) := RunResult {
  result : outcome A;
  object : subscriber;
  trace : list event
}.
Arguments RunResult {A} _ _ _.
Arguments result {A} _.
Arguments object {A} _.
Arguments trace {A} _.

Definition M (A : Type) : Type := subscriber → run_result A.

Definition ret {A} (a : A) : M A := λ s, RunResult (Return a) s [].

Definition bind {A B} (m : M A) (k : A → M B) : M B :=
  λ s,
    let r := m s in
    match result r with
    | Return a =>
        let r' := k a (object r) in
        RunResult (result r') (object r') (trace r ++ trace r')
    | Throw e => RunResult (Throw e) (object r) (trace r)
    end.

Definition throw {A} (e : exception) : M A := λ s, RunResult (Throw e) s [].

(** [try { m } catch (...) { }] *)
Definition try_catch_all (m : M unit) : M unit :=
  λ s, let r := m s in RunResult (Return tt) (object r) (trace r).

Definition get {A} (f : subscriber → A) : M A := λ s, RunResult (Return (f s)) s [].
Definition modify (f : subscriber → subscriber) : M unit := λ s, RunResult (Return tt) (f s) [].
Definition emit (e : event) : M unit := λ s, RunResult (Return tt) s [e].

Declare Scope sub_scope.
Delimit Scope sub_scope with sub.
Notation "x ← y ; z" := (bind y (λ x, z))
  (at level 20, y at level 100, z at level 200, only parsing) : sub_scope.
Notation "x ;; z" := (bind x (λ _, z))
  (at level 100, z at level 200, only parsing, right associativity) : sub_scope.
Local Open Scope sub_scope.

Definition when (b : bool) (m : M unit) : M unit := if b then m else ret tt.

(** ** Collaborators

    The transport ([network::redis_connection m_client]) and the sentinel
    client ([cpp_redis::sentinel m_sentinel]) are outside the sources at
    hand.  Each call into them is recorded in the trace, and what they
    answer (does the handshake succeed, does the flush succeed, which master
    does the sentinel name) is an argument of the member function that makes
    the call. *)

Definition is_connected : M bool := get m_client_is_connected.

(** Modelled from the spec: [redis_connection::connect] is not in the
    sources at hand.  Section 6 lists
    [connect(host, port, on_disconnect, on_receive, timeout, tls)], and
    section 7 says that a failed handshake raises; after a successful one
    [is_connected()] holds. *)
Definition client_connect (handshake_ok : bool)
    (host : string) (port : N) (timeout_ms : N) (use_encryption : bool) : M unit :=
  emit (ev_client_connect host port timeout_ms use_encryption) ;;
  if handshake_ok then modify (set_client_is_connected true)
  else throw transport_failure.

(** Modelled from the spec: [redis_connection::send] is not in the sources
    at hand; section 6 lists [send(command_tokens)], which buffers the
    command until [commit]. *)
Definition client_send (redis_cmd : list string) : M unit :=
  emit (ev_client_send redis_cmd).

(** Modelled from the spec: [redis_connection::commit] is not in the sources
    at hand; sections 4.4 and 7 say that it flushes the buffered commands
    and raises on a send failure. *)
Definition client_commit (flush_ok : bool) : M unit :=
  emit ev_client_commit ;;
  if flush_ok then ret tt else throw transport_failure.

(** Modelled from the spec: [redis_connection::disconnect] is not in the
    sources at hand; section 4.4 says that it closes the transport, after
    which [is_connected()] no longer holds. *)
Definition client_disconnect (wait_for_removal : bool) : M unit :=
  emit (ev_client_disconnect wait_for_removal) ;;
  modify (set_client_is_connected false).

(** What [m_sentinel.get_master_addr_by_name(name, host, port, true)] leaves
    in its two out-parameters and returns. *)
Record sentinel_answer := {
  master_found : bool;
  master_host : string;
  master_port : N
}.

(** Modelled from the spec: [sentinel::get_master_addr_by_name] is not in
    the sources at hand; section 6 gives its signature
    [get_master_addr_by_name(name, out_host, out_port, refresh) -> bool].
    The callers pass [m_redis_server] and [m_redis_port] as the two
    out-parameters. *)
Definition sentinel_get_master_addr_by_name (ans : sentinel_answer) (name : string) : M bool :=
  emit (ev_sentinel_get_master_addr_by_name name) ;;
  modify (set_redis_server (master_host ans)) ;;
  modify (set_redis_port (master_port ans)) ;;
  ret (master_found ans).

(** [if (m_connect_callback) m_connect_callback(host, port, status)] *)
Definition notify (host : string) (port : N) (status : connect_state) : M unit :=
  cb ← get m_connect_callback ;
  match cb with
  | Some f => emit (ev_connect_callback f host port status)
  | None => ret tt
  end.

(** ** Member functions, in the order of subscriber.cpp *)

Definition connect (handshake_ok : bool)
    (host : string) (port : N) (connect_callback : connect_callback_t)
    (timeout_ms : N) (max_reconnects : Z) (reconnect_interval_ms : N)
    (use_encryption : bool) : M unit :=
  (* Save for auto reconnects *)
  modify (set_redis_server host) ;;
  modify (set_redis_port port) ;;
  modify (set_connect_callback connect_callback) ;;
  modify (set_max_reconnects max_reconnects) ;;
  modify (set_reconnect_interval_ms reconnect_interval_ms) ;;
  modify (set_use_encryption use_encryption) ;;
  (* notify start *)
  notify host port start ;;
  client_connect handshake_ok host port timeout_ms use_encryption ;;
  (* notify end *)
  server ← get m_redis_server ;
  port' ← get m_redis_port ;
  notify server port' ok.

Definition connect_by_name (ans : sentinel_answer) (handshake_ok : bool)
    (name : string) (connect_callback : connect_callback_t)
    (timeout_ms : N) (max_reconnects : Z) (reconnect_interval_ms : N)
    (use_encryption : bool) : M unit :=
  modify (set_master_name name) ;;
  found ← sentinel_get_master_addr_by_name ans name ;
  if found then
    server ← get m_redis_server ;
    port ← get m_redis_port ;
    connect handshake_ok server port connect_callback timeout_ms max_reconnects
      reconnect_interval_ms use_encryption
  else
    throw (redis_error ("cpp_redis::subscriber::connect() could not find master for m_name " ++ name)).

Definition cancel_reconnect : M unit := modify (set_cancel true).

Definition auth (password : string) (reply_callback : reply_callback_t) : M unit :=
  modify (set_password password) ;;
  modify (set_auth_reply_callback reply_callback) ;;
  client_send ["AUTH"; password].

Definition client_setname (name : string) (reply_callback : reply_callback_t) : M unit :=
  modify (set_client_name name) ;;
  modify (set_client_setname_reply_callback reply_callback) ;;
  client_send ["CLIENT"; "SETNAME"; name].

(** The synthetic reply handed to the callbacks of unanswered pings. *)
Definition network_failure : reply := reply_string "network failure" error.

(** The body of the detached thread of [clear_ping_callbacks]: the
    [while (!callbacks.empty())] loop over the moved queue. *)
Fixpoint clear_ping_callbacks_thread (callbacks : list reply_callback_t) : list event :=
  match callbacks with
  | [] => []
  | callback :: callbacks' =>
      match callback with
      | Some f => [ev_reply_callback f network_failure]
      | None => []
      end ++ clear_ping_callbacks_thread callbacks'
  end.

Definition clear_ping_callbacks : M unit :=
  pending ← get m_ping_callbacks ;
  match pending with
  | [] => ret tt
  | _ :: _ =>
      (* callbacks = std::move(m_ping_callbacks) *)
      modify (set_ping_callbacks []) ;;
      emit (ev_thread_detached (clear_ping_callbacks_thread pending))
  end.

Definition disconnect (wait_for_removal : bool) : M unit :=
  client_disconnect wait_for_removal ;;
  clear_ping_callbacks.

Definition is_reconnecting : M bool := get m_reconnecting.

Definition unprotected_subscribe (channel : string)
    (callback : subscribe_callback_t)
    (acknowledgement_callback : acknowledgement_callback_t) : M unit :=
  modify (λ s, set_subscribed_channels
    (<[channel := {| subscribe_callback := callback;
                     acknowledgement_callback := acknowledgement_callback |}]>
       (m_subscribed_channels s)) s) ;;
  client_send ["SUBSCRIBE"; channel].

Definition subscribe (channel : string) (callback : subscribe_callback_t)
    (acknowledgement_callback : acknowledgement_callback_t) : M unit :=
  unprotected_subscribe channel callback acknowledgement_callback.

Definition unprotected_psubscribe (pattern : string)
    (callback : subscribe_callback_t)
    (acknowledgement_callback : acknowledgement_callback_t) : M unit :=
  modify (λ s, set_psubscribed_channels
    (<[pattern := {| subscribe_callback := callback;
                     acknowledgement_callback := acknowledgement_callback |}]>
       (m_psubscribed_channels s)) s) ;;
  client_send ["PSUBSCRIBE"; pattern].

Definition psubscribe (pattern : string) (callback : subscribe_callback_t)
    (acknowledgement_callback : acknowledgement_callback_t) : M unit :=
  unprotected_psubscribe pattern callback acknowledgement_callback.

Definition unsubscribe (channel : string) : M unit :=
  channels ← get m_subscribed_channels ;
  match channels !! channel with
  | None => ret tt
  | Some _ =>
      client_send ["UNSUBSCRIBE"; channel] ;;
      modify (λ s, set_subscribed_channels (delete channel (m_subscribed_channels s)) s)
  end.

Definition punsubscribe (pattern : string) : M unit :=
  channels ← get m_psubscribed_channels ;
  match channels !! pattern with
  | None => ret tt
  | Some _ =>
      client_send ["PUNSUBSCRIBE"; pattern] ;;
      modify (λ s, set_psubscribed_channels (delete pattern (m_psubscribed_channels s)) s)
  end.

Definition commit (flush_ok : bool) : M unit := client_commit flush_ok.

Definition ping (message : string) (reply_callback : reply_callback_t) : M unit :=
  (if String.eqb message "" then client_send ["PING"]
   else client_send ["PING"; message]) ;;
  modify (λ s, set_ping_callbacks (m_ping_callbacks s ++ [reply_callback]) s).

Definition call_acknowledgement_callback (channel : string)
    (channels : gmap string callback_holder) (nb_chans : Z) : M unit :=
  match channels !! channel with
  | None => ret tt
  | Some holder =>
      match acknowledgement_callback holder with
      | Some f => emit (ev_acknowledgement_callback f nb_chans)
      | None => ret tt
      end
  end.

Definition handle_acknowledgement_reply (reply : list reply) : M unit :=
  match reply with
  | [title; channel; nb_chans] =>
      if negb (is_string title) || negb (is_string channel) || negb (is_integer nb_chans)
      then ret tt
      else if String.eqb (as_string title) "subscribe" then
        channels ← get m_subscribed_channels ;
        call_acknowledgement_callback (as_string channel) channels (as_integer nb_chans)
      else if String.eqb (as_string title) "psubscribe" then
        channels ← get m_psubscribed_channels ;
        call_acknowledgement_callback (as_string channel) channels (as_integer nb_chans)
      else ret tt
  | _ => ret tt
  end.

Definition handle_subscribe_reply (reply : list reply) : M unit :=
  match reply with
  | [title; channel; message] =>
      if negb (is_string title) || negb (is_string channel) || negb (is_string message)
      then ret tt
      else if negb (String.eqb (as_string title) "message") then ret tt
      else
        channels ← get m_subscribed_channels ;
        match channels !! as_string channel with
        | None => ret tt
        | Some holder =>
            (* it->second.subscribe_callback(...), with no test for emptiness *)
            match subscribe_callback holder with
            | Some f =>
                emit (ev_subscribe_callback (Some f) (as_string channel) (as_string message))
            | None => throw bad_function_call
            end
        end
  | _ => ret tt
  end.

Definition handle_psubscribe_reply (reply : list reply) : M unit :=
  match reply with
  | [title; pchannel; channel; message] =>
      if negb (is_string title) || negb (is_string pchannel)
         || negb (is_string channel) || negb (is_string message)
      then ret tt
      else if negb (String.eqb (as_string title) "pmessage") then ret tt
      else
        channels ← get m_psubscribed_channels ;
        match channels !! as_string pchannel with
        | None => ret tt
        | Some holder =>
            (* it->second.subscribe_callback(...), with no test for emptiness *)
            match subscribe_callback holder with
            | Some f =>
                emit (ev_subscribe_callback (Some f) (as_string channel) (as_string message))
            | None => throw bad_function_call
            end
        end
  | _ => ret tt
  end.

Definition handle_ping_reply (reply : reply) : M unit :=
  if negb (is_array reply) || negb (length (as_array reply) =? 2)%nat then ret tt
  else
    let pong := at_index (as_array reply) 0 in
    let pongmsg := at_index (as_array reply) 1 in
    if negb (is_string pong) || negb (is_string pongmsg) then ret tt
    else
      pending ← get m_ping_callbacks ;
      callback ← match pending with
                 | front :: rest => modify (set_ping_callbacks rest) ;; ret front
                 | [] => ret None
                 end ;
      match callback with
      | Some f => emit (ev_reply_callback f reply)
      | None => ret tt
      end.

Definition connection_receive_handler (reply : reply) : M unit :=
  if negb (is_array reply) then
    auth_cb ← get m_auth_reply_callback ;
    match auth_cb with
    | Some f =>
        emit (ev_reply_callback f reply) ;;
        modify (set_auth_reply_callback None)
    | None =>
        setname_cb ← get m_client_setname_reply_callback ;
        match setname_cb with
        | Some g =>
            emit (ev_reply_callback g reply) ;;
            modify (set_client_setname_reply_callback None)
        | None => ret tt
        end
    end
  else
    let array := as_array reply in
    if (length array =? 3)%nat && is_integer (at_index array 2) then
      handle_acknowledgement_reply array
    else if (length array =? 3)%nat && is_string (at_index array 2) then
      handle_subscribe_reply array
    else if (length array =? 4)%nat then
      handle_psubscribe_reply array
    else if (length array =? 2)%nat && is_string (at_index array 0)
            && String.eqb (as_string (at_index array 0)) "pong" then
      handle_ping_reply reply
    else ret tt.

Definition clear_subscriptions : M unit :=
  modify (set_subscribed_channels ∅) ;;
  modify (set_psubscribed_channels ∅).

Definition sleep_before_next_reconnect_attempt : M unit :=
  interval ← get m_reconnect_interval_ms ;
  if (interval <=? 0)%N then ret tt
  else
    server ← get m_redis_server ;
    port ← get m_redis_port ;
    notify server port sleeping ;;
    emit (ev_sleep_for interval).

Definition should_reconnect : M bool :=
  get (λ s, negb (m_client_is_connected s) && negb (m_cancel s)
            && ((m_max_reconnects s =? -1)%Z
                || (m_current_reconnect_attempts s <? m_max_reconnects s)%Z)).

(** [std::int32_t] arithmetic, two's complement. *)
Definition int32_wrap (z : Z) : Z := ((z + 2 ^ 31) mod 2 ^ 32 - 2 ^ 31)%Z.

(** Iteration over a [std::map<std::string, callback_holder>]: ascending
    keys, [std::string] being ordered lexicographically by character code. *)
Definition key_le (x y : string * callback_holder) : Prop := String.leb x.1 y.1.

#[global] Instance key_le_dec x y : Decision (key_le x y).
Proof. unfold key_le. apply _. Defined.

Definition map_begin_to_end (m : gmap string callback_holder) : list (string * callback_holder) :=
  merge_sort key_le (map_to_list m).

Fixpoint for_each {A} (l : list A) (body : A → M unit) : M unit :=
  match l with
  | [] => ret tt
  | x :: l' => body x ;; for_each l' body
  end.

(** The moved-from maps are left empty by [std::move]. *)
Definition re_subscribe : M unit :=
  sub_chans ← get m_subscribed_channels ;
  modify (set_subscribed_channels ∅) ;;
  for_each (map_begin_to_end sub_chans) (λ chan,
    unprotected_subscribe chan.1 (subscribe_callback chan.2)
      (acknowledgement_callback chan.2)) ;;
  psub_chans ← get m_psubscribed_channels ;
  modify (set_psubscribed_channels ∅) ;;
  for_each (map_begin_to_end psub_chans) (λ chan,
    unprotected_psubscribe chan.1 (subscribe_callback chan.2)
      (acknowledgement_callback chan.2)).

Definition re_auth : M unit :=
  password ← get m_password ;
  if String.eqb password "" then ret tt
  else auth password (Some re_auth_lambda).

Definition re_client_setname : M unit :=
  name ← get m_client_name ;
  if String.eqb name "" then ret tt
  else client_setname name (Some re_client_setname_lambda).

(** What happens around the subscriber during one iteration of the reconnect
    loop: what the collaborators answer, and whether the caller's thread
    calls [cancel_reconnect] while the loop is between its test and its
    attempt, that is, while it sleeps. *)
Record attempt_env := {
  cancel_during_sleep : bool;
  sentinel_says : sentinel_answer;
  handshake_succeeds : bool;
  flush_succeeds : bool
}.

Definition reconnect (env : attempt_env) : M unit :=
  (* increase the number of attempts to reconnect *)
  modify (λ s, set_current_reconnect_attempts
                 (int32_wrap (m_current_reconnect_attempts s + 1)) s) ;;
  master_name ← get m_master_name ;
  master_known ←
    (if String.eqb master_name "" then ret true
     else sentinel_get_master_addr_by_name (sentinel_says env) master_name) ;
  if negb master_known then
    server ← get m_redis_server ;
    port ← get m_redis_port ;
    notify server port lookup_failed
  else
    server ← get m_redis_server ;
    port ← get m_redis_port ;
    connect_callback ← get m_connect_callback ;
    timeout_ms ← get m_connect_timeout_ms ;
    max_reconnects ← get m_max_reconnects ;
    interval_ms ← get m_reconnect_interval_ms ;
    use_encryption ← get m_use_encryption ;
    try_catch_all
      (connect (handshake_succeeds env) server port connect_callback timeout_ms
         max_reconnects interval_ms use_encryption) ;;
    connected ← is_connected ;
    server ← get m_redis_server ;
    port ← get m_redis_port ;
    if negb connected then notify server port failed
    else
      (* notify end *)
      notify server port ok ;;
      re_auth ;;
      re_client_setname ;;
      re_subscribe ;;
      commit (flush_succeeds env).

(** A call of [cancel_reconnect] by the caller's thread while the reconnect
    loop runs on the transport's thread.  The call is one atomic store, and
    the loop reads the flag only in [should_reconnect], so all that matters
    of the interleaving is whether the store lands before that test or after
    it. *)
Definition caller_cancels : M unit :=
  emit ev_cancel_reconnect ;;
  cancel_reconnect.

(** [while (should_reconnect()) { sleep_before_next_reconnect_attempt();
    reconnect(); }].  The loop consumes one [attempt_env] per iteration; the
    result is [true] when the loop condition became false and [false] when
    the script of answers ran out with the loop still going. *)
Fixpoint reconnect_loop (script : list attempt_env) : M bool :=
  match script with
  | [] => again ← should_reconnect ; ret (negb again)
  | env :: script' =>
      again ← should_reconnect ;
      if again then
        sleep_before_next_reconnect_attempt ;;
        when (cancel_during_sleep env) caller_cancels ;;
        reconnect env ;;
        reconnect_loop script'
      else ret true
  end.

Definition connection_disconnection_handler (script : list attempt_env) : M bool :=
  reconnecting ← is_reconnecting ;
  (* leave right now if we are already dealing with reconnection *)
  if reconnecting then ret true
  else
    (* initiate reconnection process *)
    modify (set_reconnecting true) ;;
    modify (set_current_reconnect_attempts 0) ;;
    server ← get m_redis_server ;
    port ← get m_redis_port ;
    notify server port dropped ;;
    clear_ping_callbacks ;;
    finished ← reconnect_loop script ;
    if negb finished then ret false
    else
      connected ← is_connected ;
      when (negb connected)
        (clear_subscriptions ;;
         server ← get m_redis_server ;
         port ← get m_redis_port ;
         (* Tell the user we gave up! *)
         notify server port stopped) ;;
      (* terminate reconnection *)
      modify (set_reconnecting false) ;;
      ret true.

(** Running a member function on an object. *)
Definition exec {A} (m : M A) (s : subscriber) : subscriber := object (m s).
Definition effects {A} (m : M A) (s : subscriber) : list event := trace (m s).

(** ** Notions used to state the properties *)

(** [keeps I P m]: running [m] on an object that satisfies [I] leaves an
    object that satisfies [I], and every event of the run satisfies [P]. *)
Definition keeps (I : subscriber → Prop) (P : event → Prop) {A} (m : M A) : Prop :=
  ∀ s, I s → I (object (m s)) ∧ Forall P (trace (m s)).

(** The one-shot slots that are armed, in the order in which the receive
    handler looks at them. *)
Definition armed_one_shots (s : subscriber) : list reply_callable :=
  option_list (m_auth_reply_callback s)
  ++ option_list (m_client_setname_reply_callback s).

(** *** The reply classifier and the dispatcher as the specification words them

    These definitions follow sections 4.2 and 4.3 of the specification, not
    the code, with the kinds of the elements that a rule names written out;
    the theorems below compare them with [connection_receive_handler]. *)

Inductive classification :=
| class_oob
| class_ack_subscribe (channel : string) (count : Z)
| class_ack_psubscribe (pattern : string) (count : Z)
| class_message (channel payload : string)
| class_pmessage (pattern channel payload : string)
| class_pong
| class_discarded.

(** The six rules of section 4.2, in their order.  A class carries the
    fields its rule names (title, channel, pattern and payload are strings,
    the count is an integer); a reply in which such a field has another
    kind is misshapen and falls to the last rule, as does an
    acknowledgement with another title than "subscribe" and "psubscribe". *)
Definition spec_classify (r : reply) : classification :=
  match r with
  | reply_array [e0; e1; reply_integer count] =>
      match e0, e1 with
      | reply_string title _, reply_string name _ =>
          if String.eqb title "subscribe" then class_ack_subscribe name count
          else if String.eqb title "psubscribe" then class_ack_psubscribe name count
          else class_discarded
      | _, _ => class_discarded
      end
  | reply_array [reply_string title _; reply_string channel _; reply_string payload _] =>
      if String.eqb title "message" then class_message channel payload
      else class_discarded
  | reply_array [reply_string title _; reply_string pattern _;
                 reply_string channel _; reply_string payload _] =>
      if String.eqb title "pmessage" then class_pmessage pattern channel payload
      else class_discarded
  | reply_array [reply_string title _; _] =>
      if String.eqb title "pong" then class_pong else class_discarded
  | reply_array _ => class_discarded
  | _ => class_oob
  end.

(** OOB: "consumed by the AUTH one-shot first if present, else by the CLIENT
    SETNAME one-shot; if neither is armed, discard"; the handler that fires
    is disarmed. *)
Definition spec_oob_dispatch (r : reply) : M unit :=
  λ s,
    match m_auth_reply_callback s with
    | Some f =>
        RunResult (Return tt) (set_auth_reply_callback None s) [ev_reply_callback f r]
    | None =>
        match m_client_setname_reply_callback s with
        | Some g =>
            RunResult (Return tt) (set_client_setname_reply_callback None s)
              [ev_reply_callback g r]
        | None => RunResult (Return tt) s []
        end
    end.

(** ack: "look up name, if found and an ack handler exists, invoke it with
    the integer subscription count". *)
Definition spec_ack_dispatch (table : gmap string callback_holder)
    (name : string) (count : Z) : M unit :=
  λ s,
    match table !! name with
    | Some holder =>
        match acknowledgement_callback holder with
        | Some f => RunResult (Return tt) s [ev_acknowledgement_callback f count]
        | None => RunResult (Return tt) s []
        end
    | None => RunResult (Return tt) s []
    end.

(** message / pmessage: "look up by channel name (message) or pattern
    (pmessage), invoke the message handler with (channel, payload); a
    missing entry is silently ignored". *)
Definition spec_message_dispatch (table : gmap string callback_holder)
    (key channel payload : string) : M unit :=
  λ s,
    match table !! key with
    | Some holder =>
        RunResult (Return tt) s
          [ev_subscribe_callback (subscribe_callback holder) channel payload]
    | None => RunResult (Return tt) s []
    end.

(** pong: "pop the head of the ping FIFO; if it carries a handler, invoke
    the handler with the full reply; an empty FIFO means a stray pong;
    drop". *)
Definition spec_pong_dispatch (r : reply) : M unit :=
  λ s,
    match m_ping_callbacks s with
    | front :: rest =>
        RunResult (Return tt) (set_ping_callbacks rest s)
          match front with
          | Some f => [ev_reply_callback f r]
          | None => []
          end
    | [] => RunResult (Return tt) s []
    end.

(** The dispatcher of section 4.3 on a classified reply.  A reply of class
    pong is handed to the pong dispatch of the code, [handle_ping_reply];
    what that does is compared with [spec_pong_dispatch] separately. *)
Definition spec_dispatch (c : classification) (r : reply) : M unit :=
  λ s,
    match c with
    | class_oob => spec_oob_dispatch r s
    | class_ack_subscribe channel count =>
        spec_ack_dispatch (m_subscribed_channels s) channel count s
    | class_ack_psubscribe pattern count =>
        spec_ack_dispatch (m_psubscribed_channels s) pattern count s
    | class_message channel payload =>
        spec_message_dispatch (m_subscribed_channels s) channel channel payload s
    | class_pmessage pattern channel payload =>
        spec_message_dispatch (m_psubscribed_channels s) pattern channel payload s
    | class_pong => handle_ping_reply r s
    | class_discarded => RunResult (Return tt) s []
    end.

(** The message handler that the dispatcher of section 4.3 invokes on a
    classified reply, when it invokes one: the one registered with the
    channel of a message or with the pattern of a pmessage.  [Some None]
    says that the entry is there and that its message handler is empty. *)
Definition spec_message_handler (c : classification) (s : subscriber)
    : option subscribe_callback_t :=
  match c with
  | class_message channel _ => subscribe_callback <$> m_subscribed_channels s !! channel
  | class_pmessage pattern _ _ => subscribe_callback <$> m_psubscribed_channels s !! pattern
  | _ => None
  end.

(** *** Pings and their pongs *)

(** The reply the server sends to [PING message] on a connection in
    subscriber mode: the array [["pong", message]], with an empty string
    when the ping carried no message. *)
Definition pong_for (message : string) : reply :=
  reply_array [reply_string "pong" bulk_string; reply_string message bulk_string].





(** *** Callback invocations in a trace *)

(** The reply callbacks invoked in a trace, those invoked on detached
    threads included, with the reply each one receives. *)
Fixpoint reply_callback_calls_of (e : event) : list (reply_callable * reply) :=
  match e with
  | ev_reply_callback cb r => [(cb, r)]
  | ev_thread_detached body => flat_map reply_callback_calls_of body
  | _ => []
  end.

Definition reply_callback_calls (t : list event) : list (reply_callable * reply) :=
  flat_map reply_callback_calls_of t.

(** The callbacks waiting in a ping queue, oldest first; a ping issued
    without a callback waits with an empty [std::function]. *)
Definition pending_ping_callbacks (s : subscriber) : list reply_callable :=
  omap id (m_ping_callbacks s).

(** *** Calls into the transport in a trace *)

(** The calls made on [m_client], in their order. *)
Fixpoint transport_calls (t : list event) : list event :=
  match t with
  | [] => []
  | e :: t' =>
      match e with
      | ev_client_connect _ _ _ _ | ev_client_send _ | ev_client_commit
      | ev_client_disconnect _ => e :: transport_calls t'
      | _ => transport_calls t'
      end
  end.

(** The number of transport connect attempts in a trace. *)
Fixpoint client_connect_attempts (t : list event) : nat :=
  match t with
  | [] => 0
  | ev_client_connect _ _ _ _ :: t' => S (client_connect_attempts t')
  | _ :: t' => client_connect_attempts t'
  end.

Definition is_client_connect (e : event) : bool :=
  match e with ev_client_connect _ _ _ _ => true | _ => false end.

(** [connects_at_most n m]: a run of [m] makes at most [n] transport connect
    attempts. *)
Definition connects_at_most (n : nat) {A} (m : M A) : Prop :=
  ∀ s, (client_connect_attempts (trace (m s)) ≤ n)%nat.


(** *** The replay after a reconnection, as the specification words it *)

(** "(1) if password cached, send AUTH; (2) if client name cached, send
    CLIENT SETNAME; (3) ... buffer the matching subscribe command" for each
    entry of the channel table and of the pattern table. *)
Definition table_keys (m : gmap string callback_holder) : list string :=
  (map_begin_to_end m).*1.

Definition replay_commands (s : subscriber) : list (list string) :=
  (if String.eqb (m_password s) "" then [] else [["AUTH"; m_password s]])
  ++ (if String.eqb (m_client_name s) "" then []
      else [["CLIENT"; "SETNAME"; m_client_name s]])
  ++ ((λ channel, ["SUBSCRIBE"; channel]) <$> table_keys (m_subscribed_channels s))
  ++ ((λ pattern, ["PSUBSCRIBE"; pattern]) <$> table_keys (m_psubscribed_channels s)).

(** The address a reconnection attempt connects to: the cached one, or the
    one the sentinel names when a master name is set. *)
Definition reconnect_host (env : attempt_env) (s : subscriber) : string :=
  if String.eqb (m_master_name s) "" then m_redis_server s
  else master_host (sentinel_says env).

Definition reconnect_port (env : attempt_env) (s : subscriber) : N :=
  if String.eqb (m_master_name s) "" then m_redis_port s
  else master_port (sentinel_says env).

(** The object after the replay: the one-shot of AUTH holds the lambda of
    [re_auth] when a password is cached, the one of CLIENT SETNAME holds the
    lambda of [re_client_setname] when a client name is cached. *)
Definition after_replay (s : subscriber) : subscriber :=
  let s1 := if String.eqb (m_password s) "" then s
            else set_auth_reply_callback (Some re_auth_lambda) s in
  if String.eqb (m_client_name s) "" then s1
  else set_client_setname_reply_callback (Some re_client_setname_lambda) s1.

(** *** Objects and replies used in the examples *)

Definition holder_news : callback_holder :=
  {| subscribe_callback := Some 1; acknowledgement_callback := Some 2 |}.

Definition holder_pattern : callback_holder :=
  {| subscribe_callback := Some 3; acknowledgement_callback := None |}.

(** A connected subscriber with one channel, one pattern and one ping in
    flight. *)
Definition subscriber_example : subscriber :=
  set_ping_callbacks [Some (user_reply_callable 7)]
    (set_psubscribed_channels {["news.*" := holder_pattern]}
       (set_subscribed_channels {["news" := holder_news]}
          (set_client_is_connected true subscriber_ctor))).

Definition pong_with_integer : reply :=
  reply_array [reply_string "pong" bulk_string; reply_integer 5].

Definition no_sentinel : sentinel_answer :=
  {| master_found := false; master_host := ""; master_port := 0 |}.


Definition env_reconnects : attempt_env :=
  {| cancel_during_sleep := false; sentinel_says := no_sentinel;
     handshake_succeeds := true; flush_succeeds := true |}.

(** A subscriber after
    [connect("127.0.0.1", 6379, cb, 5000, 3, 100, false)], with callback
    [cb] number 9. *)
Definition subscriber_connected : subscriber :=
  exec (connect true "127.0.0.1" 6379 (Some 9) 5000 3 100 false) subscriber_ctor.

(** The same subscriber with password "pw", client name "svc", channel "x"
    and pattern "y.*", at the moment the transport reports that the
    connection is lost. *)
Definition subscriber_dropped : subscriber :=
  set_client_is_connected false
    (exec (auth "pw" None ;; client_setname "svc" None ;;
           subscribe "x" (Some 1) None ;; psubscribe "y.*" (Some 3) None ;;
           commit true)
       subscriber_connected).

(** The handshake succeeds and the flush of the replayed commands fails. *)
Definition env_flush_fails : attempt_env :=
  {| cancel_during_sleep := false; sentinel_says := no_sentinel;
     handshake_succeeds := true; flush_succeeds := false |}.

(** [subscriber_dropped] after a reconnection whose [commit] threw, then a
    [ping("b", cb)] with callback number 8, at the moment the transport
    reports that the connection is lost again. *)
Definition subscriber_dropped_again : subscriber :=
  set_client_is_connected false
    (exec (ping "b" (Some (user_reply_callable 8)))
       (object (connection_disconnection_handler [env_flush_fails] subscriber_dropped))).

(** A pmessage whose payload is an integer, for a pattern that is
    registered in [subscriber_example]. *)
Definition pmessage_with_integer_payload : reply :=
  reply_array [reply_string "pmessage" bulk_string; reply_string "news.*" bulk_string;
               reply_string "news.sports" bulk_string; reply_integer 5].

(** *** Replies as the server sends them on a connection in subscriber mode *)

Definition subscribe_ack_reply (channel : string) (nb_chans : Z) : reply :=
  reply_array [reply_string "subscribe" bulk_string; reply_string channel bulk_string;
               reply_integer nb_chans].

Definition psubscribe_ack_reply (pattern : string) (nb_chans : Z) : reply :=
  reply_array [reply_string "psubscribe" bulk_string; reply_string pattern bulk_string;
               reply_integer nb_chans].

Definition message_reply (channel payload : string) : reply :=
  reply_array [reply_string "message" bulk_string; reply_string channel bulk_string;
               reply_string payload bulk_string].

Definition pmessage_reply (pattern channel payload : string) : reply :=
  reply_array [reply_string "pmessage" bulk_string; reply_string pattern bulk_string;
               reply_string channel bulk_string; reply_string payload bulk_string].

(** *** Notifications and user callbacks in a trace *)

(** The states handed to the connect callback, in their order. *)
Definition connect_states (t : list event) : list connect_state :=
  omap (λ e, match e with
             | ev_connect_callback _ _ _ status => Some status
             | _ => None
             end) t.

(** The invocation of a callback supplied through [subscribe],
    [psubscribe], [auth], [client_setname] or [ping]. *)
Definition is_user_callback (e : event) : bool :=
  match e with
  | ev_reply_callback _ _ | ev_acknowledgement_callback _ _
  | ev_subscribe_callback _ _ _ => true
  | _ => false
  end.

(** The object [s] with the ping queue and the two one-shot slots of [s']:
    the members the receive handler writes. *)
Definition with_reply_slots_of (s' s : subscriber) : subscriber :=
  set_ping_callbacks (m_ping_callbacks s')
    (set_auth_reply_callback (m_auth_reply_callback s')
       (set_client_setname_reply_callback (m_client_setname_reply_callback s') s)).

(** The transport connects of a trace, each with the timeout it passes. *)
Definition client_connect_timeouts (t : list event) : list N :=
  omap (λ e, match e with
             | ev_client_connect _ _ timeout_ms _ => Some timeout_ms
             | _ => None
             end) t.

(** What a trace shows of the iterations of the reconnect loop: a pause
    ([std::this_thread::sleep_for]) with its length, and the first call that
    an attempt makes on a collaborator, which is the lookup of the master
    when a master name is set and the transport connect otherwise. *)
Inductive loop_step :=
| paused (ms : N)
| attempted.

Definition loop_steps (master_name : string) (t : list event) : list loop_step :=
  omap (λ e, match e with
             | ev_sleep_for ms => Some (paused ms)
             | ev_sentinel_get_master_addr_by_name _ =>
                 if String.eqb master_name "" then None else Some attempted
             | ev_client_connect _ _ _ _ =>
                 if String.eqb master_name "" then Some attempted else None
             | _ => None
             end) t.

(** The steps of one iteration: the pause, unless the interval is 0, and
    then the attempt. *)
Definition iteration_steps (interval_ms : N) : list loop_step :=
  if (interval_ms <=? 0)%N then [attempted] else [paused interval_ms; attempted].

(** *** The object during a reconnection attempt *)

(** The object once [reconnect] has counted the attempt and, when a master
    name is set, asked the sentinel for the master's address. *)
Definition attempt_counted (s : subscriber) : subscriber :=
  set_current_reconnect_attempts (int32_wrap (m_current_reconnect_attempts s + 1)) s.

Definition attempt_located (env : attempt_env) (s : subscriber) : subscriber :=
  if String.eqb (m_master_name s) "" then attempt_counted s
  else set_redis_port (master_port (sentinel_says env))
         (set_redis_server (master_host (sentinel_says env)) (attempt_counted s)).

(** The notification of [status] for the address of the attempt. *)
Definition attempt_notified (env : attempt_env) (s : subscriber)
    (status : connect_state) : list event :=
  match m_connect_callback s with
  | Some f => [ev_connect_callback f (reconnect_host env s) (reconnect_port env s) status]
  | None => []
  end.

Definition attempt_lookup (s : subscriber) : list event :=
  if String.eqb (m_master_name s) "" then []
  else [ev_sentinel_get_master_addr_by_name (m_master_name s)].

(** The notification of [status] for the address cached in [s]. *)
Definition notification (s : subscriber) (status : connect_state) : list event :=
  match m_connect_callback s with
  | Some f => [ev_connect_callback f (m_redis_server s) (m_redis_port s) status]
  | None => []
  end.

(** The events of [sleep_before_next_reconnect_attempt]. *)
Definition sleep_events (s : subscriber) : list event :=
  if (m_reconnect_interval_ms s <=? 0)%N then []
  else notification s sleeping ++ [ev_sleep_for (m_reconnect_interval_ms s)].

(** The events of [clear_ping_callbacks]: one detached thread when a ping
    is waiting, nothing otherwise. *)
Definition failed_pings (s : subscriber) : list event :=
  match m_ping_callbacks s with
  | [] => []
  | _ :: _ => [ev_thread_detached (clear_ping_callbacks_thread (m_ping_callbacks s))]
  end.

(** The loop test of the disconnection handler on its first evaluation,
    when the attempts have just been reset to 0. *)
Definition reconnection_enabled (s : subscriber) : bool :=
  negb (m_cancel s) && ((m_max_reconnects s =? -1)%Z || (0 <? m_max_reconnects s)%Z).

(** *** The life of a subscriber *)

(** What happens to a subscriber after its construction: the user calls a
    public member function, or the transport calls one of the two handlers
    that [connect] registered with it.  The answers of the collaborators
    come with the call. *)
Inductive call :=
| call_connect (handshake_ok : bool) (host : string) (port : N)
    (connect_callback : connect_callback_t) (timeout_ms : N) (max_reconnects : Z)
    (reconnect_interval_ms : N) (use_encryption : bool)
| call_connect_by_name (ans : sentinel_answer) (handshake_ok : bool) (name : string)
    (connect_callback : connect_callback_t) (timeout_ms : N) (max_reconnects : Z)
    (reconnect_interval_ms : N) (use_encryption : bool)
| call_cancel_reconnect
| call_auth (password : string) (reply_callback : reply_callback_t)
| call_client_setname (name : string) (reply_callback : reply_callback_t)
| call_disconnect (wait_for_removal : bool)
| call_subscribe (channel : string) (callback : subscribe_callback_t)
    (acknowledgement_callback : acknowledgement_callback_t)
| call_psubscribe (pattern : string) (callback : subscribe_callback_t)
    (acknowledgement_callback : acknowledgement_callback_t)
| call_unsubscribe (channel : string)
| call_punsubscribe (pattern : string)
| call_commit (flush_ok : bool)
| call_ping (message : string) (reply_callback : reply_callback_t)
| call_receive (r : reply)
| call_connection_lost (script : list attempt_env).

(** The transport calls the disconnection handler when it has lost the
    connection, at which point [m_client.is_connected()] is false. *)
Definition connection_lost (script : list attempt_env) : M bool :=
  modify (set_client_is_connected false) ;;
  connection_disconnection_handler script.

Definition run_call (c : call) : M unit :=
  match c with
  | call_connect handshake_ok host port cb timeout_ms max_reconnects interval_ms enc =>
      connect handshake_ok host port cb timeout_ms max_reconnects interval_ms enc
  | call_connect_by_name ans handshake_ok name cb timeout_ms max_reconnects interval_ms enc =>
      connect_by_name ans handshake_ok name cb timeout_ms max_reconnects interval_ms enc
  | call_cancel_reconnect => cancel_reconnect
  | call_auth password cb => auth password cb
  | call_client_setname name cb => client_setname name cb
  | call_disconnect wait_for_removal => disconnect wait_for_removal
  | call_subscribe channel cb ack => subscribe channel cb ack
  | call_psubscribe pattern cb ack => psubscribe pattern cb ack
  | call_unsubscribe channel => unsubscribe channel
  | call_punsubscribe pattern => punsubscribe pattern
  | call_commit flush_ok => commit flush_ok
  | call_ping message cb => ping message cb
  | call_receive r => connection_receive_handler r
  | call_connection_lost script => connection_lost script ;; ret tt
  end.

(** A sequence of calls; an exception that leaves a call is caught by the
    caller, who goes on with the next call. *)
Definition lifetime (calls : list call) : M unit :=
  for_each calls (λ c, try_catch_all (run_call c)).

(** *** Objects used in the examples of the reconnection *)

Definition env_handshake_fails : attempt_env :=
  {| cancel_during_sleep := false; sentinel_says := no_sentinel;
     handshake_succeeds := false; flush_succeeds := true |}.

Definition sentinel_names_master : sentinel_answer :=
  {| master_found := true; master_host := "10.0.0.2"; master_port := 6380 |}.

(** * Properties *)

(** ** Basic facts about the monad *)

Lemma bind_run {A B} (m : M A) (k : A → M B) s a :
  result (m s) = Return a →
  bind m k s = RunResult (result (k a (object (m s)))) (object (k a (object (m s))))
                 (trace (m s) ++ trace (k a (object (m s)))).
Proof. intros H. unfold bind. now rewrite H. Qed.

Lemma bind_run_throw {A B} (m : M A) (k : A → M B) s e :
  result (m s) = Throw e →
  bind m k s = RunResult (Throw e) (object (m s)) (trace (m s)).
Proof. intros H. unfold bind. now rewrite H. Qed.

Lemma bind_get {A B} (f : subscriber → A) (k : A → M B) s :
  bind (get f) k s = k (f s) s.
Proof. unfold bind, get; simpl. now destruct (k (f s) s). Qed.

Lemma bind_modify {B} (f : subscriber → subscriber) (k : unit → M B) s :
  bind (modify f) k s = k tt (f s).
Proof. unfold bind, modify; simpl. now destruct (k tt (f s)). Qed.

Lemma bind_emit {B} (e : event) (k : unit → M B) s :
  bind (emit e) k s
  = RunResult (result (k tt s)) (object (k tt s)) (e :: trace (k tt s)).
Proof. reflexivity. Qed.

Lemma bind_ret {A B} (a : A) (k : A → M B) s : bind (ret a) k s = k a s.
Proof. unfold bind, ret; simpl. now destruct (k a s). Qed.

Lemma bind_returns {A B} (m : M A) (k : A → M B) s a s' t :
  m s = RunResult (Return a) s' t →
  bind m k s = RunResult (result (k a s')) (object (k a s')) (t ++ trace (k a s')).
Proof. intros H. unfold bind. now rewrite H. Qed.

Lemma bind_throws {A B} (m : M A) (k : A → M B) s e s' t :
  m s = RunResult (Throw e) s' t →
  bind m k s = RunResult (Throw e) s' t.
Proof. intros H. unfold bind. now rewrite H. Qed.

Lemma notify_run (host : string) (port : N) (status : connect_state) (s : subscriber) :
  notify host port status s
  = RunResult (Return tt) s
      match m_connect_callback s with
      | Some f => [ev_connect_callback f host port status]
      | None => []
      end.
Proof. unfold notify. rewrite bind_get. now destruct (m_connect_callback s). Qed.

(** Unfolds the monadic plumbing of a member function applied to an
    object. *)
Ltac run_monad :=
  unfold exec, effects, when, notify, client_send, client_commit, client_connect,
    client_disconnect, is_connected, is_reconnecting, cancel_reconnect,
    bind, ret, get, modify, emit, throw, try_catch_all in *; simpl in *.

(** ** Invariants kept by a member function *)

Section keeps.
Context (I : subscriber → Prop) (P : event → Prop).

Lemma keeps_ret {A} (a : A) : keeps I P (ret a).
Proof. intros s Hs. split; [exact Hs | constructor]. Qed.

Lemma keeps_throw {A} e : keeps I P (@throw A e).
Proof. intros s Hs. split; [exact Hs | constructor]. Qed.

Lemma keeps_get {A} (f : subscriber → A) : keeps I P (get f).
Proof. intros s Hs. split; [exact Hs | constructor]. Qed.

Lemma keeps_modify (f : subscriber → subscriber) :
  (∀ s, I s → I (f s)) → keeps I P (modify f).
Proof. intros Hf s Hs. split; [apply Hf, Hs | constructor]. Qed.

Lemma keeps_emit e : P e → keeps I P (emit e).
Proof. intros He s Hs. split; [exact Hs | repeat constructor; exact He]. Qed.

Lemma keeps_bind {A B} (m : M A) (k : A → M B) :
  keeps I P m → (∀ a, keeps I P (k a)) → keeps I P (bind m k).
Proof.
  intros Hm Hk s Hs. destruct (Hm s Hs) as [Ho Ht].
  unfold bind. destruct (result (m s)) as [a|e]; simpl.
  - destruct (Hk a _ Ho) as [Ho' Ht']. split; [exact Ho'|].
    apply Forall_app; split; assumption.
  - split; assumption.
Qed.

Lemma keeps_try_catch_all (m : M unit) : keeps I P m → keeps I P (try_catch_all m).
Proof. intros Hm s Hs. exact (Hm s Hs). Qed.

Lemma keeps_when (b : bool) (m : M unit) : keeps I P m → keeps I P (when b m).
Proof. intros Hm. destruct b; [exact Hm | apply keeps_ret]. Qed.

Lemma keeps_for_each {A} (l : list A) (body : A → M unit) :
  (∀ x, keeps I P (body x)) → keeps I P (for_each l body).
Proof.
  intros Hb. induction l as [|x l IH]; simpl.
  - apply keeps_ret.
  - apply keeps_bind; [apply Hb | intros _; exact IH].
Qed.
End keeps.

(** Breaks a [keeps] goal down along the structure of the member function. *)
Ltac keeps_step :=
  lazymatch goal with
  | |- keeps _ _ (bind _ _) => apply keeps_bind; [| intros ?]
  | |- keeps _ _ (ret _) => apply keeps_ret
  | |- keeps _ _ (throw _) => apply keeps_throw
  | |- keeps _ _ (get _) => apply keeps_get
  | |- keeps _ _ (emit _) => apply keeps_emit
  | |- keeps _ _ (modify _) => apply keeps_modify
  | |- keeps _ _ (try_catch_all _) => apply keeps_try_catch_all
  | |- keeps _ _ (when _ _) => apply keeps_when
  | |- keeps _ _ (for_each _ _) => apply keeps_for_each; intros ?
  | |- keeps _ _ (if ?b then _ else _) => destruct b
  | |- keeps _ _ (match ?o with Some _ => _ | None => _ end) => destruct o
  end.

(** ** Unsubscribing *)

(** C9 (unsubscribe / punsubscribe).  Unsubscribing from a channel that is
    not in the channel table sends nothing and leaves the whole object as it
    was, and so does punsubscribing from a pattern that is not in the
    pattern table.  When the entry is present, exactly one command is
    buffered, [UNSUBSCRIBE name] or [PUNSUBSCRIBE name], the table loses
    that entry and only that entry, and nothing else in the object
    changes. *)
Theorem unsubscribe_frame (s : subscriber) (name : string) :
  (m_subscribed_channels s !! name = None →
     unsubscribe name s = RunResult (Return tt) s [])
  ∧ (m_psubscribed_channels s !! name = None →
     punsubscribe name s = RunResult (Return tt) s [])
  ∧ (is_Some (m_subscribed_channels s !! name) →
     unsubscribe name s =
       RunResult (Return tt)
         (set_subscribed_channels (delete name (m_subscribed_channels s)) s)
         [ev_client_send ["UNSUBSCRIBE"; name]]
     ∧ m_subscribed_channels (exec (unsubscribe name) s) !! name = None
     ∧ ∀ other, other ≠ name →
         m_subscribed_channels (exec (unsubscribe name) s) !! other
         = m_subscribed_channels s !! other)
  ∧ (is_Some (m_psubscribed_channels s !! name) →
     punsubscribe name s =
       RunResult (Return tt)
         (set_psubscribed_channels (delete name (m_psubscribed_channels s)) s)
         [ev_client_send ["PUNSUBSCRIBE"; name]]
     ∧ m_psubscribed_channels (exec (punsubscribe name) s) !! name = None
     ∧ ∀ other, other ≠ name →
         m_psubscribed_channels (exec (punsubscribe name) s) !! other
         = m_psubscribed_channels s !! other).
Proof.
  repeat split.
  - intros H. unfold unsubscribe. run_monad. now rewrite H.
  - intros H. unfold punsubscribe. run_monad. now rewrite H.
  - destruct H as [h H]. unfold unsubscribe. run_monad. now rewrite H.
  - destruct H as [h H]. unfold unsubscribe. run_monad.
    rewrite H. destruct s; simpl in *. apply lookup_delete_eq.
  - destruct H as [h H]. intros other Hne. unfold unsubscribe. run_monad.
    rewrite H. destruct s; simpl in *. now apply lookup_delete_ne.
  - destruct H as [h H]. unfold punsubscribe. run_monad. now rewrite H.
  - destruct H as [h H]. unfold punsubscribe. run_monad.
    rewrite H. destruct s; simpl in *. apply lookup_delete_eq.
  - destruct H as [h H]. intros other Hne. unfold punsubscribe. run_monad.
    rewrite H. destruct s; simpl in *. now apply lookup_delete_ne.
Qed.

Lemma unsubscribe_frame_witness :
  unsubscribe "sports" subscriber_example = RunResult (Return tt) subscriber_example []
  ∧ punsubscribe "sports.*" subscriber_example = RunResult (Return tt) subscriber_example []
  ∧ unsubscribe "news" subscriber_example =
      RunResult (Return tt)
        (set_subscribed_channels
           (delete "news" (m_subscribed_channels subscriber_example)) subscriber_example)
        [ev_client_send ["UNSUBSCRIBE"; "news"]]
  ∧ punsubscribe "news.*" subscriber_example =
      RunResult (Return tt)
        (set_psubscribed_channels
           (delete "news.*" (m_psubscribed_channels subscriber_example)) subscriber_example)
        [ev_client_send ["PUNSUBSCRIBE"; "news.*"]].
Proof.
  pose proof (unsubscribe_frame subscriber_example "sports") as (Ha & _ & _ & _).
  pose proof (unsubscribe_frame subscriber_example "sports.*") as (_ & Hb & _ & _).
  pose proof (unsubscribe_frame subscriber_example "news") as (_ & _ & Hc & _).
  pose proof (unsubscribe_frame subscriber_example "news.*") as (_ & _ & _ & Hd).
  split; [apply Ha; reflexivity|].
  split; [apply Hb; reflexivity|].
  split; [apply Hc; exists holder_news | apply Hd; exists holder_pattern]; reflexivity.
Defined.

(** ** The receive handler *)

Lemma eqb_neq_false (a b : string) : a ≠ b → String.eqb a b = false.
Proof. intros H. now apply String.eqb_neq. Qed.

(** C10 (unsubscription acknowledgements are dropped).  A reply that is an
    array of three elements whose third element is an integer and whose
    first element is a string other than "subscribe" and "psubscribe" (as
    the acknowledgements of UNSUBSCRIBE and PUNSUBSCRIBE are) invokes no
    callback and leaves the two tables, the ping queue and the rest of the
    object unchanged, whatever the second element is. *)
Theorem unsubscribe_acknowledgement_dropped
    (s : subscriber) (title : string) (ty : string_type) (channel : reply) (nb_chans : Z) :
  title ≠ "subscribe" → title ≠ "psubscribe" →
  connection_receive_handler
    (reply_array [reply_string title ty; channel; reply_integer nb_chans]) s
  = RunResult (Return tt) s [].
Proof.
  intros Hsub Hpsub.
  unfold connection_receive_handler, handle_acknowledgement_reply; simpl.
  rewrite (eqb_neq_false _ _ Hsub), (eqb_neq_false _ _ Hpsub).
  now destruct (is_string channel).
Qed.

Lemma unsubscribe_acknowledgement_dropped_witness :
  let s := set_ping_callbacks [Some (user_reply_callable 7)]
             (set_subscribed_channels
                {["news" := {| subscribe_callback := Some 1;
                               acknowledgement_callback := Some 2 |}]}
                subscriber_ctor) in
  connection_receive_handler
    (reply_array [reply_string "unsubscribe" bulk_string;
                  reply_string "news" bulk_string; reply_integer 0]) s
  = RunResult (Return tt) s [].
Proof.
  intros s.
  apply (unsubscribe_acknowledgement_dropped s "unsubscribe" bulk_string
           (reply_string "news" bulk_string) 0); discriminate.
Defined.

Lemma receive_non_array (r : reply) (s : subscriber) :
  is_array r = false →
  connection_receive_handler r s =
    match m_auth_reply_callback s with
    | Some f =>
        RunResult (Return tt) (set_auth_reply_callback None s) [ev_reply_callback f r]
    | None =>
        match m_client_setname_reply_callback s with
        | Some g =>
            RunResult (Return tt) (set_client_setname_reply_callback None s)
              [ev_reply_callback g r]
        | None => RunResult (Return tt) s []
        end
    end.
Proof.
  intros Hr. unfold connection_receive_handler. rewrite Hr. run_monad.
  destruct (m_auth_reply_callback s); [reflexivity|].
  destruct (m_client_setname_reply_callback s); reflexivity.
Qed.

Lemma receive_non_array_armed (r : reply) (s : subscriber) :
  is_array r = false →
  result (connection_receive_handler r s) = Return tt
  ∧ trace (connection_receive_handler r s)
    = zip_with ev_reply_callback (take 1 (armed_one_shots s)) [r]
  ∧ armed_one_shots (object (connection_receive_handler r s))
    = drop 1 (armed_one_shots s).
Proof.
  intros Hr. rewrite (receive_non_array r s Hr). unfold armed_one_shots.
  destruct s as [? ? ? ? ? ? ? ? ? ? ? ? ? ? ? ? ? [f|] [g|]]; simpl; auto.
Qed.

(** C3 (out-of-band replies and the one-shot slots).  A reply that is not
    an array goes to the AUTH one-shot when that one is armed: the callback
    is invoked with the reply and the slot is cleared.  Otherwise it goes in
    the same way to the CLIENT SETNAME one-shot when that one is armed.
    With neither armed nothing is invoked and the object does not change.
    Hence over any run of non-array replies the armed callbacks are invoked
    once each, AUTH before SETNAME, on the first replies of the run, and are
    not invoked again. *)
Theorem one_shots_fire_once_in_order :
  (∀ (r : reply) (s : subscriber), is_array r = false →
     connection_receive_handler r s =
       match m_auth_reply_callback s with
       | Some f =>
           RunResult (Return tt) (set_auth_reply_callback None s)
             [ev_reply_callback f r]
       | None =>
           match m_client_setname_reply_callback s with
           | Some g =>
               RunResult (Return tt) (set_client_setname_reply_callback None s)
                 [ev_reply_callback g r]
           | None => RunResult (Return tt) s []
           end
       end)
  ∧ (∀ (rs : list reply) (s : subscriber), Forall (λ r, is_array r = false) rs →
       let run := for_each rs connection_receive_handler s in
       trace run = zip_with ev_reply_callback (armed_one_shots s) rs
       ∧ armed_one_shots (object run) = drop (length rs) (armed_one_shots s))
  ∧ (∀ (r1 r2 : reply) (s : subscriber) (f g : reply_callable),
       is_array r1 = false → is_array r2 = false →
       m_auth_reply_callback s = Some f →
       m_client_setname_reply_callback s = Some g →
       trace (connection_receive_handler r1 s) = [ev_reply_callback f r1]
       ∧ trace (connection_receive_handler r2
                  (object (connection_receive_handler r1 s)))
         = [ev_reply_callback g r2]
       ∧ armed_one_shots
           (object (connection_receive_handler r2
                      (object (connection_receive_handler r1 s)))) = []).
Proof.
  split; [exact receive_non_array | split].
  - intros rs. induction rs as [|r rs IH]; intros s Hall; simpl.
    + split; [now destruct (armed_one_shots s) | now rewrite drop_0].
    + inversion Hall as [|? ? Hr Hrs]; subst.
      destruct (receive_non_array_armed r s Hr) as (Hres & Htr & Harm).
      rewrite (bind_run _ _ _ _ Hres); simpl.
      destruct (IH (object (connection_receive_handler r s)) Hrs) as [IHt IHa].
      rewrite IHt, IHa, Htr, Harm.
      destruct (armed_one_shots s) as [|a l]; simpl.
      * now rewrite drop_nil.
      * now rewrite drop_0.
  - intros r1 r2 s f g H1 H2 Hf Hg.
    rewrite (receive_non_array r1 s H1), Hf; simpl.
    rewrite (receive_non_array r2 _ H2).
    destruct s; simpl in *; subst; simpl. auto.
Qed.

Lemma one_shots_fire_once_in_order_witness :
  let s := set_client_setname_reply_callback (Some (user_reply_callable 2))
             (set_auth_reply_callback (Some (user_reply_callable 1)) subscriber_ctor) in
  let r1 := reply_string "OK" simple_string in
  let r2 := reply_string "ERR unknown" error in
  trace (connection_receive_handler r1 s) = [ev_reply_callback (user_reply_callable 1) r1]
  ∧ trace (connection_receive_handler r2 (object (connection_receive_handler r1 s)))
    = [ev_reply_callback (user_reply_callable 2) r2]
  ∧ armed_one_shots
      (object (connection_receive_handler r2 (object (connection_receive_handler r1 s))))
    = [].
Proof.
  intros s r1 r2.
  apply (proj2 (proj2 one_shots_fire_once_in_order) r1 r2 s
           (user_reply_callable 1) (user_reply_callable 2)); reflexivity.
Defined.

(** C2, as the claim states it, fails: [pmessage_with_integer_payload] is
    an array of four elements whose first element is "pmessage" and whose
    second element is a pattern of the pattern table, and the receive
    handler invokes no handler on it: the guards of
    [handle_psubscribe_reply] drop an array in which an element is not a
    string. *)
Lemma pmessage_with_integer_payload_dropped :
  length (as_array pmessage_with_integer_payload) = 4
  ∧ is_string (at_index (as_array pmessage_with_integer_payload) 0) = true
  ∧ as_string (at_index (as_array pmessage_with_integer_payload) 0) = "pmessage"
  ∧ m_psubscribed_channels subscriber_example !! "news.*" = Some holder_pattern
  ∧ connection_receive_handler pmessage_with_integer_payload subscriber_example
    = RunResult (Return tt) subscriber_example [].
Proof. repeat split. Qed.

Lemma receive_handler_cases (r : reply) (s : subscriber) :
  connection_receive_handler r s
  = match spec_message_handler (spec_classify r) s with
    | Some None => RunResult (Throw bad_function_call) s []
    | _ => spec_dispatch (spec_classify r) r s
    end.
Proof.
  destruct r as [| v ty | z | rows];
    try (rewrite receive_non_array by reflexivity; reflexivity).
  destruct rows as [|e0 [|e1 [|e2 [|e3 [|e4 rows]]]]]; try reflexivity.
  - (* one element *)
    destruct e0; reflexivity.
  - (* two elements *)
    destruct e0 as [| t0 ty0 | z0 | l0]; destruct e1; try reflexivity;
      unfold connection_receive_handler, spec_dispatch, spec_classify,
        spec_message_handler; simpl;
      destruct (String.eqb t0 "pong"); reflexivity.
  - (* three elements *)
    unfold connection_receive_handler, spec_dispatch, spec_classify, spec_message_handler,
      handle_acknowledgement_reply, handle_subscribe_reply,
      call_acknowledgement_callback, spec_ack_dispatch, spec_message_dispatch.
    destruct e2 as [| t2 ty2 | z2 | l2];
      destruct e0 as [| t0 ty0 | z0 | l0];
      destruct e1 as [| t1 ty1 | z1 | l1]; try reflexivity; run_monad.
    + destruct (String.eqb t0 "message"); simpl; [|reflexivity].
      destruct (m_subscribed_channels s !! t1) as [[[f|] ack]|]; reflexivity.
    + destruct (String.eqb t0 "subscribe"); simpl.
      * destruct (m_subscribed_channels s !! t1) as [[? [?|]]|]; reflexivity.
      * destruct (String.eqb t0 "psubscribe"); simpl; [|reflexivity].
        destruct (m_psubscribed_channels s !! t1) as [[? [?|]]|]; reflexivity.
  - (* four elements *)
    unfold connection_receive_handler, spec_dispatch, spec_classify, spec_message_handler,
      handle_psubscribe_reply, spec_message_dispatch.
    destruct e0 as [| t0 ty0 | z0 | l0];
      destruct e1 as [| t1 ty1 | z1 | l1];
      destruct e2 as [| t2 ty2 | z2 | l2];
      destruct e3 as [| t3 ty3 | z3 | l3]; try reflexivity; run_monad.
    destruct (String.eqb t0 "pmessage"); simpl; [|reflexivity].
    destruct (m_psubscribed_channels s !! t1) as [[[f|] ack]|]; reflexivity.
  - (* five elements or more *)
    destruct e0, e1, e2, e3; try reflexivity; destruct e4; reflexivity.
Qed.

(** C2, amended (classification of replies).  On every reply and every
    object the receive handler does what the dispatcher of the specification
    does on the class that the six ordered rules give the reply, a rule
    applying only when the elements it names have the kind it names: a
    non-array reply is out-of-band; an array of two strings and an integer,
    titled "subscribe" or "psubscribe", invokes the acknowledgement handler
    of the named channel or pattern with that integer; an array of three
    strings titled "message" invokes the message handler of the channel; an
    array of four strings titled "pmessage" invokes the message handler of
    the pattern with the concrete channel and the payload; an array of two
    elements whose first is the string "pong" goes to the pong dispatch;
    every other reply is dropped, with no handler invoked and the object
    unchanged.  A handler is invoked when the named channel or pattern is in
    its table (and, for an acknowledgement, has an acknowledgement handler);
    otherwise nothing is invoked.  This holds unless the reply is a message
    or a pmessage for an entry whose message handler is empty: the code
    calls the message handler without testing it, so on such a reply the
    receive handler ends by [std::bad_function_call], with nothing invoked
    and the object unchanged. *)
Theorem receive_handler_follows_classification (r : reply) (s : subscriber) :
  (spec_message_handler (spec_classify r) s ≠ Some None →
   connection_receive_handler r s = spec_dispatch (spec_classify r) r s)
  ∧ (spec_message_handler (spec_classify r) s = Some None →
     connection_receive_handler r s = RunResult (Throw bad_function_call) s []).
Proof.
  rewrite receive_handler_cases. split.
  - intros Hhandler.
    destruct (spec_message_handler (spec_classify r) s) as [[f|]|];
      [reflexivity | now destruct Hhandler | reflexivity].
  - intros ->. reflexivity.
Qed.

Lemma receive_handler_follows_classification_witness :
  let registered := reply_array [reply_string "message" bulk_string;
                                 reply_string "news" bulk_string;
                                 reply_string "hello" bulk_string] in
  let unhandled := reply_array [reply_string "message" bulk_string;
                                reply_string "sports" bulk_string;
                                reply_string "goal" bulk_string] in
  let s := exec (subscribe "sports" None None) subscriber_example in
  connection_receive_handler registered s
  = RunResult (Return tt) s [ev_subscribe_callback (Some 1) "news" "hello"]
  ∧ connection_receive_handler unhandled s = RunResult (Throw bad_function_call) s [].
Proof.
  intros registered unhandled s. split.
  - apply (proj1 (receive_handler_follows_classification registered s)).
    intros H. vm_compute in H. discriminate H.
  - apply (proj2 (receive_handler_follows_classification unhandled s)).
    vm_compute. reflexivity.
Defined.

(** The scenarios "subscribe and receive" and "pattern match" of section 8,
    on [subscriber_example]. *)
Example scenario_subscribe_and_receive :
  spec_classify (reply_array [reply_string "subscribe" bulk_string;
                              reply_string "news" bulk_string; reply_integer 1])
  = class_ack_subscribe "news" 1
  ∧ effects (connection_receive_handler
               (reply_array [reply_string "subscribe" bulk_string;
                             reply_string "news" bulk_string; reply_integer 1]))
      subscriber_example
    = [ev_acknowledgement_callback 2 1]
  ∧ effects (connection_receive_handler
               (reply_array [reply_string "message" bulk_string;
                             reply_string "news" bulk_string;
                             reply_string "hello" bulk_string]))
      subscriber_example
    = [ev_subscribe_callback (Some 1) "news" "hello"].
Proof. repeat split; vm_compute; reflexivity. Qed.

Example scenario_pattern_match :
  effects (connection_receive_handler
             (reply_array [reply_string "pmessage" bulk_string;
                           reply_string "news.*" bulk_string;
                           reply_string "news.sports" bulk_string;
                           reply_string "goal" bulk_string]))
    subscriber_example
  = [ev_subscribe_callback (Some 3) "news.sports" "goal"].
Proof. vm_compute; reflexivity. Qed.

(** Misshapen replies are dropped: an array of three or four elements in
    which the title, the channel or the pattern is not a string, or an array
    of four elements whose payload is not a string, invokes nothing and
    changes nothing. *)
Lemma misshapen_replies_dropped (s : subscriber) :
  (∀ e0 e1 e2 : reply,
     is_string e0 && is_string e1 = false →
     connection_receive_handler (reply_array [e0; e1; e2]) s = RunResult (Return tt) s [])
  ∧ (∀ e0 e1 e2 e3 : reply,
       is_string e0 && is_string e1 && is_string e2 && is_string e3 = false →
       connection_receive_handler (reply_array [e0; e1; e2; e3]) s
       = RunResult (Return tt) s []).
Proof.
  split.
  - intros e0 e1 e2 H. destruct e0, e1; try discriminate H; destruct e2; reflexivity.
  - intros e0 e1 e2 e3 H.
    destruct e0, e1, e2, e3; try discriminate H; reflexivity.
Qed.

(** ** Pongs *)

Lemma receive_pong (t0 : string_type) (argument : reply) (s : subscriber) :
  connection_receive_handler (reply_array [reply_string "pong" t0; argument]) s
  = handle_ping_reply (reply_array [reply_string "pong" t0; argument]) s.
Proof. reflexivity. Qed.

(** C6, as the claim states it, fails: the reply [["pong", 5]] is an array
    of two elements whose first element is the string "pong", one callback
    is waiting in the ping queue, and the receive handler neither pops the
    queue nor invokes the callback, where the pong dispatch of the
    specification does both. *)
Lemma pong_with_integer_not_popped :
  is_string (at_index (as_array pong_with_integer) 0) = true
  ∧ as_string (at_index (as_array pong_with_integer) 0) = "pong"
  ∧ length (as_array pong_with_integer) = 2
  ∧ m_ping_callbacks subscriber_example = [Some (user_reply_callable 7)]
  ∧ connection_receive_handler pong_with_integer subscriber_example
    = RunResult (Return tt) subscriber_example []
  ∧ spec_pong_dispatch pong_with_integer subscriber_example
    = RunResult (Return tt) (set_ping_callbacks [] subscriber_example)
        [ev_reply_callback (user_reply_callable 7) pong_with_integer].
Proof. repeat split. Qed.

(** C6, amended (pong dispatch).  For every reply that is an array of two
    strings of which the first is "pong", the receive handler pops the head
    of the ping queue; when the popped entry holds a callback it is invoked
    with the full reply; when the queue is empty nothing is invoked and the
    queue stays empty.  For an array of two elements whose first is the
    string "pong" and whose second is not a string, nothing is popped or
    invoked. *)
Theorem pong_pops_ping_queue (s : subscriber) (t0 : string_type) (argument : reply) :
  let r := reply_array [reply_string "pong" t0; argument] in
  (is_string argument = true →
     connection_receive_handler r s = spec_pong_dispatch r s)
  ∧ (is_string argument = false →
     connection_receive_handler r s = RunResult (Return tt) s []).
Proof.
  intros r. subst r. rewrite receive_pong. unfold handle_ping_reply, spec_pong_dispatch.
  split; intros Harg; destruct argument; try discriminate Harg; try reflexivity.
  run_monad. destruct (m_ping_callbacks s) as [|[f|] rest]; reflexivity.
Qed.

Lemma pong_pops_ping_queue_witness :
  let r := reply_array [reply_string "pong" bulk_string; reply_string "" bulk_string] in
  connection_receive_handler r subscriber_example
  = RunResult (Return tt) (set_ping_callbacks [] subscriber_example)
      [ev_reply_callback (user_reply_callable 7) r]
  ∧ connection_receive_handler pong_with_integer subscriber_example
    = RunResult (Return tt) subscriber_example [].
Proof.
  intros r. split.
  - apply (proj1 (pong_pops_ping_queue subscriber_example bulk_string
                    (reply_string "" bulk_string))). reflexivity.
  - apply (proj2 (pong_pops_ping_queue subscriber_example bulk_string
                    (reply_integer 5))). reflexivity.
Defined.

Lemma ping_callbacks_set v s : m_ping_callbacks (set_ping_callbacks v s) = v.
Proof. now destruct s. Qed.


Lemma receive_pong_for (message : string) (s : subscriber) :
  connection_receive_handler (pong_for message) s
  = spec_pong_dispatch (pong_for message) s.
Proof.
  unfold pong_for. rewrite receive_pong. unfold handle_ping_reply, spec_pong_dispatch.
  run_monad. destruct (m_ping_callbacks s) as [|[f|] rest]; reflexivity.
Qed.







(** ** What the reconnection leaves alone *)

(** Proves [keeps I P m] for a member function [m] made of the monad's
    primitives, once its definition is unfolded. *)
Ltac keeps_auto :=
  repeat keeps_step;
  try (intros [] ?; simpl in *; solve [auto | congruence]);
  try (simpl; solve [auto]).

Ltac unfold_members :=
  unfold sleep_before_next_reconnect_attempt, caller_cancels, reconnect, connect, re_auth,
    re_client_setname, re_subscribe, auth, client_setname, commit,
    unprotected_subscribe, unprotected_psubscribe, clear_subscriptions,
    sentinel_get_master_addr_by_name, client_connect, client_send, client_commit,
    notify, is_connected, cancel_reconnect.

(** Neither sleeping nor a reconnection attempt touches the ping queue, and
    neither invokes a reply callback. *)
Lemma reconnect_keeps_ping_queue (q : list reply_callback_t) (env : attempt_env) :
  keeps (λ s, m_ping_callbacks s = q) (λ e, reply_callback_calls_of e = [])
    (reconnect env).
Proof. unfold_members. keeps_auto. Qed.

Lemma sleep_keeps_ping_queue (q : list reply_callback_t) :
  keeps (λ s, m_ping_callbacks s = q) (λ e, reply_callback_calls_of e = [])
    sleep_before_next_reconnect_attempt.
Proof. unfold_members. keeps_auto. Qed.

Lemma caller_cancels_keeps_ping_queue (q : list reply_callback_t) (c : bool) :
  keeps (λ s, m_ping_callbacks s = q) (λ e, reply_callback_calls_of e = [])
    (when c caller_cancels).
Proof. unfold_members. keeps_auto. Qed.

Lemma reconnect_loop_keeps_ping_queue (q : list reply_callback_t) (script : list attempt_env) :
  keeps (λ s, m_ping_callbacks s = q) (λ e, reply_callback_calls_of e = [])
    (reconnect_loop script).
Proof.
  induction script as [|env script IH]; simpl.
  - unfold should_reconnect. keeps_auto.
  - apply keeps_bind; [unfold should_reconnect; keeps_auto | intros again].
    destruct again; [|keeps_auto].
    apply keeps_bind; [apply sleep_keeps_ping_queue | intros _].
    apply keeps_bind; [apply caller_cancels_keeps_ping_queue | intros _].
    apply keeps_bind; [apply reconnect_keeps_ping_queue | intros _; exact IH].
Qed.


Lemma reply_callback_calls_quiet (t : list event) :
  Forall (λ e, reply_callback_calls_of e = []) t → reply_callback_calls t = [].
Proof.
  unfold reply_callback_calls. induction 1 as [|e t He _ IH]; simpl; [reflexivity|].
  now rewrite He, IH.
Qed.

Lemma reply_callback_calls_app (t1 t2 : list event) :
  reply_callback_calls (t1 ++ t2) = reply_callback_calls t1 ++ reply_callback_calls t2.
Proof. unfold reply_callback_calls. apply flat_map_app. Qed.

Lemma clear_ping_callbacks_thread_calls (callbacks : list reply_callback_t) :
  reply_callback_calls (clear_ping_callbacks_thread callbacks)
  = (λ f, (f, network_failure)) <$> omap id callbacks.
Proof.
  induction callbacks as [|[f|] callbacks IH]; simpl; [reflexivity| |exact IH].
  unfold reply_callback_calls in *. simpl. now rewrite IH.
Qed.

Lemma clear_ping_callbacks_run (s : subscriber) :
  result (clear_ping_callbacks s) = Return tt
  ∧ object (clear_ping_callbacks s) = set_ping_callbacks [] s
  ∧ reply_callback_calls (trace (clear_ping_callbacks s))
    = (λ f, (f, network_failure)) <$> pending_ping_callbacks s.
Proof.
  unfold clear_ping_callbacks, pending_ping_callbacks. run_monad.
  destruct (m_ping_callbacks s) as [|cb q] eqn:Hq; simpl.
  - repeat split. destruct s; simpl in *; now subst.
  - repeat split. unfold reply_callback_calls; simpl. rewrite app_nil_r.
    apply (clear_ping_callbacks_thread_calls (cb :: q)).
Qed.

(** The scenario "AUTH OOB" of section 8: the callback of [auth] is invoked
    once, with the reply to AUTH, and not by a second non-array reply. *)
Example scenario_auth_oob :
  let s := exec (auth "pw" (Some (user_reply_callable 5))) subscriber_ctor in
  let r := reply_string "OK" simple_string in
  effects (auth "pw" (Some (user_reply_callable 5))) subscriber_ctor
  = [ev_client_send ["AUTH"; "pw"]]
  ∧ effects (connection_receive_handler r) s = [ev_reply_callback (user_reply_callable 5) r]
  ∧ effects (connection_receive_handler r) (exec (connection_receive_handler r) s) = [].
Proof. repeat split. Qed.

(** ** Entering the disconnection handler twice *)

(** While a reconnection is in progress the disconnection handler returns at
    once: no event, same object. *)
Lemma disconnection_handler_while_reconnecting (script : list attempt_env) (s : subscriber) :
  m_reconnecting s = true →
  connection_disconnection_handler script s = RunResult (Return true) s [].
Proof.
  intros Hrec. unfold connection_disconnection_handler, is_reconnecting.
  now rewrite bind_get, Hrec.
Qed.

(** ** Pending pings when the connection is torn down *)

Lemma after_fence_keeps_ping_queue (q : list reply_callback_t) (script : list attempt_env) :
  keeps (λ s, m_ping_callbacks s = q) (λ e, reply_callback_calls_of e = [])
    (finished ← reconnect_loop script ;
     if negb finished then ret false
     else
       connected ← is_connected ;
       when (negb connected)
         (clear_subscriptions ;;
          server ← get m_redis_server ;
          port ← get m_redis_port ;
          notify server port stopped) ;;
       modify (set_reconnecting false) ;;
       ret true).
Proof.
  apply keeps_bind; [apply reconnect_loop_keeps_ping_queue | intros finished].
  unfold_members. keeps_auto.
Qed.

(** ** Iterating over a table and filling it again *)

#[global] Instance key_le_total : Total key_le.
Proof.
  intros x y. unfold key_le.
  destruct (String.leb_total x.1 y.1) as [H|H]; rewrite H; [left|right]; exact I.
Qed.

Lemma map_begin_to_end_ascending (m : gmap string callback_holder) :
  Sorted key_le (map_begin_to_end m).
Proof. apply Sorted_merge_sort; apply _. Qed.

Lemma map_begin_to_end_entries (m : gmap string callback_holder) :
  map_begin_to_end m ≡ₚ map_to_list m.
Proof. apply merge_sort_Permutation. Qed.

Lemma map_begin_to_end_NoDup (m : gmap string callback_holder) :
  NoDup (map_begin_to_end m).*1.
Proof. rewrite map_begin_to_end_entries. apply NoDup_fst_map_to_list. Qed.

Lemma map_begin_to_end_keys (m : gmap string callback_holder) (k : string) :
  k ∈ (map_begin_to_end m).*1 ↔ is_Some (m !! k).
Proof.
  rewrite map_begin_to_end_entries, list_elem_of_fmap. split.
  - intros [[k' h] [-> Hin]]. apply elem_of_map_to_list in Hin. now exists h.
  - intros [h Hh]. exists (k, h). split; [reflexivity|]. now apply elem_of_map_to_list.
Qed.

Lemma insert_each_list_to_map (l : list (string * callback_holder)) :
  NoDup l.*1 →
  foldl (λ m chan, <[chan.1 := chan.2]> m) (∅ : gmap string callback_holder) l
  = list_to_map l.
Proof.
  induction l as [|[k h] l IH] using rev_ind; intros Hnd; [reflexivity|].
  rewrite fmap_app in Hnd. apply NoDup_app in Hnd as (Hl & Hk & _).
  rewrite foldl_snoc, IH by exact Hl. simpl.
  symmetry. apply list_to_map_snoc. intros Hin. apply (Hk k Hin). simpl. left.
Qed.

Lemma insert_each_restores (m : gmap string callback_holder) :
  foldl (λ m' chan, <[chan.1 := chan.2]> m') ∅ (map_begin_to_end m) = m.
Proof.
  rewrite insert_each_list_to_map by apply map_begin_to_end_NoDup.
  rewrite (list_to_map_proper _ (map_to_list m)).
  - apply list_to_map_to_list.
  - apply map_begin_to_end_NoDup.
  - apply map_begin_to_end_entries.
Qed.

Lemma for_each_unprotected_subscribe (l : list (string * callback_holder)) :
  ∀ s : subscriber,
    for_each l (λ chan, unprotected_subscribe chan.1 (subscribe_callback chan.2)
                          (acknowledgement_callback chan.2)) s
    = RunResult (Return tt)
        (set_subscribed_channels
           (foldl (λ m chan, <[chan.1 := chan.2]> m) (m_subscribed_channels s) l) s)
        ((λ chan, ev_client_send ["SUBSCRIBE"; chan.1]) <$> l).
Proof.
  induction l as [|[k [cb ack]] l IH]; intros s.
  - simpl. unfold ret. now destruct s.
  - simpl for_each. unfold unprotected_subscribe at 1, client_send.
    erewrite bind_returns; [|rewrite bind_modify; reflexivity].
    rewrite IH. simpl. now destruct s.
Qed.

Lemma for_each_unprotected_psubscribe (l : list (string * callback_holder)) :
  ∀ s : subscriber,
    for_each l (λ chan, unprotected_psubscribe chan.1 (subscribe_callback chan.2)
                          (acknowledgement_callback chan.2)) s
    = RunResult (Return tt)
        (set_psubscribed_channels
           (foldl (λ m chan, <[chan.1 := chan.2]> m) (m_psubscribed_channels s) l) s)
        ((λ chan, ev_client_send ["PSUBSCRIBE"; chan.1]) <$> l).
Proof.
  induction l as [|[k [cb ack]] l IH]; intros s.
  - simpl. unfold ret. now destruct s.
  - simpl for_each. unfold unprotected_psubscribe at 1, client_send.
    erewrite bind_returns; [|rewrite bind_modify; reflexivity].
    rewrite IH. simpl. now destruct s.
Qed.

(** [re_subscribe] sends one SUBSCRIBE per channel and one PSUBSCRIBE per
    pattern, in the order of the tables, and leaves the object as it was. *)
Lemma re_subscribe_run (s : subscriber) :
  re_subscribe s
  = RunResult (Return tt) s
      (((λ chan, ev_client_send ["SUBSCRIBE"; chan.1])
          <$> map_begin_to_end (m_subscribed_channels s))
       ++ ((λ chan, ev_client_send ["PSUBSCRIBE"; chan.1])
             <$> map_begin_to_end (m_psubscribed_channels s))).
Proof.
  unfold re_subscribe. rewrite bind_get, bind_modify.
  erewrite bind_returns; [|apply for_each_unprotected_subscribe].
  rewrite bind_get, bind_modify, for_each_unprotected_psubscribe.
  destruct s; simpl. rewrite !insert_each_restores. reflexivity.
Qed.

Lemma re_auth_run (s : subscriber) :
  re_auth s
  = RunResult (Return tt)
      (if String.eqb (m_password s) "" then s
       else set_auth_reply_callback (Some re_auth_lambda) s)
      (if String.eqb (m_password s) "" then []
       else [ev_client_send ["AUTH"; m_password s]]).
Proof.
  unfold re_auth. rewrite bind_get. destruct (String.eqb (m_password s) ""); [reflexivity|].
  unfold auth. rewrite !bind_modify. unfold client_send, emit. now destruct s.
Qed.

Lemma re_client_setname_run (s : subscriber) :
  re_client_setname s
  = RunResult (Return tt)
      (if String.eqb (m_client_name s) "" then s
       else set_client_setname_reply_callback (Some re_client_setname_lambda) s)
      (if String.eqb (m_client_name s) "" then []
       else [ev_client_send ["CLIENT"; "SETNAME"; m_client_name s]]).
Proof.
  unfold re_client_setname. rewrite bind_get.
  destruct (String.eqb (m_client_name s) ""); [reflexivity|].
  unfold client_setname. rewrite !bind_modify. unfold client_send, emit. now destruct s.
Qed.

(** ** The replay on a new connection *)

Lemma replay_run (flush_ok : bool) (s : subscriber) :
  (re_auth ;; re_client_setname ;; re_subscribe ;; commit flush_ok) s
  = RunResult (if flush_ok then Return tt else Throw transport_failure)
      (after_replay s)
      ((ev_client_send <$> replay_commands s) ++ [ev_client_commit]).
Proof.
  unfold replay_commands, after_replay.
  erewrite bind_returns; [|apply re_auth_run].
  erewrite bind_returns; [|apply re_client_setname_run].
  erewrite bind_returns; [|apply re_subscribe_run].
  unfold commit, client_commit. rewrite bind_emit.
  destruct s as [? ? ? pw name ? ? ? ? ? ? ? ? chans pchans ? ? ? ?]; simpl.
  destruct (String.eqb pw ""); simpl; destruct (String.eqb name ""); simpl;
    destruct flush_ok; simpl; unfold table_keys;
    rewrite ?fmap_app, <- ?list_fmap_compose, <- ?app_assoc; reflexivity.
Qed.

Lemma transport_calls_app (t1 t2 : list event) :
  transport_calls (t1 ++ t2) = transport_calls t1 ++ transport_calls t2.
Proof.
  induction t1 as [|e t1 IH]; [reflexivity|].
  destruct e; simpl; now rewrite IH.
Qed.

Lemma transport_calls_sends (cmds : list (list string)) :
  transport_calls (ev_client_send <$> cmds) = ev_client_send <$> cmds.
Proof.
  induction cmds as [|c cmds IH]; [reflexivity|].
  rewrite fmap_cons. simpl. f_equal. exact IH.
Qed.

Lemma connect_run (host : string) (port : N) (cb : connect_callback_t)
    (timeout_ms : N) (max_reconnects : Z) (interval_ms : N) (use_encryption : bool)
    (s : subscriber) :
  let cached :=
    set_use_encryption use_encryption
      (set_reconnect_interval_ms interval_ms
         (set_max_reconnects max_reconnects
            (set_connect_callback cb (set_redis_port port (set_redis_server host s))))) in
  let started := match cb with
                 | Some f => [ev_connect_callback f host port start]
                 | None => []
                 end in
  connect true host port cb timeout_ms max_reconnects interval_ms use_encryption s
  = RunResult (Return tt) (set_client_is_connected true cached)
      (started ++ ev_client_connect host port timeout_ms use_encryption
         :: match cb with
            | Some f => [ev_connect_callback f host port ok]
            | None => []
            end)
  ∧ connect false host port cb timeout_ms max_reconnects interval_ms use_encryption s
    = RunResult (Throw transport_failure) cached
        (started ++ [ev_client_connect host port timeout_ms use_encryption]).
Proof.
  intros cached started. subst cached started. unfold connect.
  rewrite !bind_modify. split.
  - erewrite bind_returns; [|apply notify_run].
    unfold client_connect. erewrite bind_returns; [|rewrite bind_emit; reflexivity].
    rewrite !bind_get, notify_run. destruct s, cb; reflexivity.
  - erewrite bind_returns; [|apply notify_run].
    unfold client_connect. erewrite bind_throws; [|rewrite bind_emit; reflexivity].
    destruct s, cb; reflexivity.
Qed.

Lemma sentinel_get_master_addr_by_name_run (ans : sentinel_answer) (name : string)
    (s : subscriber) :
  sentinel_get_master_addr_by_name ans name s
  = RunResult (Return (master_found ans))
      (set_redis_port (master_port ans) (set_redis_server (master_host ans) s))
      [ev_sentinel_get_master_addr_by_name name].
Proof. reflexivity. Qed.

(** A reconnection attempt whose master lookup (if any) and handshake
    succeed: the events of the attempt and the object it leaves. *)
Lemma reconnect_run (env : attempt_env) (s : subscriber) :
  handshake_succeeds env = true →
  m_master_name s = "" ∨ master_found (sentinel_says env) = true →
  let host := reconnect_host env s in
  let port := reconnect_port env s in
  let notified st := match m_connect_callback s with
                     | Some f => [ev_connect_callback f host port st]
                     | None => []
                     end in
  ∃ s', reconnect env s
        = RunResult (if flush_succeeds env then Return tt else Throw transport_failure)
            s'
            ((if String.eqb (m_master_name s) "" then []
              else [ev_sentinel_get_master_addr_by_name (m_master_name s)])
             ++ notified start
             ++ ev_client_connect host port (m_connect_timeout_ms s) (m_use_encryption s)
                :: notified ok ++ notified ok
             ++ (ev_client_send <$> replay_commands s) ++ [ev_client_commit])
        ∧ m_subscribed_channels s' = m_subscribed_channels s
        ∧ m_psubscribed_channels s' = m_psubscribed_channels s
        ∧ m_client_is_connected s' = true.
Proof.
  intros Hshake Hmaster host port notified. subst host port notified.
  unfold reconnect, reconnect_host, reconnect_port.
  rewrite bind_modify, bind_get.
  destruct s as [server port master pw name conn tmo maxr att ival enc rec canc
                   chans pchans cb pings acb scb].
  cbn [m_master_name set_current_reconnect_attempts m_redis_server m_redis_port
       m_connect_timeout_ms m_use_encryption m_connect_callback] in Hmaster |- *.
  destruct (String.eqb master "") eqn:Hm.
  - rewrite bind_ret. cbn [negb]. rewrite !bind_get.
    cbn [m_master_name set_current_reconnect_attempts m_redis_server m_redis_port
         m_connect_timeout_ms m_use_encryption m_connect_callback m_max_reconnects
         m_reconnect_interval_ms m_current_reconnect_attempts].
    rewrite Hshake.
    erewrite bind_returns;
      [|unfold try_catch_all; rewrite (proj1 (connect_run _ _ _ _ _ _ _ _)); reflexivity].
    unfold is_connected. rewrite !bind_get.
    cbn [object m_client_is_connected set_client_is_connected set_use_encryption
         set_reconnect_interval_ms set_max_reconnects set_connect_callback
         set_redis_port set_redis_server negb m_redis_server m_redis_port].
    erewrite bind_returns; [|apply notify_run].
    rewrite replay_run.
    cbn [object trace result m_connect_callback].
    match goal with |- context [RunResult _ (after_replay ?x) _] =>
      exists (after_replay x) end.
    split; [|unfold after_replay; cbn [m_password m_client_name];
             destruct (String.eqb pw ""), (String.eqb name ""); repeat split].
    f_equal. unfold replay_commands. cbn [m_password m_client_name
      m_subscribed_channels m_psubscribed_channels].
    destruct cb; simpl; reflexivity.
  - destruct Hmaster as [->|Hfound]; [discriminate|].
    erewrite bind_returns; [|apply sentinel_get_master_addr_by_name_run].
    rewrite Hfound. cbn [negb]. rewrite !bind_get.
    cbn [m_master_name set_current_reconnect_attempts m_redis_server m_redis_port
         m_connect_timeout_ms m_use_encryption m_connect_callback m_max_reconnects
         m_reconnect_interval_ms m_current_reconnect_attempts
         set_redis_port set_redis_server].
    rewrite Hshake.
    erewrite bind_returns;
      [|unfold try_catch_all; rewrite (proj1 (connect_run _ _ _ _ _ _ _ _)); reflexivity].
    unfold is_connected. rewrite !bind_get.
    cbn [object m_client_is_connected set_client_is_connected set_use_encryption
         set_reconnect_interval_ms set_max_reconnects set_connect_callback
         set_redis_port set_redis_server negb m_redis_server m_redis_port].
    erewrite bind_returns; [|apply notify_run].
    rewrite replay_run.
    cbn [object trace result m_connect_callback].
    match goal with |- context [RunResult _ (after_replay ?x) _] =>
      exists (after_replay x) end.
    split; [|unfold after_replay; cbn [m_password m_client_name];
             destruct (String.eqb pw ""), (String.eqb name ""); repeat split].
    f_equal. unfold replay_commands. cbn [m_password m_client_name
      m_subscribed_channels m_psubscribed_channels].
    destruct cb; simpl; reflexivity.
Qed.

Lemma table_keys_NoDup (m : gmap string callback_holder) : NoDup (table_keys m).
Proof. apply map_begin_to_end_NoDup. Qed.

Lemma table_keys_spec (m : gmap string callback_holder) (k : string) :
  k ∈ table_keys m ↔ is_Some (m !! k).
Proof. apply map_begin_to_end_keys. Qed.

Lemma replay_commands_NoDup (s : subscriber) : NoDup (replay_commands s).
Proof.
  unfold replay_commands.
  assert (∀ m, NoDup ((λ channel, ["SUBSCRIBE"; channel]) <$> table_keys m)) as Hsub.
  { intros m. apply NoDup_fmap_2; [|apply table_keys_NoDup].
    intros x y Hxy. now injection Hxy. }
  assert (∀ m, NoDup ((λ pattern, ["PSUBSCRIBE"; pattern]) <$> table_keys m)) as Hpsub.
  { intros m. apply NoDup_fmap_2; [|apply table_keys_NoDup].
    intros x y Hxy. now injection Hxy. }
  repeat (apply NoDup_app; split; [|split]); try apply Hsub; try apply Hpsub.
  - destruct (String.eqb (m_password s) ""); [constructor | apply NoDup_singleton].
  - intros cmd Hcmd.
    destruct (String.eqb (m_password s) ""); [now apply elem_of_nil in Hcmd|].
    apply list_elem_of_singleton in Hcmd as ->.
    rewrite !elem_of_app, !list_elem_of_fmap.
    intros [Hin|[(c & Hc & _)|(c & Hc & _)]]; try discriminate Hc.
    destruct (String.eqb (m_client_name s) ""); [now apply elem_of_nil in Hin|].
    apply list_elem_of_singleton in Hin. discriminate Hin.
  - destruct (String.eqb (m_client_name s) ""); [constructor | apply NoDup_singleton].
  - intros cmd Hcmd.
    destruct (String.eqb (m_client_name s) ""); [now apply elem_of_nil in Hcmd|].
    apply list_elem_of_singleton in Hcmd as ->.
    rewrite !elem_of_app, !list_elem_of_fmap.
    intros [(c & Hc & _)|(c & Hc & _)]; discriminate Hc.
  - intros cmd. rewrite !list_elem_of_fmap.
    intros (c & -> & _) (c' & Hc & _). discriminate Hc.
Qed.

Lemma replay_commands_subscribe (s : subscriber) (channel : string) :
  ["SUBSCRIBE"; channel] ∈ replay_commands s
  ↔ is_Some (m_subscribed_channels s !! channel).
Proof.
  rewrite <- table_keys_spec. unfold replay_commands.
  rewrite !elem_of_app, !list_elem_of_fmap. split.
  - intros [H|[H|[(c & Hc & Hin)|(c & Hc & _)]]].
    + destruct (String.eqb (m_password s) ""); [now apply elem_of_nil in H|].
      apply list_elem_of_singleton in H. discriminate H.
    + destruct (String.eqb (m_client_name s) ""); [now apply elem_of_nil in H|].
      apply list_elem_of_singleton in H. discriminate H.
    + injection Hc as ->. exact Hin.
    + discriminate Hc.
  - intros Hin. right; right; left. now exists channel.
Qed.

Lemma replay_commands_psubscribe (s : subscriber) (pattern : string) :
  ["PSUBSCRIBE"; pattern] ∈ replay_commands s
  ↔ is_Some (m_psubscribed_channels s !! pattern).
Proof.
  rewrite <- table_keys_spec. unfold replay_commands.
  rewrite !elem_of_app, !list_elem_of_fmap. split.
  - intros [H|[H|[(c & Hc & _)|(c & Hc & Hin)]]].
    + destruct (String.eqb (m_password s) ""); [now apply elem_of_nil in H|].
      apply list_elem_of_singleton in H. discriminate H.
    + destruct (String.eqb (m_client_name s) ""); [now apply elem_of_nil in H|].
      apply list_elem_of_singleton in H. discriminate H.
    + discriminate Hc.
    + injection Hc as ->. exact Hin.
  - intros Hin. right; right; right. now exists pattern.
Qed.

Lemma transport_calls_notified (cb : connect_callback_t) (host : string) (port : N)
    (st : connect_state) :
  transport_calls match cb with
                  | Some f => [ev_connect_callback f host port st]
                  | None => []
                  end = [].
Proof. now destruct cb. Qed.

(** C1 (replay after a reconnection).  In a reconnection attempt whose
    transport connect succeeds (after a successful master lookup when a
    master name is set), the calls made on the transport are, in this
    order: the connect; AUTH with the cached password, only if one is
    cached; CLIENT SETNAME with the cached name, only if one is cached; one
    SUBSCRIBE for each channel of the channel table; one PSUBSCRIBE for each
    pattern of the pattern table; the commit.  No command occurs twice,
    SUBSCRIBE c is sent exactly for the channels c of the table and
    PSUBSCRIBE p exactly for the patterns p of the table, and after the
    attempt the two tables hold exactly the entries they held before. *)
Theorem replay_after_reconnect (env : attempt_env) (s : subscriber)
    (Hhandshake : handshake_succeeds env = true)
    (Hmaster : m_master_name s = "" ∨ master_found (sentinel_says env) = true) :
  let run := reconnect env s in
  transport_calls (trace run)
  = ev_client_connect (reconnect_host env s) (reconnect_port env s)
      (m_connect_timeout_ms s) (m_use_encryption s)
    :: (ev_client_send <$> replay_commands s) ++ [ev_client_commit]
  ∧ replay_commands s
    = (if String.eqb (m_password s) "" then [] else [["AUTH"; m_password s]])
      ++ (if String.eqb (m_client_name s) "" then []
          else [["CLIENT"; "SETNAME"; m_client_name s]])
      ++ ((λ channel, ["SUBSCRIBE"; channel]) <$> table_keys (m_subscribed_channels s))
      ++ ((λ pattern, ["PSUBSCRIBE"; pattern]) <$> table_keys (m_psubscribed_channels s))
  ∧ NoDup (replay_commands s)
  ∧ (∀ channel, ["SUBSCRIBE"; channel] ∈ replay_commands s
                ↔ is_Some (m_subscribed_channels s !! channel))
  ∧ (∀ pattern, ["PSUBSCRIBE"; pattern] ∈ replay_commands s
                ↔ is_Some (m_psubscribed_channels s !! pattern))
  ∧ m_subscribed_channels (object run) = m_subscribed_channels s
  ∧ m_psubscribed_channels (object run) = m_psubscribed_channels s.
Proof.
  intros run. subst run.
  destruct (reconnect_run env s Hhandshake Hmaster) as (s' & Hrun & Hchans & Hpchans & _).
  rewrite Hrun. cbn [trace object].
  split; [|split; [reflexivity|split; [apply replay_commands_NoDup|
           split; [apply replay_commands_subscribe|
           split; [apply replay_commands_psubscribe|split; assumption]]]]].
  rewrite !transport_calls_app.
  change (transport_calls (ev_client_connect ?h ?p ?t ?e :: ?rest))
    with (ev_client_connect h p t e :: transport_calls rest).
  rewrite !transport_calls_app, !transport_calls_notified, transport_calls_sends.
  now destruct (String.eqb (m_master_name s) "").
Qed.

Lemma replay_after_reconnect_witness :
  let run := reconnect env_reconnects subscriber_dropped in
  transport_calls (trace run)
  = [ev_client_connect "127.0.0.1" 6379 0 false;
     ev_client_send ["AUTH"; "pw"];
     ev_client_send ["CLIENT"; "SETNAME"; "svc"];
     ev_client_send ["SUBSCRIBE"; "x"];
     ev_client_send ["PSUBSCRIBE"; "y.*"];
     ev_client_commit]
  ∧ m_subscribed_channels (object run) = m_subscribed_channels subscriber_dropped
  ∧ m_psubscribed_channels (object run) = m_psubscribed_channels subscriber_dropped.
Proof.
  intros run.
  pose proof (replay_after_reconnect env_reconnects subscriber_dropped eq_refl
                (or_introl eq_refl)) as (Hcalls & _ & _ & _ & _ & Hchans & Hpchans).
  split; [exact Hcalls | split; [exact Hchans | exact Hpchans]].
Defined.

(** ** Connecting and the cached parameters *)

(** C4 (connect caches its parameters), evaluated on the code.  [connect]
    records host, port, connect callback, maximal number of reconnects,
    reconnect interval and TLS flag, and notifies [start] before the
    handshake and [ok] after it; but it does not record the connect timeout:
    [m_connect_timeout_ms] keeps the value it had.  After
    [connect("127.0.0.1", 6379, cb, 5000, 3, 100, false)] on a fresh
    subscriber the member is still 0, and the reconnection attempt that
    follows a lost connection calls the transport's connect with timeout 0
    instead of 5000. *)
Theorem connect_timeout_not_cached :
  (∀ (host : string) (port : N) (cb : connect_callback_t) (timeout_ms : N)
     (max_reconnects : Z) (interval_ms : N) (use_encryption : bool) (s : subscriber),
     let run := connect true host port cb timeout_ms max_reconnects interval_ms
                  use_encryption s in
     m_redis_server (object run) = host
     ∧ m_redis_port (object run) = port
     ∧ m_connect_callback (object run) = cb
     ∧ m_max_reconnects (object run) = max_reconnects
     ∧ m_reconnect_interval_ms (object run) = interval_ms
     ∧ m_use_encryption (object run) = use_encryption
     ∧ m_connect_timeout_ms (object run) = m_connect_timeout_ms s
     ∧ trace run
       = match cb with Some f => [ev_connect_callback f host port start] | None => [] end
         ++ ev_client_connect host port timeout_ms use_encryption
            :: match cb with Some f => [ev_connect_callback f host port ok] | None => [] end)
  ∧ trace (connect true "127.0.0.1" 6379 (Some 9) 5000 3 100 false subscriber_ctor)
    = [ev_connect_callback 9 "127.0.0.1" 6379 start;
       ev_client_connect "127.0.0.1" 6379 5000 false;
       ev_connect_callback 9 "127.0.0.1" 6379 ok]
  ∧ m_connect_timeout_ms subscriber_connected = 0%N
  ∧ transport_calls
      (trace (connection_disconnection_handler [env_reconnects] subscriber_dropped))
    = [ev_client_connect "127.0.0.1" 6379 0 false;
       ev_client_send ["AUTH"; "pw"];
       ev_client_send ["CLIENT"; "SETNAME"; "svc"];
       ev_client_send ["SUBSCRIBE"; "x"];
       ev_client_send ["PSUBSCRIBE"; "y.*"];
       ev_client_commit].
Proof.
  split; [|repeat split].
  intros host port cb timeout_ms max_reconnects interval_ms use_encryption s run.
  subst run. rewrite (proj1 (connect_run _ _ _ _ _ _ _ _)).
  destruct s; repeat split.
Qed.

(** ** Cancelling the reconnection *)

Lemma client_connect_attempts_app (t1 t2 : list event) :
  client_connect_attempts (t1 ++ t2)
  = (client_connect_attempts t1 + client_connect_attempts t2)%nat.
Proof.
  induction t1 as [|e t1 IH]; [reflexivity|].
  destruct e; simpl; now rewrite IH.
Qed.

Lemma client_connect_attempts_quiet (t : list event) :
  Forall (λ e, is_client_connect e = false) t → client_connect_attempts t = 0.
Proof.
  induction 1 as [|e t He _ IH]; [reflexivity|].
  destruct e; try discriminate He; exact IH.
Qed.

Lemma connects_at_most_bind (a b : nat) {A B} (m : M A) (k : A → M B) :
  connects_at_most a m → (∀ x, connects_at_most b (k x)) →
  connects_at_most (a + b) (bind m k).
Proof.
  intros Hm Hk s. unfold bind. specialize (Hm s).
  destruct (result (m s)) as [x|e]; simpl.
  - rewrite client_connect_attempts_app. specialize (Hk x (object (m s))). lia.
  - lia.
Qed.

Lemma connects_at_most_quiet {A} (m : M A) :
  keeps (λ _, True) (λ e, is_client_connect e = false) m → connects_at_most 0 m.
Proof.
  intros Hk s. destruct (Hk s I) as [_ Hq].
  now rewrite (client_connect_attempts_quiet _ Hq).
Qed.

Lemma connects_at_most_mono (a b : nat) {A} (m : M A) :
  (a ≤ b)%nat → connects_at_most a m → connects_at_most b m.
Proof. intros Hab Hm s. specialize (Hm s). lia. Qed.

Ltac quiet := apply connects_at_most_quiet; unfold_members; keeps_auto.

Lemma connect_connects_once (handshake_ok : bool) (host : string) (port : N)
    (cb : connect_callback_t) (timeout_ms : N) (max_reconnects : Z) (interval_ms : N)
    (use_encryption : bool) :
  connects_at_most 1
    (connect handshake_ok host port cb timeout_ms max_reconnects interval_ms
       use_encryption).
Proof.
  unfold connect.
  do 7 (apply (connects_at_most_bind 0 1); [quiet | intros ?]).
  apply (connects_at_most_bind 1 0); [|intros ?; quiet].
  intros s. unfold client_connect. destruct handshake_ok; simpl; lia.
Qed.

Lemma reconnect_connects_once (env : attempt_env) :
  connects_at_most 1 (reconnect env).
Proof.
  unfold reconnect.
  do 3 (apply (connects_at_most_bind 0 1); [quiet | intros ?]).
  match goal with |- connects_at_most _ (if ?b then _ else _) => destruct b end.
  - apply (connects_at_most_mono 0); [lia | quiet].
  - do 7 (apply (connects_at_most_bind 0 1); [quiet | intros ?]).
    apply (connects_at_most_bind 1 0); [|intros ?; quiet].
    intros s. apply (connect_connects_once _ _ _ _ _ _ _ _ s).
Qed.

Lemma should_reconnect_cancelled (s : subscriber) :
  m_cancel s = true → should_reconnect s = RunResult (Return false) s [].
Proof.
  intros Hc. unfold should_reconnect, get. rewrite Hc.
  now rewrite andb_false_r.
Qed.

(** With the flag set the loop leaves at its test, whatever is left of the
    script. *)
Lemma reconnect_loop_cancelled (script : list attempt_env) (s : subscriber) :
  m_cancel s = true → reconnect_loop script s = RunResult (Return true) s [].
Proof.
  intros Hc. destruct script as [|env script]; simpl;
    erewrite bind_returns by (apply should_reconnect_cancelled, Hc); reflexivity.
Qed.







(** ** Subscribing, and what the receive handler does with the tables *)

Lemma subscribe_run (channel : string) (cb : subscribe_callback_t)
    (ack : acknowledgement_callback_t) (s : subscriber) :
  subscribe channel cb ack s
  = RunResult (Return tt)
      (set_subscribed_channels
         (<[channel := {| subscribe_callback := cb; acknowledgement_callback := ack |}]>
            (m_subscribed_channels s)) s)
      [ev_client_send ["SUBSCRIBE"; channel]].
Proof. reflexivity. Qed.

Lemma psubscribe_run (pattern : string) (cb : subscribe_callback_t)
    (ack : acknowledgement_callback_t) (s : subscriber) :
  psubscribe pattern cb ack s
  = RunResult (Return tt)
      (set_psubscribed_channels
         (<[pattern := {| subscribe_callback := cb; acknowledgement_callback := ack |}]>
            (m_psubscribed_channels s)) s)
      [ev_client_send ["PSUBSCRIBE"; pattern]].
Proof. reflexivity. Qed.

Lemma subscribed_channels_set v s : m_subscribed_channels (set_subscribed_channels v s) = v.
Proof. now destruct s. Qed.

Lemma psubscribed_channels_set v s : m_psubscribed_channels (set_psubscribed_channels v s) = v.
Proof. now destruct s. Qed.

Lemma subscribed_channels_set_twice v w s :
  set_subscribed_channels v (set_subscribed_channels w s) = set_subscribed_channels v s.
Proof. now destruct s. Qed.

Lemma psubscribed_channels_set_twice v w s :
  set_psubscribed_channels v (set_psubscribed_channels w s) = set_psubscribed_channels v s.
Proof. now destruct s. Qed.

Lemma subscribed_channels_set_same s :
  set_subscribed_channels (m_subscribed_channels s) s = s.
Proof. now destruct s. Qed.

Lemma psubscribed_channels_set_same s :
  set_psubscribed_channels (m_psubscribed_channels s) s = s.
Proof. now destruct s. Qed.

Lemma receive_message (channel payload : string) (s : subscriber) :
  connection_receive_handler (message_reply channel payload) s
  = match m_subscribed_channels s !! channel with
    | Some holder =>
        match subscribe_callback holder with
        | Some f => RunResult (Return tt) s [ev_subscribe_callback (Some f) channel payload]
        | None => RunResult (Throw bad_function_call) s []
        end
    | None => RunResult (Return tt) s []
    end.
Proof.
  unfold message_reply, connection_receive_handler, handle_subscribe_reply. run_monad.
  now destruct (m_subscribed_channels s !! channel) as [[[f|] ack]|].
Qed.

Lemma receive_pmessage (pattern channel payload : string) (s : subscriber) :
  connection_receive_handler (pmessage_reply pattern channel payload) s
  = match m_psubscribed_channels s !! pattern with
    | Some holder =>
        match subscribe_callback holder with
        | Some f => RunResult (Return tt) s [ev_subscribe_callback (Some f) channel payload]
        | None => RunResult (Throw bad_function_call) s []
        end
    | None => RunResult (Return tt) s []
    end.
Proof.
  unfold pmessage_reply, connection_receive_handler, handle_psubscribe_reply. run_monad.
  now destruct (m_psubscribed_channels s !! pattern) as [[[f|] ack]|].
Qed.

Lemma receive_subscribe_ack (channel : string) (nb_chans : Z) (s : subscriber) :
  connection_receive_handler (subscribe_ack_reply channel nb_chans) s
  = RunResult (Return tt) s
      match m_subscribed_channels s !! channel with
      | Some holder =>
          match acknowledgement_callback holder with
          | Some g => [ev_acknowledgement_callback g nb_chans]
          | None => []
          end
      | None => []
      end.
Proof.
  unfold subscribe_ack_reply, connection_receive_handler, handle_acknowledgement_reply,
    call_acknowledgement_callback. run_monad.
  now destruct (m_subscribed_channels s !! channel) as [[? [?|]]|].
Qed.

Lemma receive_psubscribe_ack (pattern : string) (nb_chans : Z) (s : subscriber) :
  connection_receive_handler (psubscribe_ack_reply pattern nb_chans) s
  = RunResult (Return tt) s
      match m_psubscribed_channels s !! pattern with
      | Some holder =>
          match acknowledgement_callback holder with
          | Some g => [ev_acknowledgement_callback g nb_chans]
          | None => []
          end
      | None => []
      end.
Proof.
  unfold psubscribe_ack_reply, connection_receive_handler, handle_acknowledgement_reply,
    call_acknowledgement_callback. run_monad.
  now destruct (m_psubscribed_channels s !! pattern) as [[? [?|]]|].
Qed.

(** X1 (a subscription reaches its handlers).  [subscribe] buffers one
    SUBSCRIBE command, and on the object it leaves, a message published on
    the channel invokes the message handler given to [subscribe] with the
    channel and the payload, and the acknowledgement of the subscription
    invokes the acknowledgement handler, if one was given, with the count;
    neither changes the object.  The same holds for [psubscribe] with
    PSUBSCRIBE, a pmessage for the pattern (the handler receives the
    concrete channel) and the acknowledgement of the pattern. *)
Theorem subscribe_then_receive (s : subscriber) (name : string) (f : nat)
    (ack : acknowledgement_callback_t) (channel payload : string) (nb_chans : Z) :
  let subscribed := exec (subscribe name (Some f) ack) s in
  let psubscribed := exec (psubscribe name (Some f) ack) s in
  let acknowledged := match ack with
                      | Some g => [ev_acknowledgement_callback g nb_chans]
                      | None => []
                      end in
  effects (subscribe name (Some f) ack) s = [ev_client_send ["SUBSCRIBE"; name]]
  ∧ connection_receive_handler (message_reply name payload) subscribed
    = RunResult (Return tt) subscribed [ev_subscribe_callback (Some f) name payload]
  ∧ connection_receive_handler (subscribe_ack_reply name nb_chans) subscribed
    = RunResult (Return tt) subscribed acknowledged
  ∧ effects (psubscribe name (Some f) ack) s = [ev_client_send ["PSUBSCRIBE"; name]]
  ∧ connection_receive_handler (pmessage_reply name channel payload) psubscribed
    = RunResult (Return tt) psubscribed [ev_subscribe_callback (Some f) channel payload]
  ∧ connection_receive_handler (psubscribe_ack_reply name nb_chans) psubscribed
    = RunResult (Return tt) psubscribed acknowledged.
Proof.
  intros subscribed psubscribed acknowledged. subst subscribed psubscribed acknowledged.
  unfold exec, effects. rewrite subscribe_run, psubscribe_run. cbn [object trace].
  rewrite receive_message, receive_subscribe_ack, receive_pmessage, receive_psubscribe_ack.
  rewrite subscribed_channels_set, psubscribed_channels_set, !lookup_insert_eq.
  repeat split.
Qed.

(** X2 (subscribing again replaces the handlers).  A second [subscribe] to
    a channel that is already in the table buffers SUBSCRIBE again and
    leaves the object that the second call alone would have left: the
    handlers of the first call are gone, and a message on the channel
    invokes the handler of the second call only.  The same holds for
    [psubscribe]. *)
Theorem subscribe_again_replaces_handlers (s : subscriber) (name : string)
    (f1 f2 : nat) (ack1 ack2 : acknowledgement_callback_t) (channel payload : string) :
  let twice := subscribe name (Some f1) ack1 ;; subscribe name (Some f2) ack2 in
  let ptwice := psubscribe name (Some f1) ack1 ;; psubscribe name (Some f2) ack2 in
  twice s
  = RunResult (Return tt) (exec (subscribe name (Some f2) ack2) s)
      [ev_client_send ["SUBSCRIBE"; name]; ev_client_send ["SUBSCRIBE"; name]]
  ∧ effects (connection_receive_handler (message_reply name payload)) (exec twice s)
    = [ev_subscribe_callback (Some f2) name payload]
  ∧ ptwice s
    = RunResult (Return tt) (exec (psubscribe name (Some f2) ack2) s)
        [ev_client_send ["PSUBSCRIBE"; name]; ev_client_send ["PSUBSCRIBE"; name]]
  ∧ effects (connection_receive_handler (pmessage_reply name channel payload))
      (exec ptwice s)
    = [ev_subscribe_callback (Some f2) channel payload].
Proof.
  intros twice ptwice.
  assert (twice s
          = RunResult (Return tt) (exec (subscribe name (Some f2) ack2) s)
              [ev_client_send ["SUBSCRIBE"; name]; ev_client_send ["SUBSCRIBE"; name]])
    as Htwice.
  { subst twice. unfold exec. erewrite bind_returns; [|apply subscribe_run].
    rewrite !subscribe_run. cbn [result object trace app].
    now rewrite subscribed_channels_set, subscribed_channels_set_twice, insert_insert_eq. }
  assert (ptwice s
          = RunResult (Return tt) (exec (psubscribe name (Some f2) ack2) s)
              [ev_client_send ["PSUBSCRIBE"; name]; ev_client_send ["PSUBSCRIBE"; name]])
    as Hptwice.
  { subst ptwice. unfold exec. erewrite bind_returns; [|apply psubscribe_run].
    rewrite !psubscribe_run. cbn [result object trace app].
    now rewrite psubscribed_channels_set, psubscribed_channels_set_twice, insert_insert_eq. }
  unfold exec, effects in *. rewrite Htwice, Hptwice. cbn [object].
  rewrite subscribe_run, psubscribe_run, receive_message, receive_pmessage.
  cbn [object trace].
  rewrite subscribed_channels_set, psubscribed_channels_set, !lookup_insert_eq.
  repeat split.
Qed.

(** X3 (subscribe, then unsubscribe).  [subscribe] followed by
    [unsubscribe] of the same channel buffers SUBSCRIBE and then
    UNSUBSCRIBE, and leaves the table without the channel; when the channel
    was not in the table before, the object is exactly what it was.  After
    the two calls a message on the channel invokes nothing.  The same holds
    for [psubscribe] and [punsubscribe]. *)
Theorem subscribe_unsubscribe_round_trip (s : subscriber) (name : string)
    (cb : subscribe_callback_t) (ack : acknowledgement_callback_t)
    (channel payload : string) :
  let both := subscribe name cb ack ;; unsubscribe name in
  let pboth := psubscribe name cb ack ;; punsubscribe name in
  both s
  = RunResult (Return tt)
      (set_subscribed_channels (delete name (m_subscribed_channels s)) s)
      [ev_client_send ["SUBSCRIBE"; name]; ev_client_send ["UNSUBSCRIBE"; name]]
  ∧ (m_subscribed_channels s !! name = None → exec both s = s)
  ∧ effects (connection_receive_handler (message_reply name payload)) (exec both s) = []
  ∧ pboth s
    = RunResult (Return tt)
        (set_psubscribed_channels (delete name (m_psubscribed_channels s)) s)
        [ev_client_send ["PSUBSCRIBE"; name]; ev_client_send ["PUNSUBSCRIBE"; name]]
  ∧ (m_psubscribed_channels s !! name = None → exec pboth s = s)
  ∧ effects (connection_receive_handler (pmessage_reply name channel payload))
      (exec pboth s) = [].
Proof.
  intros both pboth.
  assert (both s
          = RunResult (Return tt)
              (set_subscribed_channels (delete name (m_subscribed_channels s)) s)
              [ev_client_send ["SUBSCRIBE"; name]; ev_client_send ["UNSUBSCRIBE"; name]])
    as Hboth.
  { subst both. erewrite bind_returns; [|apply subscribe_run].
    unfold unsubscribe. rewrite bind_get, subscribed_channels_set, lookup_insert_eq.
    unfold client_send. rewrite bind_emit. unfold modify. cbn [result object trace app].
    now rewrite subscribed_channels_set, subscribed_channels_set_twice, delete_insert_eq. }
  assert (pboth s
          = RunResult (Return tt)
              (set_psubscribed_channels (delete name (m_psubscribed_channels s)) s)
              [ev_client_send ["PSUBSCRIBE"; name]; ev_client_send ["PUNSUBSCRIBE"; name]])
    as Hpboth.
  { subst pboth. erewrite bind_returns; [|apply psubscribe_run].
    unfold punsubscribe. rewrite bind_get, psubscribed_channels_set, lookup_insert_eq.
    unfold client_send. rewrite bind_emit. unfold modify. cbn [result object trace app].
    now rewrite psubscribed_channels_set, psubscribed_channels_set_twice, delete_insert_eq. }
  unfold exec, effects. rewrite Hboth, Hpboth. cbn [object].
  rewrite receive_message, receive_pmessage. cbn [trace].
  rewrite subscribed_channels_set, psubscribed_channels_set, !lookup_delete_eq.
  repeat split.
  - intros Hnone. now rewrite (delete_id _ _ Hnone), subscribed_channels_set_same.
  - intros Hnone. now rewrite (delete_id _ _ Hnone), psubscribed_channels_set_same.
Qed.

Lemma subscribe_unsubscribe_round_trip_witness :
  exec (subscribe "sports" (Some 4) None ;; unsubscribe "sports") subscriber_example
  = subscriber_example
  ∧ exec (psubscribe "sports.*" (Some 4) None ;; punsubscribe "sports.*") subscriber_example
    = subscriber_example.
Proof.
  pose proof (subscribe_unsubscribe_round_trip subscriber_example "sports" (Some 4) None
                "f1" "pole") as (_ & Ha & _ & _ & _ & _).
  pose proof (subscribe_unsubscribe_round_trip subscriber_example "sports.*" (Some 4) None
                "f1" "pole") as (_ & _ & _ & _ & Hb & _).
  split; [apply Ha | apply Hb]; reflexivity.
Defined.

(** X4 (channels and patterns are looked up in their own table).
    [subscribe] does not touch the pattern table and [psubscribe] does not
    touch the channel table.  A name registered with [psubscribe] only is
    not a channel: a message and a subscribe acknowledgement that carry the
    name invoke nothing.  A name registered with [subscribe] only is not a
    pattern: a pmessage and a psubscribe acknowledgement that carry the name
    invoke nothing. *)
Theorem channel_and_pattern_tables_are_separate (s : subscriber) (name : string)
    (cb : subscribe_callback_t) (ack : acknowledgement_callback_t)
    (channel payload : string) (nb_chans : Z) :
  let subscribed := exec (subscribe name cb ack) s in
  let psubscribed := exec (psubscribe name cb ack) s in
  m_psubscribed_channels subscribed = m_psubscribed_channels s
  ∧ m_subscribed_channels psubscribed = m_subscribed_channels s
  ∧ (m_subscribed_channels s !! name = None →
     connection_receive_handler (message_reply name payload) psubscribed
     = RunResult (Return tt) psubscribed []
     ∧ connection_receive_handler (subscribe_ack_reply name nb_chans) psubscribed
       = RunResult (Return tt) psubscribed [])
  ∧ (m_psubscribed_channels s !! name = None →
     connection_receive_handler (pmessage_reply name channel payload) subscribed
     = RunResult (Return tt) subscribed []
     ∧ connection_receive_handler (psubscribe_ack_reply name nb_chans) subscribed
       = RunResult (Return tt) subscribed []).
Proof.
  intros subscribed psubscribed. subst subscribed psubscribed. unfold exec.
  rewrite subscribe_run, psubscribe_run. cbn [object].
  assert (∀ v, m_psubscribed_channels (set_subscribed_channels v s)
               = m_psubscribed_channels s) as Hp by (intros v; now destruct s).
  assert (∀ v, m_subscribed_channels (set_psubscribed_channels v s)
               = m_subscribed_channels s) as Hc by (intros v; now destruct s).
  split; [apply Hp | split; [apply Hc | split]].
  - intros Hnone. rewrite receive_message, receive_subscribe_ack, Hc, Hnone. now split.
  - intros Hnone. rewrite receive_pmessage, receive_psubscribe_ack, Hp, Hnone. now split.
Qed.

Lemma channel_and_pattern_tables_are_separate_witness :
  let psubscribed := exec (psubscribe "sports" (Some 4) (Some 5)) subscriber_example in
  let subscribed := exec (subscribe "sports.*" (Some 4) (Some 5)) subscriber_example in
  (connection_receive_handler (message_reply "sports" "goal") psubscribed
   = RunResult (Return tt) psubscribed []
   ∧ connection_receive_handler (subscribe_ack_reply "sports" 2) psubscribed
     = RunResult (Return tt) psubscribed [])
  ∧ (connection_receive_handler (pmessage_reply "sports.*" "sports.f1" "pole") subscribed
     = RunResult (Return tt) subscribed []
     ∧ connection_receive_handler (psubscribe_ack_reply "sports.*" 2) subscribed
       = RunResult (Return tt) subscribed []).
Proof.
  intros psubscribed subscribed. split.
  - apply (proj1 (proj2 (proj2 (channel_and_pattern_tables_are_separate subscriber_example
                                  "sports" (Some 4) (Some 5) "f1" "goal" 2)))).
    reflexivity.
  - apply (proj2 (proj2 (proj2 (channel_and_pattern_tables_are_separate subscriber_example
                                  "sports.*" (Some 4) (Some 5) "sports.f1" "pole" 2)))).
    reflexivity.
Defined.

Lemma receive_handler_shape (r : reply) (s : subscriber) :
  let run := connection_receive_handler r s in
  (length (trace run) ≤ 1)%nat
  ∧ Forall (λ e, is_user_callback e = true) (trace run)
  ∧ object run = with_reply_slots_of (object run) s.
Proof.
  intros run. subst run.
  assert (s = with_reply_slots_of s s) as Hsame by now destruct s.
  destruct r as [| v ty | z | rows].
  1-3: rewrite receive_non_array by reflexivity;
    destruct s as [? ? ? ? ? ? ? ? ? ? ? ? ? ? ? ? ? [f|] [g|]]; simpl;
    repeat split; auto; repeat constructor.
  destruct rows as [|e0 [|e1 [|e2 [|e3 [|e4 rows]]]]].
  - simpl. repeat split; auto.
  - destruct e0; simpl; repeat split; auto.
  - destruct e0 as [| t0 ty0 | z0 | l0]; destruct e1;
      try (simpl; repeat split; auto; fail);
      unfold connection_receive_handler; simpl;
      (destruct (String.eqb t0 "pong"); [|simpl; repeat split; auto; fail]);
      unfold handle_ping_reply; run_monad;
      destruct s as [? ? ? ? ? ? ? ? ? ? ? ? ? ? ? ? [|[f|] q] ? ?]; simpl;
      repeat split; auto; repeat constructor.
  - unfold connection_receive_handler, handle_acknowledgement_reply, handle_subscribe_reply,
      call_acknowledgement_callback.
    destruct e2 as [| t2 ty2 | z2 | l2];
      destruct e0 as [| t0 ty0 | z0 | l0];
      destruct e1 as [| t1 ty1 | z1 | l1];
      try (simpl; repeat split; auto; fail); run_monad.
    + destruct (String.eqb t0 "message"); simpl; [|repeat split; auto].
      destruct (m_subscribed_channels s !! t1) as [[[f|] ack]|]; simpl;
        repeat split; auto; repeat constructor.
    + destruct (String.eqb t0 "subscribe"); simpl.
      * destruct (m_subscribed_channels s !! t1) as [[? [?|]]|]; simpl;
          repeat split; auto; repeat constructor.
      * destruct (String.eqb t0 "psubscribe"); simpl; [|repeat split; auto].
        destruct (m_psubscribed_channels s !! t1) as [[? [?|]]|]; simpl;
          repeat split; auto; repeat constructor.
  - unfold connection_receive_handler, handle_psubscribe_reply.
    destruct e0 as [| t0 ty0 | z0 | l0];
      destruct e1 as [| t1 ty1 | z1 | l1];
      destruct e2 as [| t2 ty2 | z2 | l2];
      destruct e3 as [| t3 ty3 | z3 | l3];
      try (simpl; repeat split; auto; fail); run_monad.
    destruct (String.eqb t0 "pmessage"); simpl; [|repeat split; auto].
    destruct (m_psubscribed_channels s !! t1) as [[[f|] ack]|]; simpl;
      repeat split; auto; repeat constructor.
  - destruct e0, e1, e2, e3; try (simpl; repeat split; auto; fail);
      destruct e4; simpl; repeat split; auto.
Qed.

(** X5 (what the receive handler can do).  Whatever the reply, the receive
    handler invokes at most one callback and makes no other call (nothing is
    sent, no connect callback is invoked), and the only members it can
    change are the ping queue and the two one-shot slots: the tables, the
    cached connection parameters and the flags are left as they were. *)
Theorem receive_handler_frame (r : reply) (s : subscriber) :
  let run := connection_receive_handler r s in
  (length (trace run) ≤ 1)%nat
  ∧ Forall (λ e, is_user_callback e = true) (trace run)
  ∧ object run = with_reply_slots_of (object run) s.
Proof. exact (receive_handler_shape r s). Qed.

(** ** One reconnection attempt, in all its outcomes *)

Lemma connect_again_run (handshake_ok : bool) (timeout_ms : N) (s : subscriber) :
  connect handshake_ok (m_redis_server s) (m_redis_port s) (m_connect_callback s)
    timeout_ms (m_max_reconnects s) (m_reconnect_interval_ms s) (m_use_encryption s) s
  = RunResult (if handshake_ok then Return tt else Throw transport_failure)
      (if handshake_ok then set_client_is_connected true s else s)
      (match m_connect_callback s with
       | Some f => [ev_connect_callback f (m_redis_server s) (m_redis_port s) start]
       | None => []
       end
       ++ ev_client_connect (m_redis_server s) (m_redis_port s) timeout_ms
            (m_use_encryption s)
          :: if handshake_ok
             then match m_connect_callback s with
                  | Some f => [ev_connect_callback f (m_redis_server s) (m_redis_port s) ok]
                  | None => []
                  end
             else []).
Proof.
  destruct handshake_ok.
  - rewrite (proj1 (connect_run _ _ _ _ _ _ _ _)). now destruct s.
  - rewrite (proj2 (connect_run _ _ _ _ _ _ _ _)). now destruct s.
Qed.

Lemma reconnect_tail_run (flush_ok : bool) (s : subscriber) :
  (connected ← is_connected ;
   server ← get m_redis_server ;
   port ← get m_redis_port ;
   if negb connected then notify server port failed
   else
     notify server port ok ;;
     re_auth ;;
     re_client_setname ;;
     re_subscribe ;;
     commit flush_ok) s
  = if m_client_is_connected s then
      RunResult (if flush_ok then Return tt else Throw transport_failure)
        (after_replay s)
        (match m_connect_callback s with
         | Some f => [ev_connect_callback f (m_redis_server s) (m_redis_port s) ok]
         | None => []
         end ++ (ev_client_send <$> replay_commands s) ++ [ev_client_commit])
    else
      RunResult (Return tt) s
        match m_connect_callback s with
        | Some f => [ev_connect_callback f (m_redis_server s) (m_redis_port s) failed]
        | None => []
        end.
Proof.
  unfold is_connected. rewrite !bind_get.
  destruct (m_client_is_connected s); cbn [negb].
  - erewrite bind_returns; [|apply notify_run]. now rewrite replay_run.
  - apply notify_run.
Qed.

Lemma reconnect_cases (env : attempt_env) (s : subscriber) :
  reconnect env s =
    if negb (String.eqb (m_master_name s) "") && negb (master_found (sentinel_says env))
    then
      RunResult (Return tt) (attempt_located env s)
        (attempt_lookup s ++ attempt_notified env s lookup_failed)
    else if handshake_succeeds env || m_client_is_connected s then
      RunResult (if flush_succeeds env then Return tt else Throw transport_failure)
        (after_replay (set_client_is_connected true (attempt_located env s)))
        (attempt_lookup s ++ attempt_notified env s start
         ++ ev_client_connect (reconnect_host env s) (reconnect_port env s)
              (m_connect_timeout_ms s) (m_use_encryption s)
            :: (if handshake_succeeds env then attempt_notified env s ok else [])
         ++ attempt_notified env s ok
         ++ (ev_client_send <$> replay_commands s) ++ [ev_client_commit])
    else
      RunResult (Return tt) (attempt_located env s)
        (attempt_lookup s ++ attempt_notified env s start
         ++ ev_client_connect (reconnect_host env s) (reconnect_port env s)
              (m_connect_timeout_ms s) (m_use_encryption s)
            :: attempt_notified env s failed).
Proof.
  unfold reconnect. rewrite bind_modify, bind_get.
  change (set_current_reconnect_attempts
            (int32_wrap (m_current_reconnect_attempts s + 1)) s)
    with (attempt_counted s).
  assert (m_master_name (attempt_counted s) = m_master_name s) as -> by now destruct s.
  set (located := attempt_located env s).
  assert ((if String.eqb (m_master_name s) "" then ret true
           else sentinel_get_master_addr_by_name (sentinel_says env) (m_master_name s))
            (attempt_counted s)
          = RunResult
              (Return (String.eqb (m_master_name s) "" || master_found (sentinel_says env)))
              located (attempt_lookup s)) as Hlookup.
  { subst located. unfold attempt_located, attempt_lookup.
    destruct (String.eqb (m_master_name s) ""); reflexivity. }
  erewrite bind_returns; [|exact Hlookup]. clear Hlookup.
  assert (m_redis_server located = reconnect_host env s
          ∧ m_redis_port located = reconnect_port env s
          ∧ m_connect_callback located = m_connect_callback s
          ∧ m_connect_timeout_ms located = m_connect_timeout_ms s
          ∧ m_use_encryption located = m_use_encryption s
          ∧ m_client_is_connected located = m_client_is_connected s
          ∧ replay_commands located = replay_commands s)
    as (Hhost & Hport & Hcb & Htmo & Henc & Hconn & Hcmds).
  { subst located. unfold attempt_located, reconnect_host, reconnect_port, replay_commands.
    destruct s; cbn. destruct (String.eqb _ ""); cbn; repeat split. }
  rewrite negb_orb.
  destruct (negb (String.eqb (m_master_name s) "")
            && negb (master_found (sentinel_says env))).
  - rewrite !bind_get. cbn [result object trace].
    rewrite notify_run, Hhost, Hport, Hcb. reflexivity.
  - rewrite !bind_get. cbn [result object trace].
    erewrite bind_returns;
      [|unfold try_catch_all; rewrite connect_again_run; reflexivity].
    cbn [result object trace]. rewrite reconnect_tail_run.
    unfold attempt_notified. rewrite Hhost, Hport, Hcb, Htmo, Henc.
    destruct (handshake_succeeds env); cbn [orb].
    + assert (∀ x, m_client_is_connected (set_client_is_connected true x) = true
                   ∧ m_connect_callback (set_client_is_connected true x)
                     = m_connect_callback x
                   ∧ m_redis_server (set_client_is_connected true x) = m_redis_server x
                   ∧ m_redis_port (set_client_is_connected true x) = m_redis_port x
                   ∧ replay_commands (set_client_is_connected true x) = replay_commands x)
        as Hset by (intros x; now destruct x).
      destruct (Hset located) as (-> & -> & -> & -> & ->).
      rewrite Hhost, Hport, Hcb, Hcmds. cbn [result object trace].
      now rewrite <- !app_assoc.
    + rewrite Hconn. destruct (m_client_is_connected s) eqn:Hc.
      * assert (set_client_is_connected true located = located) as ->
          by (destruct located; cbn in *; now subst).
        rewrite Hhost, Hport, Hcb, Hcmds. cbn [result object trace].
        now rewrite <- !app_assoc.
      * rewrite Hhost, Hport, Hcb. cbn [result object trace].
        now rewrite <- !app_assoc.
Qed.

(** What an attempt leaves alone, whatever its outcome: it counts itself,
    and can change the cached address (through the sentinel), the connected
    state and the two one-shot slots, nothing else. *)
Lemma reconnect_frame (env : attempt_env) (s : subscriber) :
  let s' := object (reconnect env s) in
  m_current_reconnect_attempts s' = int32_wrap (m_current_reconnect_attempts s + 1)
  ∧ m_max_reconnects s' = m_max_reconnects s
  ∧ m_cancel s' = m_cancel s
  ∧ m_reconnecting s' = m_reconnecting s
  ∧ m_master_name s' = m_master_name s
  ∧ m_password s' = m_password s
  ∧ m_client_name s' = m_client_name s
  ∧ m_connect_timeout_ms s' = m_connect_timeout_ms s
  ∧ m_reconnect_interval_ms s' = m_reconnect_interval_ms s
  ∧ m_use_encryption s' = m_use_encryption s
  ∧ m_connect_callback s' = m_connect_callback s
  ∧ m_ping_callbacks s' = m_ping_callbacks s
  ∧ m_subscribed_channels s' = m_subscribed_channels s
  ∧ m_psubscribed_channels s' = m_psubscribed_channels s.
Proof.
  intros s'. subst s'. rewrite reconnect_cases.
  unfold attempt_located, attempt_counted, after_replay.
  destruct s as [server port master pw name conn tmo maxr att ival enc rec canc
                   chans pchans cb pings acb scb].
  cbn [m_master_name m_client_is_connected].
  destruct (String.eqb master ""), (master_found (sentinel_says env)),
    (handshake_succeeds env), conn; cbn;
    destruct (String.eqb pw ""), (String.eqb name ""); cbn; repeat split.
Qed.

(** ** The reconnect loop, one iteration at a time *)

Lemma should_reconnect_spec (s : subscriber) :
  ∃ again : bool,
    should_reconnect s = RunResult (Return again) s []
    ∧ (again = true
       ↔ m_client_is_connected s = false ∧ m_cancel s = false
         ∧ (m_max_reconnects s = (-1)%Z
            ∨ (m_current_reconnect_attempts s < m_max_reconnects s)%Z)).
Proof.
  eexists. split; [reflexivity|].
  rewrite !andb_true_iff, orb_true_iff, !negb_true_iff, Z.eqb_eq, Z.ltb_lt. tauto.
Qed.

Lemma sleep_run (s : subscriber) :
  sleep_before_next_reconnect_attempt s = RunResult (Return tt) s (sleep_events s).
Proof.
  unfold sleep_before_next_reconnect_attempt, sleep_events, notification.
  rewrite bind_get. destruct (m_reconnect_interval_ms s <=? 0)%N; [reflexivity|].
  rewrite !bind_get. erewrite bind_returns; [|apply notify_run]. reflexivity.
Qed.

Lemma reconnect_loop_stops (script : list attempt_env) (s : subscriber) :
  should_reconnect s = RunResult (Return false) s [] →
  reconnect_loop script s = RunResult (Return true) s [].
Proof.
  intros Htest. destruct script; cbn [reconnect_loop];
    erewrite bind_returns by exact Htest; reflexivity.
Qed.

Lemma reconnect_loop_exhausted (s : subscriber) :
  should_reconnect s = RunResult (Return true) s [] →
  reconnect_loop [] s = RunResult (Return false) s [].
Proof.
  intros Htest. cbn [reconnect_loop]. erewrite bind_returns by exact Htest. reflexivity.
Qed.

Lemma reconnect_loop_iterates (env : attempt_env) (script : list attempt_env)
    (s : subscriber) :
  should_reconnect s = RunResult (Return true) s [] →
  let cancelled := if cancel_during_sleep env then set_cancel true s else s in
  let before := sleep_events s
                ++ (if cancel_during_sleep env then [ev_cancel_reconnect] else []) in
  let attempt := reconnect env cancelled in
  reconnect_loop (env :: script) s =
    match result attempt with
    | Return _ =>
        let rest := reconnect_loop script (object attempt) in
        RunResult (result rest) (object rest) (before ++ trace attempt ++ trace rest)
    | Throw e => RunResult (Throw e) (object attempt) (before ++ trace attempt)
    end.
Proof.
  intros Htest cancelled before attempt. subst cancelled before attempt.
  cbn [reconnect_loop]. erewrite bind_returns by exact Htest.
  cbn [result object trace app].
  erewrite bind_returns by apply sleep_run. cbn [result object trace].
  assert (when (cancel_during_sleep env) caller_cancels s
          = RunResult (Return tt)
              (if cancel_during_sleep env then set_cancel true s else s)
              (if cancel_during_sleep env then [ev_cancel_reconnect] else [])) as Hcancel
    by (destruct (cancel_during_sleep env); reflexivity).
  erewrite bind_returns by exact Hcancel. cbn [result object trace].
  set (cancelled := if cancel_during_sleep env then set_cancel true s else s).
  destruct (result (reconnect env cancelled)) as [[]|e] eqn:Hattempt.
  - rewrite (bind_run _ _ _ _ Hattempt). cbn [result object trace].
    now rewrite <- !app_assoc.
  - rewrite (bind_run_throw _ _ _ _ Hattempt). cbn [result object trace].
    now rewrite <- !app_assoc.
Qed.

(** ** The disconnection handler around its loop *)

Lemma clear_ping_callbacks_exact (s : subscriber) :
  clear_ping_callbacks s = RunResult (Return tt) (set_ping_callbacks [] s) (failed_pings s).
Proof.
  unfold clear_ping_callbacks, failed_pings. rewrite bind_get.
  destruct s as [? ? ? ? ? ? ? ? ? ? ? ? ? ? ? ? [|cb q] ? ?]; reflexivity.
Qed.

Lemma handler_stops_run (s : subscriber) :
  (clear_subscriptions ;;
   server ← get m_redis_server ;
   port ← get m_redis_port ;
   notify server port stopped) s
  = RunResult (Return tt) (set_psubscribed_channels ∅ (set_subscribed_channels ∅ s))
      (notification s stopped).
Proof.
  unfold clear_subscriptions.
  erewrite bind_returns by (rewrite bind_modify; reflexivity).
  cbn [result object trace]. rewrite !bind_get, notify_run. unfold notification.
  now destruct s.
Qed.

Lemma disconnection_handler_run (script : list attempt_env) (s : subscriber) :
  m_reconnecting s = false →
  let entered := set_ping_callbacks []
                   (set_current_reconnect_attempts 0 (set_reconnecting true s)) in
  let before := notification s dropped ++ failed_pings s in
  let loop := reconnect_loop script entered in
  connection_disconnection_handler script s =
    match result loop with
    | Return true =>
        if m_client_is_connected (object loop)
        then RunResult (Return true) (set_reconnecting false (object loop))
               (before ++ trace loop)
        else RunResult (Return true)
               (set_reconnecting false
                  (set_psubscribed_channels ∅ (set_subscribed_channels ∅ (object loop))))
               (before ++ trace loop ++ notification (object loop) stopped)
    | Return false => RunResult (Return false) (object loop) (before ++ trace loop)
    | Throw e => RunResult (Throw e) (object loop) (before ++ trace loop)
    end.
Proof.
  intros Hrec entered before loop. subst entered before loop.
  unfold connection_disconnection_handler, is_reconnecting.
  rewrite bind_get, Hrec, !bind_modify, !bind_get.
  erewrite bind_returns by apply notify_run. cbn [result object trace].
  erewrite bind_returns by apply clear_ping_callbacks_exact. cbn [result object trace].
  assert (notification s dropped
          = match m_connect_callback
                    (set_current_reconnect_attempts 0 (set_reconnecting true s)) with
            | Some f =>
                [ev_connect_callback f
                   (m_redis_server (set_current_reconnect_attempts 0 (set_reconnecting true s)))
                   (m_redis_port (set_current_reconnect_attempts 0 (set_reconnecting true s)))
                   dropped]
            | None => []
            end) as <- by now destruct s.
  assert (failed_pings s
          = failed_pings (set_current_reconnect_attempts 0 (set_reconnecting true s)))
    as <- by now destruct s.
  set (entered := set_ping_callbacks []
                    (set_current_reconnect_attempts 0 (set_reconnecting true s))).
  destruct (reconnect_loop script entered) as [[[|]|e] after events] eqn:Hloop.
  - erewrite bind_returns by exact Hloop. cbn [result object trace negb].
    unfold is_connected. rewrite bind_get.
    destruct (m_client_is_connected after) eqn:Hconn; cbn [negb when].
    + rewrite bind_ret, bind_modify. unfold ret. cbn [result object trace].
      now rewrite !app_nil_r, <- !app_assoc.
    + erewrite bind_returns by apply handler_stops_run.
      rewrite bind_modify. unfold ret. cbn [result object trace].
      now rewrite !app_nil_r, <- !app_assoc.
  - erewrite bind_returns by exact Hloop. cbn [result object trace negb].
    unfold ret. cbn [result object trace]. now rewrite !app_nil_r, <- !app_assoc.
  - erewrite bind_throws by exact Hloop. cbn [result object trace].
    now rewrite <- !app_assoc.
Qed.

(** ** Properties of one reconnection attempt *)

Lemma connect_states_app (t1 t2 : list event) :
  connect_states (t1 ++ t2) = connect_states t1 ++ connect_states t2.
Proof. unfold connect_states. apply omap_app. Qed.

Lemma connect_states_sends (cmds : list (list string)) :
  connect_states (ev_client_send <$> cmds) = [].
Proof. induction cmds as [|c cmds IH]; [reflexivity | exact IH]. Qed.

Lemma connect_states_attempt_notified (env : attempt_env) (s : subscriber)
    (status : connect_state) :
  connect_states (attempt_notified env s status)
  = match m_connect_callback s with Some _ => [status] | None => [] end.
Proof. unfold attempt_notified. now destruct (m_connect_callback s). Qed.

Lemma connect_states_attempt_lookup (s : subscriber) :
  connect_states (attempt_lookup s) = [].
Proof. unfold attempt_lookup. now destruct (String.eqb (m_master_name s) ""). Qed.

Lemma transport_calls_attempt_notified (env : attempt_env) (s : subscriber)
    (status : connect_state) :
  transport_calls (attempt_notified env s status) = [].
Proof. unfold attempt_notified. now destruct (m_connect_callback s). Qed.

Lemma transport_calls_attempt_lookup (s : subscriber) :
  transport_calls (attempt_lookup s) = [].
Proof. unfold attempt_lookup. now destruct (String.eqb (m_master_name s) ""). Qed.

(** X6 (what a reconnection attempt leaves alone).  Whatever the sentinel,
    the handshake and the flush do, one call of [reconnect] adds one to the
    attempt counter (in 32-bit arithmetic) and leaves unchanged the maximal
    number of reconnects, the cancel flag, the reconnecting flag, the master
    name, the cached password and client name, the connect timeout, the
    reconnect interval, the TLS flag, the connect callback, the ping queue
    and the two subscription tables. *)
Theorem reconnect_attempt_footprint (env : attempt_env) (s : subscriber) :
  let s' := object (reconnect env s) in
  m_current_reconnect_attempts s' = int32_wrap (m_current_reconnect_attempts s + 1)
  ∧ m_max_reconnects s' = m_max_reconnects s
  ∧ m_cancel s' = m_cancel s
  ∧ m_reconnecting s' = m_reconnecting s
  ∧ m_master_name s' = m_master_name s
  ∧ m_password s' = m_password s
  ∧ m_client_name s' = m_client_name s
  ∧ m_connect_timeout_ms s' = m_connect_timeout_ms s
  ∧ m_reconnect_interval_ms s' = m_reconnect_interval_ms s
  ∧ m_use_encryption s' = m_use_encryption s
  ∧ m_connect_callback s' = m_connect_callback s
  ∧ m_ping_callbacks s' = m_ping_callbacks s
  ∧ m_subscribed_channels s' = m_subscribed_channels s
  ∧ m_psubscribed_channels s' = m_psubscribed_channels s.
Proof. exact (reconnect_frame env s). Qed.

(** X7 (a failed attempt sends nothing).  On a subscriber that is not
    connected: when a master name is set and the sentinel does not find the
    master, the attempt makes no call on the transport at all, notifies
    [lookup_failed] and returns normally; when the handshake fails, the only
    call on the transport is the connect, the exception is swallowed,
    [failed] is notified after [start], and the attempt returns normally.
    In both cases no command of the replay is buffered, nothing is
    committed, and the object is the one the attempt started from with the
    attempt counted and the address the sentinel gave, if it was asked. *)
Theorem failed_attempt_sends_nothing (env : attempt_env) (s : subscriber)
    (Hdown : m_client_is_connected s = false) :
  let connect_call :=
    ev_client_connect (reconnect_host env s) (reconnect_port env s)
      (m_connect_timeout_ms s) (m_use_encryption s) in
  (String.eqb (m_master_name s) "" = false →
   master_found (sentinel_says env) = false →
   reconnect env s
   = RunResult (Return tt) (attempt_located env s)
       (ev_sentinel_get_master_addr_by_name (m_master_name s)
        :: attempt_notified env s lookup_failed)
   ∧ transport_calls (trace (reconnect env s)) = [])
  ∧ (String.eqb (m_master_name s) "" || master_found (sentinel_says env) = true →
     handshake_succeeds env = false →
     reconnect env s
     = RunResult (Return tt) (attempt_located env s)
         (attempt_lookup s ++ attempt_notified env s start
          ++ connect_call :: attempt_notified env s failed)
     ∧ transport_calls (trace (reconnect env s)) = [connect_call]).
Proof.
  intros connect_call. subst connect_call. rewrite reconnect_cases, Hdown. split.
  - intros Hname Hfound. rewrite Hname, Hfound. cbn [negb andb]. split.
    + unfold attempt_lookup. now rewrite Hname.
    + cbn [trace]. rewrite transport_calls_app, transport_calls_attempt_lookup.
      apply transport_calls_attempt_notified.
  - intros Hmaster Hshake. rewrite <- negb_orb, Hmaster, Hshake. cbn [negb orb].
    split; [reflexivity|]. cbn [trace].
    rewrite !transport_calls_app, transport_calls_attempt_lookup,
      transport_calls_attempt_notified. cbn [app transport_calls].
    now rewrite transport_calls_attempt_notified.
Qed.

Lemma failed_attempt_sends_nothing_witness :
  reconnect env_handshake_fails subscriber_dropped
  = RunResult (Return tt) (attempt_located env_handshake_fails subscriber_dropped)
      [ev_connect_callback 9 "127.0.0.1" 6379 start;
       ev_client_connect "127.0.0.1" 6379 0 false;
       ev_connect_callback 9 "127.0.0.1" 6379 failed]
  ∧ transport_calls (trace (reconnect env_handshake_fails subscriber_dropped))
    = [ev_client_connect "127.0.0.1" 6379 0 false]
  ∧ transport_calls
      (trace (reconnect env_handshake_fails (set_master_name "mymaster" subscriber_dropped)))
    = [].
Proof.
  pose proof (proj2 (failed_attempt_sends_nothing env_handshake_fails subscriber_dropped
                       eq_refl) eq_refl eq_refl) as [Hrun Hcalls].
  pose proof (proj1 (failed_attempt_sends_nothing env_handshake_fails
                       (set_master_name "mymaster" subscriber_dropped) eq_refl)
                eq_refl eq_refl) as [_ Hnone].
  split; [exact Hrun | split; [exact Hcalls | exact Hnone]].
Defined.

(** X8 (notifications of a successful reconnection).  On a subscriber that
    is not connected and has a connect callback, an attempt whose master
    lookup (if any) and handshake succeed invokes the connect callback three
    times: with [start], and then twice with [ok], once by the [connect] it
    calls and once by [reconnect] itself; a call of [connect] by the user
    that succeeds invokes it with [start] and once with [ok]. *)
Theorem reconnect_notifies_ok_twice (env : attempt_env) (s : subscriber) (f : nat)
    (Hcallback : m_connect_callback s = Some f)
    (Hhandshake : handshake_succeeds env = true)
    (Hmaster : String.eqb (m_master_name s) "" || master_found (sentinel_says env) = true) :
  connect_states (trace (reconnect env s)) = [start; ok; ok]
  ∧ ∀ (host : string) (port timeout_ms interval_ms : N) (max_reconnects : Z)
      (use_encryption : bool) (s0 : subscriber),
      connect_states
        (trace (connect true host port (Some f) timeout_ms max_reconnects interval_ms
                  use_encryption s0))
      = [start; ok].
Proof.
  split.
  - rewrite reconnect_cases, <- negb_orb, Hmaster, Hhandshake. cbn [negb orb trace].
    rewrite !connect_states_app, connect_states_attempt_lookup. cbn [app].
    change (connect_states (ev_client_connect ?h ?p ?t ?e :: ?rest))
      with (connect_states rest).
    rewrite !connect_states_app, !connect_states_attempt_notified, Hcallback,
      connect_states_sends.
    reflexivity.
  - intros host port timeout_ms interval_ms max_reconnects use_encryption s0.
    now rewrite (proj1 (connect_run _ _ _ _ _ _ _ _)).
Qed.

Lemma reconnect_notifies_ok_twice_witness :
  connect_states (trace (reconnect env_reconnects subscriber_dropped)) = [start; ok; ok].
Proof.
  exact (proj1 (reconnect_notifies_ok_twice env_reconnects subscriber_dropped 9
                  eq_refl eq_refl eq_refl)).
Defined.

(** X9 (the replay re-arms the one-shot slots).  After an attempt whose
    master lookup (if any) and handshake succeed, the AUTH slot holds the
    callback of [re_auth] when a password is cached and is left as it was
    otherwise, and the CLIENT SETNAME slot holds the callback of
    [re_client_setname] when a client name is cached and is left as it was
    otherwise.  So with both cached, a callback that the user passed to
    [auth] or [client_setname] and that was still waiting for its reply is
    dropped: the next two non-array replies go to the two callbacks of the
    library. *)
Theorem replay_rearms_one_shots (env : attempt_env) (s : subscriber)
    (Hhandshake : handshake_succeeds env = true)
    (Hmaster : String.eqb (m_master_name s) "" || master_found (sentinel_says env) = true) :
  let s' := object (reconnect env s) in
  m_auth_reply_callback s'
  = (if String.eqb (m_password s) "" then m_auth_reply_callback s
     else Some re_auth_lambda)
  ∧ m_client_setname_reply_callback s'
    = (if String.eqb (m_client_name s) "" then m_client_setname_reply_callback s
       else Some re_client_setname_lambda)
  ∧ (String.eqb (m_password s) "" = false → String.eqb (m_client_name s) "" = false →
     armed_one_shots s' = [re_auth_lambda; re_client_setname_lambda]).
Proof.
  intros s'. subst s'.
  rewrite reconnect_cases, <- negb_orb, Hmaster, Hhandshake. cbn [negb orb object].
  unfold after_replay, attempt_located, attempt_counted, armed_one_shots.
  destruct s as [server port master pw name conn tmo maxr att ival enc rec canc
                   chans pchans cb pings acb scb].
  cbn. destruct (String.eqb master ""); cbn;
    destruct (String.eqb pw ""), (String.eqb name ""); cbn;
    repeat split; intros; discriminate.
Qed.

Lemma replay_rearms_one_shots_witness :
  let waiting := set_auth_reply_callback (Some (user_reply_callable 5)) subscriber_dropped in
  m_auth_reply_callback waiting = Some (user_reply_callable 5)
  ∧ armed_one_shots (object (reconnect env_reconnects waiting))
    = [re_auth_lambda; re_client_setname_lambda].
Proof.
  intros waiting. split; [reflexivity|].
  exact (proj2 (proj2 (replay_rearms_one_shots env_reconnects waiting eq_refl eq_refl))
           eq_refl eq_refl).
Defined.

(** ** The reconnect loop as a whole *)

Lemma int32_wrap_small (z : Z) : (- 2 ^ 31 ≤ z < 2 ^ 31)%Z → int32_wrap z = z.
Proof. intros Hz. unfold int32_wrap. rewrite Z.mod_small; lia. Qed.

Lemma client_connect_attempts_sleep (s : subscriber) :
  client_connect_attempts (sleep_events s) = 0.
Proof.
  unfold sleep_events, notification.
  destruct (m_reconnect_interval_ms s <=? 0)%N; [reflexivity|].
  now destruct (m_connect_callback s).
Qed.

Lemma client_connect_attempts_notification (s : subscriber) (status : connect_state) :
  client_connect_attempts (notification s status) = 0.
Proof. unfold notification. now destruct (m_connect_callback s). Qed.

Lemma client_connect_attempts_failed_pings (s : subscriber) :
  client_connect_attempts (failed_pings s) = 0.
Proof. unfold failed_pings. now destruct (m_ping_callbacks s). Qed.

Lemma client_connect_attempts_cancel (c : bool) :
  client_connect_attempts (if c then [ev_cancel_reconnect] else []) = 0.
Proof. now destruct c. Qed.

(** The members the caller's cancel leaves alone. *)
Lemma cancelled_frame (c : bool) (s : subscriber) :
  let s' := if c then set_cancel true s else s in
  m_current_reconnect_attempts s' = m_current_reconnect_attempts s
  ∧ m_max_reconnects s' = m_max_reconnects s
  ∧ m_reconnecting s' = m_reconnecting s
  ∧ m_master_name s' = m_master_name s
  ∧ m_connect_timeout_ms s' = m_connect_timeout_ms s
  ∧ m_client_is_connected s' = m_client_is_connected s
  ∧ m_subscribed_channels s' = m_subscribed_channels s
  ∧ m_psubscribed_channels s' = m_psubscribed_channels s.
Proof. destruct c, s; repeat split. Qed.

Lemma reconnect_loop_bounded (script : list attempt_env) :
  ∀ s : subscriber,
    (0 ≤ m_current_reconnect_attempts s)%Z → (0 ≤ m_max_reconnects s < 2 ^ 31)%Z →
    (client_connect_attempts (trace (reconnect_loop script s))
     ≤ Z.to_nat (m_max_reconnects s - m_current_reconnect_attempts s))%nat
    ∧ ((Z.to_nat (m_max_reconnects s - m_current_reconnect_attempts s) ≤ length script)%nat →
       result (reconnect_loop script s) ≠ Return false).
Proof.
  induction script as [|env script IH]; intros s Hatt Hmax;
    destruct (should_reconnect_spec s) as ([|] & Htest & Hagain).
  - rewrite (reconnect_loop_exhausted s Htest). cbn [trace client_connect_attempts result].
    destruct (proj1 Hagain eq_refl) as (_ & _ & Hlt). split; [lia|].
    cbn [length]. lia.
  - rewrite (reconnect_loop_stops [] s Htest). cbn [trace client_connect_attempts result].
    split; [lia | discriminate].
  - destruct (proj1 Hagain eq_refl) as (_ & _ & Hlt).
    rewrite (reconnect_loop_iterates env script s Htest).
    destruct (cancelled_frame (cancel_during_sleep env) s) as (Ha & Hm & _).
    set (cancelled := if cancel_during_sleep env then set_cancel true s else s) in *.
    destruct (reconnect_frame env cancelled) as (Ha' & Hm' & _).
    pose proof (reconnect_connects_once env cancelled) as Honce.
    rewrite Ha in Ha'. rewrite Hm in Hm'.
    rewrite int32_wrap_small in Ha' by lia.
    destruct (result (reconnect env cancelled)) as [[]|e].
    + destruct (IH (object (reconnect env cancelled))) as [IHn IHr];
        [rewrite Ha'; lia | rewrite Hm'; lia |].
      rewrite Ha', Hm' in IHn, IHr.
      cbn [result trace]. rewrite !client_connect_attempts_app,
        client_connect_attempts_sleep, client_connect_attempts_cancel.
      split; [lia|]. cbn [length]. intros Hlen. apply IHr. lia.
    + cbn [result trace]. rewrite !client_connect_attempts_app,
        client_connect_attempts_sleep, client_connect_attempts_cancel.
      split; [lia | discriminate].
  - rewrite (reconnect_loop_stops _ s Htest). cbn [trace client_connect_attempts result].
    split; [lia | discriminate].
Qed.

(** X10 (the number of attempts is bounded).  With a maximal number of
    reconnects [n] that is not negative, a run of the disconnection handler
    makes at most [n] transport connects, whatever the collaborators answer
    and wherever the attempt counter stood before, and its loop has ended,
    by its test or by an exception, once [n] iterations are done. *)
Theorem reconnect_attempts_bounded (script : list attempt_env) (s : subscriber)
    (Hidle : m_reconnecting s = false)
    (Hmax : (0 ≤ m_max_reconnects s < 2 ^ 31)%Z) :
  let run := connection_disconnection_handler script s in
  (client_connect_attempts (trace run) ≤ Z.to_nat (m_max_reconnects s))%nat
  ∧ ((Z.to_nat (m_max_reconnects s) ≤ length script)%nat → result run ≠ Return false).
Proof.
  intros run. subst run. rewrite (disconnection_handler_run script s Hidle).
  set (entered := set_ping_callbacks []
                    (set_current_reconnect_attempts 0 (set_reconnecting true s))).
  assert (m_current_reconnect_attempts entered = 0%Z
          ∧ m_max_reconnects entered = m_max_reconnects s) as [Ha Hm]
    by (subst entered; now destruct s).
  destruct (reconnect_loop_bounded script entered) as [Hn Hr];
    [rewrite Ha; lia | rewrite Hm; lia |].
  rewrite Ha, Hm, Z.sub_0_r in Hn, Hr.
  destruct (result (reconnect_loop script entered)) as [[|]|e].
  - destruct (m_client_is_connected (object (reconnect_loop script entered)));
      cbn [result trace];
      rewrite !client_connect_attempts_app, client_connect_attempts_notification,
        client_connect_attempts_failed_pings, ?client_connect_attempts_notification;
      (split; [lia | discriminate]).
  - cbn [result trace].
    rewrite !client_connect_attempts_app, client_connect_attempts_notification,
      client_connect_attempts_failed_pings.
    split; [lia | exact Hr].
  - cbn [result trace].
    rewrite !client_connect_attempts_app, client_connect_attempts_notification,
      client_connect_attempts_failed_pings.
    split; [lia | discriminate].
Qed.

Lemma reconnect_attempts_bounded_witness :
  let run := connection_disconnection_handler
               [env_handshake_fails; env_handshake_fails; env_handshake_fails;
                env_reconnects] subscriber_dropped in
  m_max_reconnects subscriber_dropped = 3%Z
  ∧ (client_connect_attempts (trace run) ≤ 3)%nat
  ∧ result run = Return true.
Proof.
  intros run.
  assert (0 ≤ m_max_reconnects subscriber_dropped < 2 ^ 31)%Z as Hmax
    by (split; [discriminate | reflexivity]).
  destruct (reconnect_attempts_bounded
              [env_handshake_fails; env_handshake_fails; env_handshake_fails;
               env_reconnects] subscriber_dropped eq_refl Hmax) as [Hn _].
  split; [reflexivity | split; [exact Hn | reflexivity]].
Defined.

(** The members the loop leaves alone, however long it runs and however
    it ends. *)
Lemma reconnect_loop_frame (script : list attempt_env) :
  ∀ s : subscriber,
    let s' := object (reconnect_loop script s) in
    m_max_reconnects s' = m_max_reconnects s
    ∧ m_reconnecting s' = m_reconnecting s
    ∧ m_master_name s' = m_master_name s
    ∧ m_connect_timeout_ms s' = m_connect_timeout_ms s
    ∧ m_subscribed_channels s' = m_subscribed_channels s
    ∧ m_psubscribed_channels s' = m_psubscribed_channels s.
Proof.
  induction script as [|env script IH]; intros s;
    destruct (should_reconnect_spec s) as ([|] & Htest & _); cbn zeta.
  - rewrite (reconnect_loop_exhausted s Htest). repeat split.
  - rewrite (reconnect_loop_stops [] s Htest). repeat split.
  - rewrite (reconnect_loop_iterates env script s Htest).
    destruct (cancelled_frame (cancel_during_sleep env) s)
      as (_ & Hm & Hr & Hn & Ht & _ & Hc & Hp).
    set (cancelled := if cancel_during_sleep env then set_cancel true s else s) in *.
    destruct (reconnect_frame env cancelled)
      as (_ & Hm' & _ & Hr' & Hn' & _ & _ & Ht' & _ & _ & _ & _ & Hc' & Hp').
    destruct (result (reconnect env cancelled)) as [[]|e]; cbn [object].
    + destruct (IH (object (reconnect env cancelled))) as (-> & -> & -> & -> & -> & ->).
      repeat split; congruence.
    + repeat split; congruence.
  - rewrite (reconnect_loop_stops _ s Htest). repeat split.
Qed.

Lemma reconnect_loop_unlimited (script : list attempt_env) :
  ∀ s : subscriber,
    m_client_is_connected s = false → m_cancel s = false →
    m_max_reconnects s = (-1)%Z →
    Forall (λ env, cancel_during_sleep env = false ∧ handshake_succeeds env = false)
      script →
    result (reconnect_loop script s) = Return false
    ∧ (String.eqb (m_master_name s) "" = true →
       client_connect_attempts (trace (reconnect_loop script s)) = length script).
Proof.
  induction script as [|env script IH]; intros s Hdown Hcancel Hmax Hscript;
    destruct (should_reconnect_spec s) as (again & Htest & Hagain);
    (assert (again = true) as -> by (apply Hagain; auto)).
  - rewrite (reconnect_loop_exhausted s Htest). split; reflexivity.
  - inversion Hscript as [|? ? [Hnocancel Hshake] Hrest]; subst.
    rewrite (reconnect_loop_iterates env script s Htest), Hnocancel.
    rewrite reconnect_cases, Hdown, Hshake. cbn [orb].
    assert (m_client_is_connected (attempt_located env s) = false
            ∧ m_cancel (attempt_located env s) = false
            ∧ m_max_reconnects (attempt_located env s) = (-1)%Z
            ∧ m_master_name (attempt_located env s) = m_master_name s)
      as (Hdown' & Hcancel' & Hmax' & Hname').
    { unfold attempt_located, attempt_counted.
      destruct s; cbn in *. destruct (String.eqb _ ""); cbn; auto. }
    destruct (IH (attempt_located env s) Hdown' Hcancel' Hmax' Hrest) as [IHr IHn].
    rewrite Hname' in IHn.
    destruct (negb (String.eqb (m_master_name s) "")
              && negb (master_found (sentinel_says env))) eqn:Hlookup;
      cbn [result object trace]; (split; [exact IHr|]); intros Hname.
    + rewrite Hname in Hlookup. discriminate Hlookup.
    + rewrite !client_connect_attempts_app, client_connect_attempts_sleep,
        (IHn Hname).
      unfold attempt_lookup, attempt_notified. rewrite Hname.
      destruct (m_connect_callback s); reflexivity.
Qed.

(** X11 (minus one means unlimited).  With the maximal number of reconnects
    set to -1, on a subscriber that is not connected and not cancelled, the
    disconnection handler goes on for as long as the handshakes fail and
    nobody cancels: after any number of failed iterations its loop is still
    running, the reconnecting flag is set and the two tables hold what they
    held; when no master name is set, every iteration has made one
    transport connect. *)
Theorem unlimited_reconnects_go_on (script : list attempt_env) (s : subscriber)
    (Hidle : m_reconnecting s = false)
    (Hdown : m_client_is_connected s = false)
    (Hcancel : m_cancel s = false)
    (Hmax : m_max_reconnects s = (-1)%Z)
    (Hscript : Forall (λ env, cancel_during_sleep env = false
                             ∧ handshake_succeeds env = false) script) :
  let run := connection_disconnection_handler script s in
  result run = Return false
  ∧ m_reconnecting (object run) = true
  ∧ m_subscribed_channels (object run) = m_subscribed_channels s
  ∧ m_psubscribed_channels (object run) = m_psubscribed_channels s
  ∧ (String.eqb (m_master_name s) "" = true →
     client_connect_attempts (trace run) = length script).
Proof.
  intros run. subst run. rewrite (disconnection_handler_run script s Hidle).
  set (entered := set_ping_callbacks []
                    (set_current_reconnect_attempts 0 (set_reconnecting true s))).
  assert (m_client_is_connected entered = false ∧ m_cancel entered = false
          ∧ m_max_reconnects entered = (-1)%Z
          ∧ m_master_name entered = m_master_name s
          ∧ m_reconnecting entered = true
          ∧ m_subscribed_channels entered = m_subscribed_channels s
          ∧ m_psubscribed_channels entered = m_psubscribed_channels s)
    as (Hdown' & Hcancel' & Hmax' & Hname' & Hrec' & Hc' & Hp')
    by (subst entered; destruct s; cbn in *; repeat split; assumption).
  destruct (reconnect_loop_unlimited script entered Hdown' Hcancel' Hmax' Hscript)
    as [Hr Hn].
  destruct (reconnect_loop_frame script entered) as (_ & Hrec & _ & _ & Hc & Hp).
  rewrite Hr. cbn [result object trace].
  rewrite Hrec, Hc, Hp, Hrec', Hc', Hp'. repeat split.
  intros Hname. rewrite Hname' in Hn.
  rewrite !client_connect_attempts_app, client_connect_attempts_notification,
    client_connect_attempts_failed_pings.
  now rewrite (Hn Hname).
Qed.

Lemma unlimited_reconnects_go_on_witness :
  let s := set_max_reconnects (-1) subscriber_dropped in
  let run := connection_disconnection_handler (replicate 5 env_handshake_fails) s in
  result run = Return false
  ∧ client_connect_attempts (trace run) = 5.
Proof.
  intros s.
  assert (Forall (λ env, cancel_during_sleep env = false ∧ handshake_succeeds env = false)
            (replicate 5 env_handshake_fails)) as Hscript
    by (repeat constructor).
  destruct (unlimited_reconnects_go_on (replicate 5 env_handshake_fails) s
              eq_refl eq_refl eq_refl eq_refl Hscript) as (Hr & _ & _ & _ & Hn).
  split; [exact Hr | exact (Hn eq_refl)].
Defined.

(** X12 (giving up at once).  When the connection is lost on a subscriber
    for which reconnection is not enabled, because [cancel_reconnect] was
    called or because the maximal number of reconnects is 0 (the default of
    [connect]) or below -1, the disconnection handler makes no call on the
    transport and does not sleep: it notifies [dropped], fails the pending
    pings, empties both subscription tables, notifies [stopped], clears the
    reconnecting flag and returns. *)
Theorem disabled_reconnection_gives_up (script : list attempt_env) (s : subscriber)
    (Hidle : m_reconnecting s = false)
    (Hdown : m_client_is_connected s = false)
    (Hdisabled : reconnection_enabled s = false) :
  let run := connection_disconnection_handler script s in
  run = RunResult (Return true)
          (set_reconnecting false
             (set_psubscribed_channels ∅
                (set_subscribed_channels ∅
                   (set_ping_callbacks []
                      (set_current_reconnect_attempts 0 (set_reconnecting true s))))))
          (notification s dropped ++ failed_pings s ++ notification s stopped)
  ∧ transport_calls (trace run) = []
  ∧ m_subscribed_channels (object run) = ∅
  ∧ m_psubscribed_channels (object run) = ∅
  ∧ m_reconnecting (object run) = false.
Proof.
  intros run.
  assert (run = RunResult (Return true)
                  (set_reconnecting false
                     (set_psubscribed_channels ∅
                        (set_subscribed_channels ∅
                           (set_ping_callbacks []
                              (set_current_reconnect_attempts 0
                                 (set_reconnecting true s))))))
                  (notification s dropped ++ failed_pings s ++ notification s stopped))
    as Hrun.
  { subst run. rewrite (disconnection_handler_run script s Hidle).
    set (entered := set_ping_callbacks []
                      (set_current_reconnect_attempts 0 (set_reconnecting true s))).
    assert (should_reconnect entered = RunResult (Return false) entered []) as Htest.
    { unfold should_reconnect, get. f_equal. f_equal.
      unfold reconnection_enabled in Hdisabled. subst entered.
      destruct s; cbn in *. subst. cbn. exact Hdisabled. }
    rewrite (reconnect_loop_stops script entered Htest). cbn [result object trace].
    assert (m_client_is_connected entered = false) as ->
      by (subst entered; now destruct s).
    assert (notification entered stopped = notification s stopped) as ->
      by (subst entered; now destruct s).
    now rewrite <- app_assoc. }
  split; [exact Hrun|]. rewrite Hrun. cbn [trace object].
  split; [|now destruct s].
  rewrite !transport_calls_app. unfold notification, failed_pings.
  destruct (m_connect_callback s), (m_ping_callbacks s); reflexivity.
Qed.

Lemma disabled_reconnection_gives_up_witness :
  let s := set_cancel true subscriber_dropped in
  let run := connection_disconnection_handler [env_reconnects] s in
  trace run = [ev_connect_callback 9 "127.0.0.1" 6379 dropped;
               ev_connect_callback 9 "127.0.0.1" 6379 stopped]
  ∧ m_subscribed_channels (object run) = ∅
  ∧ m_psubscribed_channels (object run) = ∅.
Proof.
  intros s.
  destruct (disabled_reconnection_gives_up [env_reconnects] s eq_refl eq_refl eq_refl)
    as (Hrun & _ & Hc & Hp & _).
  split; [now rewrite Hrun | split; [exact Hc | exact Hp]].
Defined.

Lemma after_replay_connected (s : subscriber) :
  m_client_is_connected (after_replay (set_client_is_connected true s)) = true.
Proof.
  unfold after_replay. destruct s as [? ? ? pw name ? ? ? ? ? ? ? ? ? ? ? ? ? ?]. cbn.
  destruct (String.eqb pw ""), (String.eqb name ""); reflexivity.
Qed.

(** X13 (an exception leaves the reconnecting flag set).  When reconnection
    is enabled and the first attempt connects but the flush of the replayed
    commands fails, the exception of [commit] leaves [reconnect] and the
    disconnection handler: the handler ends by that exception with the
    reconnecting flag still set and the transport connected.  From then on
    every loss of the connection is ignored: the handler returns at once,
    with no notification, no attempt and no change to the object. *)
Theorem failed_flush_leaves_reconnecting_set (env : attempt_env)
    (script : list attempt_env) (s : subscriber)
    (Hidle : m_reconnecting s = false)
    (Hdown : m_client_is_connected s = false)
    (Henabled : reconnection_enabled s = true)
    (Hmaster : String.eqb (m_master_name s) "" || master_found (sentinel_says env) = true)
    (Hhandshake : handshake_succeeds env = true)
    (Hflush : flush_succeeds env = false) :
  let run := connection_disconnection_handler (env :: script) s in
  result run = Throw transport_failure
  ∧ m_reconnecting (object run) = true
  ∧ m_client_is_connected (object run) = true
  ∧ ∀ later : list attempt_env,
      connection_lost later (object run)
      = RunResult (Return true) (set_client_is_connected false (object run)) [].
Proof.
  intros run. subst run. rewrite (disconnection_handler_run (env :: script) s Hidle).
  set (entered := set_ping_callbacks []
                    (set_current_reconnect_attempts 0 (set_reconnecting true s))).
  assert (should_reconnect entered = RunResult (Return true) entered []) as Htest.
  { unfold should_reconnect, get. f_equal. f_equal.
    unfold reconnection_enabled in Henabled. subst entered.
    destruct s; cbn in *. subst. cbn. exact Henabled. }
  rewrite (reconnect_loop_iterates env script entered Htest).
  set (cancelled := if cancel_during_sleep env then set_cancel true entered else entered).
  assert (m_master_name cancelled = m_master_name s ∧ m_reconnecting cancelled = true)
    as [Hname Hrec]
    by (subst cancelled entered; destruct (cancel_during_sleep env), s; split; reflexivity).
  destruct (reconnect_frame env cancelled) as (_ & _ & _ & Hrec' & _).
  assert (result (reconnect env cancelled) = Throw transport_failure
          ∧ m_client_is_connected (object (reconnect env cancelled)) = true)
    as [Hthrow Hup].
  { rewrite reconnect_cases, Hname, <- negb_orb, Hmaster, Hhandshake, Hflush.
    cbn [negb orb result object]. split; [reflexivity|].
    apply after_replay_connected. }
  rewrite Hthrow. cbn [result object].
  rewrite Hrec', Hrec. repeat split; [exact Hup|].
  intros later. unfold connection_lost. rewrite bind_modify.
  apply disconnection_handler_while_reconnecting.
  destruct (object (reconnect env cancelled)); cbn in *. congruence.
Qed.

Lemma failed_flush_leaves_reconnecting_set_witness :
  let run := connection_disconnection_handler [env_flush_fails] subscriber_dropped in
  result run = Throw transport_failure
  ∧ m_reconnecting (object run) = true
  ∧ connection_lost [env_reconnects] (object run)
    = RunResult (Return true) (set_client_is_connected false (object run)) [].
Proof.
  intros run.
  destruct (failed_flush_leaves_reconnecting_set env_flush_fails [] subscriber_dropped
              eq_refl eq_refl eq_refl eq_refl eq_refl eq_refl) as (Hr & Hrec & _ & Hlater).
  split; [exact Hr | split; [exact Hrec | exact (Hlater [env_reconnects])]].
Defined.

(** X14 (subscriptions are kept until the handler gives up).  When the
    disconnection handler returns with the connection up again, both tables
    hold what they held when the connection was lost; when it returns with
    the connection still down, both tables are empty and the last event is
    the notification of [stopped]; in both cases the reconnecting flag is
    cleared.  While the loop is still running, and when the handler ends by
    an exception, the tables hold what they held. *)
Theorem subscriptions_kept_until_given_up (script : list attempt_env) (s : subscriber)
    (Hidle : m_reconnecting s = false) :
  let run := connection_disconnection_handler script s in
  (result run = Return true →
   m_reconnecting (object run) = false
   ∧ (m_client_is_connected (object run) = true →
      m_subscribed_channels (object run) = m_subscribed_channels s
      ∧ m_psubscribed_channels (object run) = m_psubscribed_channels s)
   ∧ (m_client_is_connected (object run) = false →
      m_subscribed_channels (object run) = ∅
      ∧ m_psubscribed_channels (object run) = ∅
      ∧ ∃ before, trace run = before ++ notification (object run) stopped))
  ∧ (result run = Return false ∨ (∃ e, result run = Throw e) →
     m_subscribed_channels (object run) = m_subscribed_channels s
     ∧ m_psubscribed_channels (object run) = m_psubscribed_channels s).
Proof.
  intros run. subst run. rewrite (disconnection_handler_run script s Hidle).
  set (entered := set_ping_callbacks []
                    (set_current_reconnect_attempts 0 (set_reconnecting true s))).
  assert (m_subscribed_channels entered = m_subscribed_channels s
          ∧ m_psubscribed_channels entered = m_psubscribed_channels s) as [Hc' Hp']
    by (subst entered; now destruct s).
  destruct (reconnect_loop_frame script entered) as (_ & _ & _ & _ & Hc & Hp).
  rewrite Hc' in Hc. rewrite Hp' in Hp.
  destruct (reconnect_loop script entered) as [[[|]|e] after events];
    cbn [result object trace] in *.
  - destruct (m_client_is_connected after) eqn:Hup; cbn [result object trace].
    + split; [intros _ | intros [H|[e H]]; discriminate H].
      destruct after; cbn in *. subst. repeat split; discriminate.
    + split; [intros _ | intros [H|[e H]]; discriminate H].
      split; [now destruct after|]. split; [destruct after; cbn in *; intros; congruence|].
      intros _. split; [now destruct after|]. split; [now destruct after|].
      exists ((notification s dropped ++ failed_pings s) ++ events).
      rewrite <- !app_assoc. do 3 f_equal. now destruct after.
  - split; [discriminate|]. intros _. split; assumption.
  - split; [discriminate|]. intros _. split; assumption.
Qed.

Lemma subscriptions_kept_until_given_up_witness :
  let up := connection_disconnection_handler [env_handshake_fails; env_reconnects]
              subscriber_dropped in
  let down := connection_disconnection_handler
                [env_handshake_fails; env_handshake_fails; env_handshake_fails]
                subscriber_dropped in
  (m_subscribed_channels (object up) = m_subscribed_channels subscriber_dropped
   ∧ m_psubscribed_channels (object up) = m_psubscribed_channels subscriber_dropped)
  ∧ m_subscribed_channels (object down) = ∅
  ∧ m_psubscribed_channels (object down) = ∅.
Proof.
  intros up down.
  destruct (proj1 (subscriptions_kept_until_given_up
                     [env_handshake_fails; env_reconnects] subscriber_dropped eq_refl)
              eq_refl) as (_ & Hup & _).
  destruct (proj1 (subscriptions_kept_until_given_up
                     [env_handshake_fails; env_handshake_fails; env_handshake_fails]
                     subscriber_dropped eq_refl)
              eq_refl) as (_ & _ & Hdown).
  destruct (Hdown eq_refl) as (Hc & Hp & _).
  split; [exact (Hup eq_refl) | split; [exact Hc | exact Hp]].
Defined.

(** ** Pending pings and the reconnecting flag *)

Lemma reconnect_throws_on_flush (env : attempt_env) (s : subscriber) (e : exception) :
  result (reconnect env s) = Throw e →
  e = transport_failure ∧ flush_succeeds env = false.
Proof.
  rewrite reconnect_cases.
  destruct (negb (String.eqb (m_master_name s) "")
            && negb (master_found (sentinel_says env)));
    [discriminate|].
  destruct (handshake_succeeds env || m_client_is_connected s); [|discriminate].
  destruct (flush_succeeds env); [discriminate|].
  cbn [result]. intros H. injection H as <-. now split.
Qed.

Lemma reconnect_loop_throws_on_flush (script : list attempt_env) :
  ∀ (s : subscriber) (e : exception),
    result (reconnect_loop script s) = Throw e →
    e = transport_failure ∧ Exists (λ env, flush_succeeds env = false) script.
Proof.
  induction script as [|env script IH]; intros s e;
    destruct (should_reconnect_spec s) as ([|] & Htest & _).
  - rewrite (reconnect_loop_exhausted s Htest). discriminate.
  - rewrite (reconnect_loop_stops [] s Htest). discriminate.
  - rewrite (reconnect_loop_iterates env script s Htest).
    set (cancelled := if cancel_during_sleep env then set_cancel true s else s).
    destruct (result (reconnect env cancelled)) as [[]|e'] eqn:Hattempt; cbn [result].
    + intros Hrest. destruct (IH _ _ Hrest) as [-> Hflush].
      split; [reflexivity | now apply Exists_cons_tl].
    + intros H. injection H as <-.
      destruct (reconnect_throws_on_flush env cancelled e' Hattempt) as [-> Hflush].
      split; [reflexivity | now apply Exists_cons_hd].
  - rewrite (reconnect_loop_stops _ s Htest). discriminate.
Qed.

(** C8, as the claim states it, fails: the disconnection handler is entered
    with a ping callback waiting in the queue while [m_reconnecting] is
    still set (the [commit] of the previous reconnection threw, so the
    handler was left before it cleared the flag); the handler returns at
    once, the callback is not invoked and stays in the queue. *)
Lemma pending_ping_survives_disconnection :
  let first := connection_disconnection_handler [env_flush_fails] subscriber_dropped in
  let second := connection_disconnection_handler [env_reconnects] subscriber_dropped_again in
  result first = Throw transport_failure
  ∧ m_reconnecting (object first) = true
  ∧ m_client_is_connected subscriber_dropped_again = false
  ∧ m_ping_callbacks subscriber_dropped_again = [Some (user_reply_callable 8)]
  ∧ reply_callback_calls (trace second) = []
  ∧ m_ping_callbacks (object second) = [Some (user_reply_callable 8)].
Proof. vm_compute. repeat split. Qed.

(** C8 (pending pings fail when the connection is torn down), evaluated on
    the code.  [disconnect] does what the claim says: afterwards the ping
    queue is empty, and the reply callbacks invoked during the call, on the
    detached thread, are exactly the callbacks that were waiting in the
    queue, in their order, one invocation per waiting entry, each with the
    error reply "network failure".  So does the disconnection handler when
    it is entered with [m_reconnecting] clear, wherever its reconnect loop
    stands or ends.  But the handler begins with
    [if (is_reconnecting()) return;], and it does not always clear the flag
    it sets: [m_reconnecting = false] is its last statement, and an
    exception that leaves [reconnect] skips it.  When the handler returns,
    the flag is clear; when it ends by an exception, which is the one of
    [commit] in an attempt whose flush fails, the flag is still set.
    Entered with the flag set, the handler returns at once, with nothing
    invoked and the queue left as it is.  So after
    [subscriber_dropped] has gone through a reconnection whose flush fails,
    the callback of a later ping stays in the queue when the connection is
    lost again, and is never invoked. *)
Theorem pending_pings_fail_on_teardown (s : subscriber) :
  (∀ wait_for_removal : bool,
     let run := disconnect wait_for_removal s in
     m_ping_callbacks (object run) = []
     ∧ reply_callback_calls (trace run)
       = (λ f, (f, network_failure)) <$> pending_ping_callbacks s)
  ∧ (m_reconnecting s = false →
     ∀ script : list attempt_env,
       let run := connection_disconnection_handler script s in
       m_ping_callbacks (object run) = []
       ∧ reply_callback_calls (trace run)
         = (λ f, (f, network_failure)) <$> pending_ping_callbacks s
       ∧ (result run = Return true → m_reconnecting (object run) = false)
       ∧ (∀ e, result run = Throw e →
            e = transport_failure
            ∧ Exists (λ env, flush_succeeds env = false) script
            ∧ m_reconnecting (object run) = true))
  ∧ (m_reconnecting s = true →
     ∀ script : list attempt_env,
       connection_disconnection_handler script s = RunResult (Return true) s [])
  ∧ (let first := connection_disconnection_handler [env_flush_fails] subscriber_dropped in
     let second := connection_disconnection_handler [env_reconnects]
                     subscriber_dropped_again in
     result first = Throw transport_failure
     ∧ m_reconnecting (object first) = true
     ∧ pending_ping_callbacks subscriber_dropped_again = [user_reply_callable 8]
     ∧ reply_callback_calls (trace second) = []
     ∧ pending_ping_callbacks (object second) = [user_reply_callable 8])
  ∧ is_error network_failure = true
  ∧ as_string network_failure = "network failure".
Proof.
  split; [|split; [|split; [|split; [vm_compute; repeat split | split; reflexivity]]]].
  - intros wait run. subst run. unfold disconnect.
    rewrite (bind_returns _ _ s tt (set_client_is_connected false s)
               [ev_client_disconnect wait] eq_refl).
    cbn [object trace].
    destruct (clear_ping_callbacks_run (set_client_is_connected false s)) as (_ & Ho & Ht).
    rewrite Ho, ping_callbacks_set. split; [reflexivity|].
    rewrite reply_callback_calls_app, Ht.
    unfold pending_ping_callbacks. now destruct s.
  - intros Hrec script run.
    assert (m_ping_callbacks (object run) = []
            ∧ reply_callback_calls (trace run)
              = (λ f, (f, network_failure)) <$> pending_ping_callbacks s) as [Hqueue Hcalls].
    { subst run. unfold connection_disconnection_handler, is_reconnecting.
      rewrite bind_get, Hrec. rewrite !bind_modify, !bind_get.
      set (s1 := set_current_reconnect_attempts 0 (set_reconnecting true s)).
      assert (pending_ping_callbacks s1 = pending_ping_callbacks s) as Hpend
        by (unfold pending_ping_callbacks; now destruct s).
      rewrite (bind_returns _ _ _ _ _ _ (notify_run _ _ _ _)).
      cbn [object trace].
      destruct (clear_ping_callbacks_run s1) as (Hr & Ho & Ht).
      rewrite (bind_run _ _ _ _ Hr). cbn [object trace].
      destruct (after_fence_keeps_ping_queue [] script (object (clear_ping_callbacks s1)))
        as [Hq Hquiet].
      { now rewrite Ho, ping_callbacks_set. }
      split; [exact Hq|].
      rewrite !reply_callback_calls_app, Ht, Hpend.
      rewrite (reply_callback_calls_quiet _ Hquiet), app_nil_r.
      now destruct (m_connect_callback s1). }
    split; [exact Hqueue | split; [exact Hcalls|]].
    subst run. rewrite (disconnection_handler_run script s Hrec).
    set (entered := set_ping_callbacks []
                      (set_current_reconnect_attempts 0 (set_reconnecting true s))).
    assert (m_reconnecting entered = true) as Hentered
      by (subst entered; now destruct s).
    destruct (reconnect_loop_frame script entered) as (_ & Hflag & _).
    rewrite Hentered in Hflag.
    pose proof (reconnect_loop_throws_on_flush script entered) as Hthrows.
    destruct (reconnect_loop script entered) as [[[|]|e] after events];
      cbn [result object trace] in *.
    + destruct (m_client_is_connected after); cbn [result object];
        (split; [intros _; now destruct after | intros e H; discriminate H]).
    + split; [discriminate | intros e H; discriminate H].
    + split; [discriminate|]. intros e' H. injection H as <-.
      destruct (Hthrows e eq_refl) as [-> Hflush]. repeat split; assumption.
  - intros Hrec script. now apply disconnection_handler_while_reconnecting.
Qed.

Lemma pending_pings_fail_on_teardown_witness :
  let s := set_client_is_connected false subscriber_example in
  let run := connection_disconnection_handler [env_reconnects] s in
  m_ping_callbacks (object run) = []
  ∧ reply_callback_calls (trace run) = [(user_reply_callable 7, network_failure)]
  ∧ m_reconnecting (object run) = false.
Proof.
  intros s run.
  destruct (proj1 (proj2 (pending_pings_fail_on_teardown s)) eq_refl [env_reconnects])
    as (Hqueue & Hcalls & Hflag & _).
  split; [exact Hqueue | split; [exact Hcalls | exact (Hflag eq_refl)]].
Defined.

(** ** Members that no call writes *)

Ltac keeps_list_step :=
  lazymatch goal with
  | |- keeps _ _ (match ?l with [] => _ | _ :: _ => _ end) => destruct l
  | |- _ => keeps_step
  end.

Ltac keeps_member :=
  unfold_members; cbv zeta;
  repeat keeps_list_step;
  try (intros [] ?; simpl in *; solve [auto | congruence]);
  try (simpl; solve [auto]).

Lemma disconnection_handler_object (script : list attempt_env) (s : subscriber) :
  let s' := object (connection_disconnection_handler script s) in
  m_connect_timeout_ms s' = m_connect_timeout_ms s
  ∧ (m_cancel s = true → m_cancel s' = true).
Proof.
  cbn zeta. destruct (m_reconnecting s) eqn:Hrec.
  - rewrite (disconnection_handler_while_reconnecting script s Hrec). now split.
  - rewrite (disconnection_handler_run script s Hrec).
    set (entered := set_ping_callbacks []
                      (set_current_reconnect_attempts 0 (set_reconnecting true s))).
    assert (m_connect_timeout_ms entered = m_connect_timeout_ms s
            ∧ m_cancel entered = m_cancel s) as [Ht Hc]
      by (subst entered; now destruct s).
    destruct (reconnect_loop_frame script entered) as (_ & _ & _ & Ht' & _).
    split.
    + rewrite <- Ht, <- Ht'.
      destruct (reconnect_loop script entered) as [[[|]|e] after events];
        cbn [result object]; try reflexivity.
      destruct (m_client_is_connected after); now destruct after.
    + intros Hcancel. rewrite <- Hc in Hcancel.
      rewrite (reconnect_loop_cancelled script entered Hcancel). cbn [result object].
      destruct (m_client_is_connected entered); destruct entered; exact Hcancel.
Qed.

Lemma receive_handler_keeps (I : subscriber → Prop) (r : reply) :
  (∀ v s, I s → I (set_ping_callbacks v s)) →
  (∀ v s, I s → I (set_auth_reply_callback v s)) →
  (∀ v s, I s → I (set_client_setname_reply_callback v s)) →
  keeps I (λ _, True) (connection_receive_handler r).
Proof.
  intros Hping Hauth Hname s Hs. split; [|now apply Forall_true].
  destruct (receive_handler_shape r s) as (_ & _ & ->).
  now apply Hping, Hauth, Hname.
Qed.

Ltac unfold_calls :=
  unfold connect_by_name, disconnect, clear_ping_callbacks, client_disconnect, subscribe,
    psubscribe, unsubscribe, punsubscribe, ping.

Lemma run_call_keeps_timeout (t : N) (c : call) :
  keeps (λ s, m_connect_timeout_ms s = t) (λ _, True) (run_call c).
Proof.
  destruct c; cbn [run_call].
  14: { unfold connection_lost. apply keeps_bind; [|intros ?; apply keeps_ret].
        apply keeps_bind; [apply keeps_modify; now intros [] | intros _].
        intros s Hs. split; [|now apply Forall_true].
        now rewrite (proj1 (disconnection_handler_object script s)). }
  13: { apply receive_handler_keeps; intros v [] H; exact H. }
  all: unfold_calls; keeps_member.
Qed.

Lemma run_call_keeps_cancel (c : call) :
  keeps (λ s, m_cancel s = true) (λ _, True) (run_call c).
Proof.
  destruct c; cbn [run_call].
  14: { unfold connection_lost. apply keeps_bind; [|intros ?; apply keeps_ret].
        apply keeps_bind; [apply keeps_modify; now intros [] | intros _].
        intros s Hs. split; [|now apply Forall_true].
        now apply (proj2 (disconnection_handler_object script s)). }
  13: { apply receive_handler_keeps; intros v [] H; exact H. }
  all: unfold_calls; keeps_member.
Qed.

Lemma lifetime_keeps (I : subscriber → Prop) (calls : list call) :
  (∀ c, keeps I (λ _, True) (run_call c)) → keeps I (λ _, True) (lifetime calls).
Proof.
  intros Hcall. unfold lifetime. apply keeps_for_each. intros c.
  apply keeps_try_catch_all, Hcall.
Qed.

Lemma cancelled_handler_makes_no_connect (script : list attempt_env) (s : subscriber) :
  m_cancel s = true →
  client_connect_attempts (trace (connection_disconnection_handler script s)) = 0.
Proof.
  intros Hcancel. destruct (m_reconnecting s) eqn:Hrec.
  - now rewrite (disconnection_handler_while_reconnecting script s Hrec).
  - rewrite (disconnection_handler_run script s Hrec).
    set (entered := set_ping_callbacks []
                      (set_current_reconnect_attempts 0 (set_reconnecting true s))).
    assert (m_cancel entered = true) as Hc by (subst entered; now destruct s).
    rewrite (reconnect_loop_cancelled script entered Hc). cbn [result object trace].
    destruct (m_client_is_connected entered); cbn [trace];
      rewrite !client_connect_attempts_app, client_connect_attempts_notification,
        client_connect_attempts_failed_pings, ?client_connect_attempts_notification;
      reflexivity.
Qed.

(** X15 (cancelling is for good).  No member function clears the cancel
    flag.  After [cancel_reconnect], whatever the user calls afterwards (a
    new [connect] included) and whatever the transport delivers, the flag is
    still set, and a loss of the connection makes no transport connect. *)
Theorem cancel_reconnect_is_permanent (calls : list call) (script : list attempt_env)
    (s : subscriber) :
  let s' := exec (cancel_reconnect ;; lifetime calls) s in
  m_cancel s' = true
  ∧ client_connect_attempts (trace (connection_lost script s')) = 0.
Proof.
  intros s'.
  assert (m_cancel s' = true) as Hcancel.
  { subst s'. unfold exec, cancel_reconnect. rewrite bind_modify.
    apply (lifetime_keeps (λ s, m_cancel s = true) calls run_call_keeps_cancel).
    now destruct s. }
  split; [exact Hcancel|].
  unfold connection_lost. rewrite bind_modify.
  apply cancelled_handler_makes_no_connect. now destruct s'.
Qed.

Lemma client_connect_timeouts_app (t1 t2 : list event) :
  client_connect_timeouts (t1 ++ t2) = client_connect_timeouts t1 ++ client_connect_timeouts t2.
Proof. unfold client_connect_timeouts. apply omap_app. Qed.

Lemma client_connect_timeouts_notification (s : subscriber) (status : connect_state) :
  client_connect_timeouts (notification s status) = [].
Proof. unfold notification. now destruct (m_connect_callback s). Qed.

Lemma client_connect_timeouts_attempt_notified (env : attempt_env) (s : subscriber)
    (status : connect_state) :
  client_connect_timeouts (attempt_notified env s status) = [].
Proof. unfold attempt_notified. now destruct (m_connect_callback s). Qed.

Lemma client_connect_timeouts_sends (cmds : list (list string)) :
  client_connect_timeouts (ev_client_send <$> cmds) = [].
Proof. induction cmds as [|c cmds IH]; [reflexivity | exact IH]. Qed.

Lemma reconnect_timeouts (env : attempt_env) (s : subscriber) :
  Forall (λ timeout_ms, timeout_ms = m_connect_timeout_ms s)
    (client_connect_timeouts (trace (reconnect env s))).
Proof.
  rewrite reconnect_cases.
  assert (client_connect_timeouts (attempt_lookup s) = []) as Hlookup
    by (unfold attempt_lookup; now destruct (String.eqb (m_master_name s) "")).
  destruct (negb (String.eqb (m_master_name s) "")
            && negb (master_found (sentinel_says env))); cbn [trace].
  - rewrite client_connect_timeouts_app, Hlookup,
      client_connect_timeouts_attempt_notified. constructor.
  - destruct (handshake_succeeds env || m_client_is_connected s); cbn [trace];
      rewrite !client_connect_timeouts_app, Hlookup,
        client_connect_timeouts_attempt_notified; cbn [app];
      change (client_connect_timeouts (ev_client_connect ?h ?p ?t ?e :: ?rest))
        with (t :: client_connect_timeouts rest);
      rewrite ?client_connect_timeouts_app, ?client_connect_timeouts_attempt_notified,
        ?client_connect_timeouts_sends;
      [destruct (handshake_succeeds env);
         rewrite ?client_connect_timeouts_attempt_notified|];
      repeat constructor.
Qed.

Lemma reconnect_loop_timeouts (script : list attempt_env) :
  ∀ s : subscriber,
    Forall (λ timeout_ms, timeout_ms = m_connect_timeout_ms s)
      (client_connect_timeouts (trace (reconnect_loop script s))).
Proof.
  induction script as [|env script IH]; intros s;
    destruct (should_reconnect_spec s) as ([|] & Htest & _).
  - rewrite (reconnect_loop_exhausted s Htest). constructor.
  - rewrite (reconnect_loop_stops [] s Htest). constructor.
  - rewrite (reconnect_loop_iterates env script s Htest).
    destruct (cancelled_frame (cancel_during_sleep env) s) as (_ & _ & _ & _ & Ht & _).
    set (cancelled := if cancel_during_sleep env then set_cancel true s else s) in *.
    pose proof (reconnect_timeouts env cancelled) as Hattempt. rewrite Ht in Hattempt.
    destruct (reconnect_frame env cancelled) as (_ & _ & _ & _ & _ & _ & _ & Ht' & _).
    rewrite Ht in Ht'.
    assert (client_connect_timeouts (sleep_events s) = []) as Hsleep.
    { unfold sleep_events. destruct (m_reconnect_interval_ms s <=? 0)%N; [reflexivity|].
      now rewrite client_connect_timeouts_app, client_connect_timeouts_notification. }
    assert (client_connect_timeouts
              (if cancel_during_sleep env then [ev_cancel_reconnect] else []) = [])
      as Hcancel by now destruct (cancel_during_sleep env).
    destruct (result (reconnect env cancelled)) as [[]|e]; cbn [trace].
    + rewrite !client_connect_timeouts_app, Hsleep, Hcancel. cbn [app].
      apply Forall_app. split; [exact Hattempt|].
      specialize (IH (object (reconnect env cancelled))). now rewrite Ht' in IH.
    + rewrite !client_connect_timeouts_app, Hsleep, Hcancel. exact Hattempt.
  - rewrite (reconnect_loop_stops _ s Htest). constructor.
Qed.

Lemma disconnection_handler_timeouts (script : list attempt_env) (s : subscriber) :
  Forall (λ timeout_ms, timeout_ms = m_connect_timeout_ms s)
    (client_connect_timeouts (trace (connection_disconnection_handler script s))).
Proof.
  destruct (m_reconnecting s) eqn:Hrec.
  - rewrite (disconnection_handler_while_reconnecting script s Hrec). constructor.
  - rewrite (disconnection_handler_run script s Hrec).
    set (entered := set_ping_callbacks []
                      (set_current_reconnect_attempts 0 (set_reconnecting true s))).
    pose proof (reconnect_loop_timeouts script entered) as Hloop.
    assert (m_connect_timeout_ms entered = m_connect_timeout_ms s) as Ht
      by (subst entered; now destruct s).
    rewrite Ht in Hloop.
    assert (client_connect_timeouts (failed_pings s) = []) as Hpings
      by (unfold failed_pings; now destruct (m_ping_callbacks s)).
    destruct (reconnect_loop script entered) as [[[|]|e] after events];
      cbn [result object trace] in *;
      [destruct (m_client_is_connected after); cbn [trace]| |];
      rewrite !client_connect_timeouts_app, Hpings,
        !client_connect_timeouts_notification, ?app_nil_r; exact Hloop.
Qed.

(** X16 (the connect timeout is never written).  No member function
    assigns [m_connect_timeout_ms]: whatever the user calls and whatever the
    transport delivers, the member keeps the value it had, and every
    transport connect made by the disconnection handler passes that value as
    its timeout.  For a subscriber built by the constructor this value is 0,
    whatever timeouts were passed to [connect]. *)
Theorem connect_timeout_never_written (calls : list call) (script : list attempt_env) :
  (∀ s : subscriber,
     let s' := exec (lifetime calls) s in
     m_connect_timeout_ms s' = m_connect_timeout_ms s
     ∧ Forall (λ timeout_ms, timeout_ms = m_connect_timeout_ms s)
         (client_connect_timeouts (trace (connection_lost script s'))))
  ∧ Forall (λ timeout_ms, timeout_ms = 0%N)
      (client_connect_timeouts
         (trace (connection_lost script (exec (lifetime calls) subscriber_ctor)))).
Proof.
  assert (∀ s : subscriber,
            let s' := exec (lifetime calls) s in
            m_connect_timeout_ms s' = m_connect_timeout_ms s
            ∧ Forall (λ timeout_ms, timeout_ms = m_connect_timeout_ms s)
                (client_connect_timeouts (trace (connection_lost script s')))) as Hany.
  { intros s s'.
    assert (m_connect_timeout_ms s' = m_connect_timeout_ms s) as Ht.
    { apply (lifetime_keeps (λ x, m_connect_timeout_ms x = m_connect_timeout_ms s) calls
               (run_call_keeps_timeout (m_connect_timeout_ms s))).
      reflexivity. }
    split; [exact Ht|]. unfold connection_lost. rewrite bind_modify.
    pose proof (disconnection_handler_timeouts script (set_client_is_connected false s'))
      as Hloop.
    assert (m_connect_timeout_ms (set_client_is_connected false s')
            = m_connect_timeout_ms s) as Hset by (rewrite <- Ht; now destruct s').
    now rewrite Hset in Hloop. }
  split; [exact Hany | exact (proj2 (Hany subscriber_ctor))].
Qed.

(** ** After the teardown *)

Lemma late_pongs_dropped (messages : list string) (s : subscriber) :
  m_ping_callbacks s = [] →
  for_each (pong_for <$> messages) connection_receive_handler s
  = RunResult (Return tt) s [].
Proof.
  intros Hempty. induction messages as [|message messages IH]; [reflexivity|].
  rewrite fmap_cons. cbn [for_each].
  erewrite bind_returns;
    [|rewrite receive_pong_for; unfold spec_pong_dispatch; rewrite Hempty; reflexivity].
  now rewrite IH.
Qed.

(** X17 (a failed ping callback is not called again).  After [disconnect]
    the ping queue is empty, so nothing is left for a later call to invoke:
    a second [disconnect] starts no thread and only closes the transport
    again, and pongs that still arrive for the pings that were in flight
    invoke nothing and leave the object as it is. *)
Theorem failed_ping_callbacks_not_called_again (s : subscriber)
    (wait_for_removal again : bool) (messages : list string) :
  let torn := exec (disconnect wait_for_removal) s in
  m_ping_callbacks torn = []
  ∧ disconnect again torn = RunResult (Return tt) torn [ev_client_disconnect again]
  ∧ for_each (pong_for <$> messages) connection_receive_handler torn
    = RunResult (Return tt) torn [].
Proof.
  intros torn.
  assert (torn = set_ping_callbacks [] (set_client_is_connected false s)) as Htorn.
  { subst torn. unfold exec, disconnect.
    erewrite bind_returns by reflexivity. cbn [object].
    now rewrite clear_ping_callbacks_exact. }
  assert (m_ping_callbacks torn = []) as Hempty by (rewrite Htorn; now destruct s).
  split; [exact Hempty | split; [|now apply late_pongs_dropped]].
  unfold disconnect. erewrite bind_returns by reflexivity.
  rewrite clear_ping_callbacks_exact. cbn [result object trace].
  unfold failed_pings. rewrite Htorn. now destruct s.
Qed.

(** ** The one-shot slots hold one callback each *)

Lemma auth_run (password : string) (cb : reply_callback_t) (s : subscriber) :
  auth password cb s
  = RunResult (Return tt) (set_auth_reply_callback cb (set_password password s))
      [ev_client_send ["AUTH"; password]].
Proof. reflexivity. Qed.

Lemma client_setname_run (name : string) (cb : reply_callback_t) (s : subscriber) :
  client_setname name cb s
  = RunResult (Return tt)
      (set_client_setname_reply_callback cb (set_client_name name s))
      [ev_client_send ["CLIENT"; "SETNAME"; name]].
Proof. reflexivity. Qed.

(** X18 (the one-shot slots do not queue).  A second [auth] before the
    reply to the first replaces the callback of the first, which is then
    never invoked: the first non-array reply goes to the callback of the
    second call and the next one to nobody (when no CLIENT SETNAME callback
    is armed).  And after [auth] without a callback and [client_setname]
    with one, the first non-array reply to arrive, which the server sends
    for AUTH, is handed to the callback of [client_setname], and the reply
    that follows it invokes nothing. *)
Theorem one_shot_slots_do_not_queue (s : subscriber) (r1 r2 : reply)
    (Hr1 : is_array r1 = false) (Hr2 : is_array r2 = false) :
  (∀ (pw1 pw2 : string) (f1 f2 : reply_callable),
     m_client_setname_reply_callback s = None →
     let s' := exec (auth pw1 (Some f1) ;; auth pw2 (Some f2)) s in
     effects (auth pw1 (Some f1) ;; auth pw2 (Some f2)) s
     = [ev_client_send ["AUTH"; pw1]; ev_client_send ["AUTH"; pw2]]
     ∧ effects (connection_receive_handler r1) s' = [ev_reply_callback f2 r1]
     ∧ effects (connection_receive_handler r2) (exec (connection_receive_handler r1) s')
       = [])
  ∧ (∀ (password name : string) (g : reply_callable),
       let s' := exec (auth password None ;; client_setname name (Some g)) s in
       effects (auth password None ;; client_setname name (Some g)) s
       = [ev_client_send ["AUTH"; password]; ev_client_send ["CLIENT"; "SETNAME"; name]]
       ∧ effects (connection_receive_handler r1) s' = [ev_reply_callback g r1]
       ∧ effects (connection_receive_handler r2) (exec (connection_receive_handler r1) s')
         = []).
Proof.
  split.
  - intros pw1 pw2 f1 f2 Hnone s'. subst s'. unfold exec, effects.
    erewrite bind_returns by apply auth_run. rewrite auth_run. cbn [result object trace app].
    rewrite (receive_non_array r1 _ Hr1).
    destruct s; cbn in *; subst. cbn.
    rewrite (receive_non_array r2 _ Hr2). cbn. repeat split.
  - intros password name g s'. subst s'. unfold exec, effects.
    erewrite bind_returns by apply auth_run. rewrite client_setname_run.
    cbn [result object trace app].
    rewrite (receive_non_array r1 _ Hr1).
    destruct s; cbn.
    rewrite (receive_non_array r2 _ Hr2). cbn. repeat split.
Qed.

Lemma one_shot_slots_do_not_queue_witness :
  let r1 := reply_string "OK" simple_string in
  let r2 := reply_string "OK" simple_string in
  let s' := exec (auth "pw" None ;; client_setname "svc" (Some (user_reply_callable 6)))
              subscriber_ctor in
  effects (connection_receive_handler r1) s' = [ev_reply_callback (user_reply_callable 6) r1]
  ∧ effects (connection_receive_handler r2) (exec (connection_receive_handler r1) s') = [].
Proof.
  intros r1 r2 s'.
  destruct (proj2 (one_shot_slots_do_not_queue subscriber_ctor r1 r2 eq_refl eq_refl)
              "pw" "svc" (user_reply_callable 6)) as (_ & H1 & H2).
  split; [exact H1 | exact H2].
Defined.

(** ** Connecting by hand *)

(** X19 (a call of [connect] does not replay).  Unlike a reconnection
    attempt, a successful [connect] called by the user makes one call on the
    transport, the connect with the parameters of the call: whatever
    password, client name and subscriptions the object holds (from before a
    [disconnect], say), no AUTH, CLIENT SETNAME, SUBSCRIBE or PSUBSCRIBE is
    buffered and nothing is committed.  The tables, the cached password and
    client name, the one-shot slots and the ping queue are left as they
    were, and the attempt counter is not reset. *)
Theorem connect_does_not_replay (host : string) (port : N) (cb : connect_callback_t)
    (timeout_ms : N) (max_reconnects : Z) (interval_ms : N) (use_encryption : bool)
    (s : subscriber) :
  let run := connect true host port cb timeout_ms max_reconnects interval_ms
               use_encryption s in
  transport_calls (trace run) = [ev_client_connect host port timeout_ms use_encryption]
  ∧ m_client_is_connected (object run) = true
  ∧ m_subscribed_channels (object run) = m_subscribed_channels s
  ∧ m_psubscribed_channels (object run) = m_psubscribed_channels s
  ∧ m_password (object run) = m_password s
  ∧ m_client_name (object run) = m_client_name s
  ∧ m_master_name (object run) = m_master_name s
  ∧ armed_one_shots (object run) = armed_one_shots s
  ∧ m_ping_callbacks (object run) = m_ping_callbacks s
  ∧ m_current_reconnect_attempts (object run) = m_current_reconnect_attempts s
  ∧ m_cancel (object run) = m_cancel s.
Proof.
  intros run. subst run. rewrite (proj1 (connect_run _ _ _ _ _ _ _ _)).
  cbn [trace object]. split; [|destruct s; repeat split].
  rewrite transport_calls_app. destruct cb; reflexivity.
Qed.

(** X20 (a failed [connect]).  When the handshake fails, [connect] ends by
    the exception of the transport: [start] has been notified and [ok] is
    not, the connected state is what it was, and the parameters of the
    failed call (host, port, connect callback, maximal number of reconnects,
    reconnect interval, TLS flag) have replaced the cached ones, while the
    tables, the ping queue and the one-shot slots are untouched. *)
Theorem failed_connect_keeps_its_parameters (host : string) (port : N)
    (cb : connect_callback_t) (timeout_ms : N) (max_reconnects : Z) (interval_ms : N)
    (use_encryption : bool) (s : subscriber) :
  let run := connect false host port cb timeout_ms max_reconnects interval_ms
               use_encryption s in
  result run = Throw transport_failure
  ∧ connect_states (trace run) = match cb with Some _ => [start] | None => [] end
  ∧ transport_calls (trace run) = [ev_client_connect host port timeout_ms use_encryption]
  ∧ m_client_is_connected (object run) = m_client_is_connected s
  ∧ m_redis_server (object run) = host
  ∧ m_redis_port (object run) = port
  ∧ m_connect_callback (object run) = cb
  ∧ m_max_reconnects (object run) = max_reconnects
  ∧ m_reconnect_interval_ms (object run) = interval_ms
  ∧ m_use_encryption (object run) = use_encryption
  ∧ m_subscribed_channels (object run) = m_subscribed_channels s
  ∧ m_psubscribed_channels (object run) = m_psubscribed_channels s
  ∧ m_ping_callbacks (object run) = m_ping_callbacks s
  ∧ armed_one_shots (object run) = armed_one_shots s.
Proof.
  intros run. subst run. rewrite (proj2 (connect_run _ _ _ _ _ _ _ _)).
  cbn [result trace object].
  split; [reflexivity|]. split; [now destruct cb|]. split; [now destruct cb|].
  destruct s; repeat split.
Qed.

(** X21 (connecting through the sentinel).  [connect] by master name saves
    the name and asks the sentinel.  When the sentinel does not find the
    master, the call ends by a [redis_error] whose message names the master;
    no call is made on the transport and the connect callback is neither
    stored nor invoked, but the name stays saved.  When the sentinel finds
    the master, the call goes on as [connect] to the address the sentinel
    gave.  Afterwards, when the name is not empty, every reconnection
    attempt starts by asking the sentinel for that name again. *)
Theorem connect_by_name_asks_sentinel (ans : sentinel_answer) (handshake_ok : bool)
    (name : string) (cb : connect_callback_t) (timeout_ms : N) (max_reconnects : Z)
    (interval_ms : N) (use_encryption : bool) (s : subscriber) :
  let run := connect_by_name ans handshake_ok name cb timeout_ms max_reconnects
               interval_ms use_encryption s in
  let asked := set_redis_port (master_port ans)
                 (set_redis_server (master_host ans) (set_master_name name s)) in
  (master_found ans = false →
   run = RunResult
           (Throw (redis_error
                     ("cpp_redis::subscriber::connect() could not find master for m_name "
                      ++ name)))
           asked [ev_sentinel_get_master_addr_by_name name])
  ∧ (master_found ans = true →
     let direct := connect handshake_ok (master_host ans) (master_port ans) cb timeout_ms
                     max_reconnects interval_ms use_encryption asked in
     run = RunResult (result direct) (object direct)
             (ev_sentinel_get_master_addr_by_name name :: trace direct))
  ∧ m_master_name (object run) = name
  ∧ (String.eqb name "" = false →
     ∀ env : attempt_env,
       ∃ rest, trace (reconnect env (object run))
               = ev_sentinel_get_master_addr_by_name name :: rest).
Proof.
  intros run asked.
  assert (run = if master_found ans
                then let direct := connect handshake_ok (master_host ans) (master_port ans)
                                     cb timeout_ms max_reconnects interval_ms
                                     use_encryption asked in
                     RunResult (result direct) (object direct)
                       (ev_sentinel_get_master_addr_by_name name :: trace direct)
                else RunResult
                       (Throw (redis_error
                                 ("cpp_redis::subscriber::connect() could not find master for m_name "
                                  ++ name)))
                       asked [ev_sentinel_get_master_addr_by_name name]) as Hrun.
  { subst run asked. unfold connect_by_name. rewrite bind_modify.
    erewrite bind_returns by apply sentinel_get_master_addr_by_name_run.
    destruct (master_found ans); cbn [result object trace app].
    - rewrite !bind_get. now destruct s.
    - reflexivity. }
  assert (m_master_name (object run) = name) as Hname.
  { rewrite Hrun. destruct (master_found ans); cbn [object]; [|subst asked; now destruct s].
    destruct handshake_ok.
    - rewrite (proj1 (connect_run _ _ _ _ _ _ _ _)). subst asked. now destruct s.
    - rewrite (proj2 (connect_run _ _ _ _ _ _ _ _)). subst asked. now destruct s. }
  split; [intros Hfound; now rewrite Hrun, Hfound|].
  split; [intros Hfound; now rewrite Hrun, Hfound|].
  split; [exact Hname|].
  intros Hnonempty env. rewrite reconnect_cases. unfold attempt_lookup.
  rewrite Hname, Hnonempty.
  destruct (negb false && negb (master_found (sentinel_says env)));
    [|destruct (handshake_succeeds env || m_client_is_connected (object run))];
    cbn [trace app]; eexists; reflexivity.
Qed.

Lemma connect_by_name_asks_sentinel_witness :
  let run := connect_by_name sentinel_names_master true "mymaster" (Some 9) 5000 3 100 false
               subscriber_ctor in
  trace run
  = [ev_sentinel_get_master_addr_by_name "mymaster";
     ev_connect_callback 9 "10.0.0.2" 6380 start;
     ev_client_connect "10.0.0.2" 6380 5000 false;
     ev_connect_callback 9 "10.0.0.2" 6380 ok]
  ∧ connect_by_name no_sentinel true "mymaster" (Some 9) 5000 3 100 false subscriber_ctor
    = RunResult
        (Throw (redis_error
                  "cpp_redis::subscriber::connect() could not find master for m_name mymaster"))
        (set_master_name "mymaster" subscriber_ctor)
        [ev_sentinel_get_master_addr_by_name "mymaster"].
Proof.
  intros run. split.
  - subst run.
    rewrite (proj1 (proj2 (connect_by_name_asks_sentinel sentinel_names_master true
                             "mymaster" (Some 9) 5000 3 100 false subscriber_ctor))
               eq_refl).
    reflexivity.
  - exact (proj1 (connect_by_name_asks_sentinel no_sentinel true "mymaster" (Some 9)
                    5000 3 100 false subscriber_ctor) eq_refl).
Defined.

(** ** Sleeping between the attempts *)

(** The events of the disconnection handler around those of its loop. *)
Lemma disconnection_handler_trace (script : list attempt_env) (s : subscriber) :
  m_reconnecting s = false →
  let loop := reconnect_loop script
                (set_ping_callbacks []
                   (set_current_reconnect_attempts 0 (set_reconnecting true s))) in
  ∃ stop : list event,
    trace (connection_disconnection_handler script s)
    = notification s dropped ++ failed_pings s ++ trace loop ++ stop
    ∧ (stop = [] ∨ stop = notification (object loop) stopped).
Proof.
  intros Hrec loop. rewrite (disconnection_handler_run script s Hrec). fold loop.
  destruct (result loop) as [[|]|e]; [destruct (m_client_is_connected (object loop))| |];
    cbn [trace]; rewrite <- ?app_assoc.
  2: { exists (notification (object loop) stopped). split; [reflexivity | now right]. }
  all: exists []; rewrite app_nil_r; split; [reflexivity | now left].
Qed.

Lemma loop_steps_app (master_name : string) (t1 t2 : list event) :
  loop_steps master_name (t1 ++ t2) = loop_steps master_name t1 ++ loop_steps master_name t2.
Proof. unfold loop_steps. apply omap_app. Qed.

Lemma loop_steps_notification (master_name : string) (s : subscriber)
    (status : connect_state) :
  loop_steps master_name (notification s status) = [].
Proof. unfold notification. now destruct (m_connect_callback s). Qed.

Lemma loop_steps_failed_pings (master_name : string) (s : subscriber) :
  loop_steps master_name (failed_pings s) = [].
Proof. unfold failed_pings. now destruct (m_ping_callbacks s). Qed.

Lemma loop_steps_sleep_events (master_name : string) (s : subscriber) :
  loop_steps master_name (sleep_events s) ++ [attempted]
  = iteration_steps (m_reconnect_interval_ms s).
Proof.
  unfold sleep_events, iteration_steps.
  destruct (m_reconnect_interval_ms s <=? 0)%N; [reflexivity|].
  now rewrite loop_steps_app, loop_steps_notification.
Qed.

Lemma loop_steps_cancel (master_name : string) (c : bool) :
  loop_steps master_name (if c then [ev_cancel_reconnect] else []) = [].
Proof. now destruct c. Qed.

Lemma loop_steps_connect (master_name host : string) (port timeout_ms : N)
    (use_encryption : bool) (rest : list event) :
  loop_steps master_name (ev_client_connect host port timeout_ms use_encryption :: rest)
  = (if String.eqb master_name "" then [attempted] else []) ++ loop_steps master_name rest.
Proof. unfold loop_steps. cbn. now destruct (String.eqb master_name ""). Qed.

Lemma loop_steps_attempt_lookup (s : subscriber) :
  loop_steps (m_master_name s) (attempt_lookup s)
  = if String.eqb (m_master_name s) "" then [] else [attempted].
Proof.
  unfold attempt_lookup.
  destruct (String.eqb (m_master_name s) "") eqn:Hname; [reflexivity|].
  unfold loop_steps. cbn. now rewrite Hname.
Qed.

(** An attempt never sleeps, and makes its first call once. *)
Lemma loop_steps_reconnect (env : attempt_env) (s : subscriber) :
  loop_steps (m_master_name s) (trace (reconnect env s)) = [attempted].
Proof.
  assert (∀ st, loop_steps (m_master_name s) (attempt_notified env s st) = []) as Hnotified
    by (intros st; unfold attempt_notified; now destruct (m_connect_callback s)).
  assert (∀ cmds : list (list string),
            loop_steps (m_master_name s) (ev_client_send <$> cmds) = []) as Hsends
    by (intros cmds; induction cmds as [|c cmds IH]; [reflexivity | exact IH]).
  rewrite reconnect_cases.
  destruct (negb (String.eqb (m_master_name s) "")
            && negb (master_found (sentinel_says env))) eqn:Hfail;
    [|destruct (handshake_succeeds env || m_client_is_connected s)];
    cbn [trace];
    repeat (rewrite loop_steps_app || rewrite loop_steps_connect);
    rewrite loop_steps_attempt_lookup, ?Hnotified, ?Hsends;
    try (destruct (handshake_succeeds env); rewrite ?Hnotified);
    destruct (String.eqb (m_master_name s) ""); try discriminate Hfail; reflexivity.
Qed.

Lemma reconnect_loop_steps (script : list attempt_env) :
  ∀ s : subscriber,
    ∃ iterations : nat,
      (iterations ≤ length script)%nat
      ∧ loop_steps (m_master_name s) (trace (reconnect_loop script s))
        = concat (replicate iterations (iteration_steps (m_reconnect_interval_ms s)))
      ∧ ((0 ≤ m_current_reconnect_attempts s)%Z →
         (m_current_reconnect_attempts s + Z.of_nat (length script) < 2 ^ 31)%Z →
         m_current_reconnect_attempts (object (reconnect_loop script s))
         = (m_current_reconnect_attempts s + Z.of_nat iterations)%Z).
Proof.
  induction script as [|env script IH]; intros s;
    destruct (should_reconnect_spec s) as ([|] & Htest & _).
  - rewrite (reconnect_loop_exhausted s Htest). exists 0.
    split; [reflexivity | split; [reflexivity | intros; cbn [object]; lia]].
  - rewrite (reconnect_loop_stops [] s Htest). exists 0.
    split; [reflexivity | split; [reflexivity | intros; cbn [object]; lia]].
  - rewrite (reconnect_loop_iterates env script s Htest).
    set (cancelled := if cancel_during_sleep env then set_cancel true s else s).
    assert (m_reconnect_interval_ms cancelled = m_reconnect_interval_ms s
            ∧ m_master_name cancelled = m_master_name s
            ∧ m_current_reconnect_attempts cancelled = m_current_reconnect_attempts s)
      as (Hi & Hn & Ha)
      by (subst cancelled; destruct (cancel_during_sleep env), s; repeat split).
    destruct (reconnect_frame env cancelled)
      as (Ha' & _ & _ & _ & Hn' & _ & _ & _ & Hi' & _).
    rewrite Hi in Hi'. rewrite Hn in Hn'. rewrite Ha in Ha'.
    pose proof (loop_steps_reconnect env cancelled) as Hattempt. rewrite Hn in Hattempt.
    destruct (result (reconnect env cancelled)) as [[]|e]; cbn [trace object].
    + destruct (IH (object (reconnect env cancelled))) as (iterations & Hle & Hsteps & Hcount).
      rewrite Hi', Hn' in Hsteps. rewrite Ha' in Hcount.
      exists (S iterations). split; [cbn [length]; lia|]. split.
      * rewrite !loop_steps_app, loop_steps_cancel, Hattempt, Hsteps, app_nil_r.
        rewrite app_assoc, loop_steps_sleep_events. reflexivity.
      * intros Hpos Hsmall. cbn [length] in Hsmall.
        rewrite int32_wrap_small in Hcount by lia. rewrite Hcount; lia.
    + exists 1. split; [cbn [length]; lia|]. split.
      * rewrite !loop_steps_app, loop_steps_cancel, Hattempt, app_nil_r.
        rewrite loop_steps_sleep_events. cbn. now rewrite app_nil_r.
      * intros Hpos Hsmall. cbn [length] in Hsmall.
        rewrite Ha', int32_wrap_small by lia. lia.
  - rewrite (reconnect_loop_stops _ s Htest). exists 0.
    split; [lia | split; [reflexivity | intros; cbn [object]; lia]].
Qed.

(** X22 (a pause before every attempt).  Of a run of the disconnection
    handler, take the pauses and the first call of each attempt (the lookup
    of the master when a master name is set, the transport connect
    otherwise), in the order of the trace.  With a positive reconnect
    interval they are, once for each iteration of the loop, a pause of
    exactly the interval followed by the attempt: every attempt, the first
    included, comes right after one pause, and there is no pause anywhere
    else, neither two in a row nor one after the last attempt.  With an
    interval of 0 there is no pause at all.  The iterations are the calls of
    [reconnect], which the handler counts from 0 in
    [m_current_reconnect_attempts], and there are no more of them than the
    collaborators gave answers. *)
Theorem pause_before_every_attempt (script : list attempt_env) (s : subscriber) :
  let run := connection_disconnection_handler script s in
  ∃ iterations : nat,
    (iterations ≤ length script)%nat
    ∧ loop_steps (m_master_name s) (trace run)
      = concat (replicate iterations (iteration_steps (m_reconnect_interval_ms s)))
    ∧ (m_reconnecting s = false → (Z.of_nat (length script) < 2 ^ 31)%Z →
       m_current_reconnect_attempts (object run) = Z.of_nat iterations).
Proof.
  intros run. subst run. destruct (m_reconnecting s) eqn:Hrec.
  - rewrite (disconnection_handler_while_reconnecting script s Hrec). exists 0.
    split; [lia | split; [reflexivity | discriminate]].
  - destruct (disconnection_handler_trace script s Hrec) as (stop & Htrace & Hstop).
    rewrite Htrace. clear Htrace.
    rewrite (disconnection_handler_run script s Hrec).
    set (entered := set_ping_callbacks []
                      (set_current_reconnect_attempts 0 (set_reconnecting true s))) in *.
    destruct (reconnect_loop_steps script entered) as (iterations & Hle & Hsteps & Hcount).
    assert (m_reconnect_interval_ms entered = m_reconnect_interval_ms s
            ∧ m_master_name entered = m_master_name s
            ∧ m_current_reconnect_attempts entered = 0%Z) as (Hi & Hn & Ha)
      by (subst entered; now destruct s).
    rewrite Hi, Hn in Hsteps. rewrite Ha in Hcount.
    assert (loop_steps (m_master_name s) stop = []) as Hstop_steps
      by (destruct Hstop as [->| ->]; [reflexivity | apply loop_steps_notification]).
    exists iterations. split; [exact Hle|]. split.
    + now rewrite !loop_steps_app, loop_steps_notification, loop_steps_failed_pings,
        Hstop_steps, app_nil_r.
    + intros _ Hsmall. specialize (Hcount ltac:(lia) ltac:(lia)).
      rewrite Z.add_0_l in Hcount.
      destruct (reconnect_loop script entered) as [[[|]|e] after events];
        cbn [result object] in *; [destruct (m_client_is_connected after)| |];
        cbn [object]; rewrite <- Hcount; now destruct after.
Qed.

Lemma pause_before_every_attempt_witness :
  let run := connection_disconnection_handler
               [env_handshake_fails; env_reconnects] subscriber_dropped in
  loop_steps (m_master_name subscriber_dropped) (trace run)
  = [paused 100; attempted; paused 100; attempted].
Proof.
  intros run.
  destruct (pause_before_every_attempt [env_handshake_fails; env_reconnects]
              subscriber_dropped) as (iterations & _ & Hsteps & Hcount).
  specialize (Hcount eq_refl eq_refl).
  assert (iterations = 2) as -> by (apply Nat2Z.inj; rewrite <- Hcount; reflexivity).
  exact Hsteps.
Defined.

(** ** Receiving after a reconnection *)

(** X23 (the handlers are in place after a reconnection).  For a channel
    that is in the channel table with a message handler and an
    acknowledgement handler, a reconnection attempt that succeeds buffers
    SUBSCRIBE for the channel again, and on the object it leaves, the
    acknowledgement the server sends for that SUBSCRIBE invokes the
    acknowledgement handler once more, and a message on the channel invokes
    the message handler. *)
Theorem handlers_in_place_after_reconnect (env : attempt_env) (s : subscriber)
    (channel payload : string) (f g : nat) (nb_chans : Z)
    (Hhandshake : handshake_succeeds env = true)
    (Hmaster : String.eqb (m_master_name s) "" || master_found (sentinel_says env) = true)
    (Hchannel : m_subscribed_channels s !! channel
                = Some {| subscribe_callback := Some f;
                          acknowledgement_callback := Some g |}) :
  let s' := object (reconnect env s) in
  ev_client_send ["SUBSCRIBE"; channel] ∈ trace (reconnect env s)
  ∧ effects (connection_receive_handler (subscribe_ack_reply channel nb_chans)) s'
    = [ev_acknowledgement_callback g nb_chans]
  ∧ effects (connection_receive_handler (message_reply channel payload)) s'
    = [ev_subscribe_callback (Some f) channel payload].
Proof.
  intros s'. subst s'.
  destruct (reconnect_frame env s)
    as (_ & _ & _ & _ & _ & _ & _ & _ & _ & _ & _ & _ & Hc & _).
  unfold effects. rewrite receive_subscribe_ack, receive_message. cbn [trace].
  rewrite Hc, Hchannel. cbn [subscribe_callback acknowledgement_callback].
  split; [|split; reflexivity].
  rewrite reconnect_cases, <- negb_orb, Hmaster, Hhandshake. cbn [negb orb trace].
  rewrite !elem_of_app. right. right. rewrite elem_of_cons. right.
  rewrite !elem_of_app. right. right. left.
  apply list_elem_of_fmap. exists ["SUBSCRIBE"; channel]. split; [reflexivity|].
  apply replay_commands_subscribe. rewrite Hchannel. now eexists.
Qed.

Lemma handlers_in_place_after_reconnect_witness :
  let s := exec (subscribe "x" (Some 1) (Some 2)) subscriber_dropped in
  let s' := object (reconnect env_reconnects s) in
  effects (connection_receive_handler (subscribe_ack_reply "x" 1)) s'
  = [ev_acknowledgement_callback 2 1]
  ∧ effects (connection_receive_handler (message_reply "x" "hello")) s'
    = [ev_subscribe_callback (Some 1) "x" "hello"].
Proof.
  intros s s'.
  destruct (handlers_in_place_after_reconnect env_reconnects s "x" "hello" 1 2 1
              eq_refl eq_refl eq_refl) as (_ & Hack & Hmsg).
  split; [exact Hack | exact Hmsg].
Defined.

(** ** Subscribing without a message handler *)

(** X24 (an empty message handler makes the receive handler throw).  The
    acknowledgement handler of an entry is called only when it is not
    empty, but the message handler is called without a test.  After a
    [subscribe] that passed an empty message handler, the acknowledgement of
    the subscription is handled as usual, and a message on the channel makes
    the receive handler end by [std::bad_function_call], with nothing
    invoked and the object unchanged; after a [psubscribe] that passed an
    empty message handler, a pmessage for the pattern does the same. *)
Theorem empty_message_handler_throws (s : subscriber) (name channel payload : string)
    (ack : acknowledgement_callback_t) (nb_chans : Z) :
  let subscribed := exec (subscribe name None ack) s in
  let psubscribed := exec (psubscribe name None ack) s in
  let acknowledged := match ack with
                      | Some g => [ev_acknowledgement_callback g nb_chans]
                      | None => []
                      end in
  connection_receive_handler (subscribe_ack_reply name nb_chans) subscribed
  = RunResult (Return tt) subscribed acknowledged
  ∧ connection_receive_handler (message_reply name payload) subscribed
    = RunResult (Throw bad_function_call) subscribed []
  ∧ connection_receive_handler (psubscribe_ack_reply name nb_chans) psubscribed
    = RunResult (Return tt) psubscribed acknowledged
  ∧ connection_receive_handler (pmessage_reply name channel payload) psubscribed
    = RunResult (Throw bad_function_call) psubscribed [].
Proof.
  intros subscribed psubscribed acknowledged. subst subscribed psubscribed acknowledged.
  unfold exec. rewrite subscribe_run, psubscribe_run. cbn [object].
  rewrite receive_message, receive_subscribe_ack, receive_pmessage, receive_psubscribe_ack.
  rewrite subscribed_channels_set, psubscribed_channels_set, !lookup_insert_eq.
  repeat split.
Qed.
